(** * Cloud storage bot: intake, classification and retrieval relay

    A shallow embedding of [src/bot.py].  Pure helpers ([classify_file],
    [format_size]) are Rocq functions; the handlers are functions of the
    request and of the observable behaviour of their collaborators (the
    Telegram client, the upstream HTTP fetch, the Firestore collection),
    returning the HTTP response together with the calls they made. *)

From Stdlib Require Import ZArith QArith String Ascii List Bool Lia.
From Stdlib Require Import Sorting.Sorted Sorting.Permutation.
From stdpp Require Import base gmap strings.
Import ListNotations.

Open Scope string_scope.
Open Scope Z_scope.

(** ** Python built-ins used by the source *)

Module Py.

(** A Python string is modelled by its UTF-8 encoding, a Rocq string of
    bytes: an ASCII character is one byte below 128, every other character
    a sequence of bytes from 128 on.

    [lower] sets the ASCII letters in lower case and leaves every other
    byte as it is.  It is what [str.lower] does on an ASCII string.  On
    other strings [str.lower] follows the Unicode tables, which are not
    part of this file: where the source lower-cases a file name
    ([classify_file]), the built-in is a parameter [str_lower].  In
    [handle_api_download] the lower-cased error text is only searched for
    the ASCII text "file is too big", and there [lower] finds it exactly
    when [str.lower] does: the two agree on the ASCII characters of the
    text, and the only other characters whose lower-case form holds an
    ASCII letter are U+212A, which gives k, a letter that is not in the
    text searched for, and U+0130, which gives i followed by a combining
    dot, where the text searched for has a letter or a blank after each
    i. *)

Definition is_ascii_char (c : ascii) : bool := (nat_of_ascii c <? 128)%nat.

Fixpoint is_ascii (s : string) : bool :=
  match s with
  | EmptyString => true
  | String c r => (is_ascii_char c && is_ascii r)%bool
  end.

Definition lower_ascii (c : ascii) : ascii :=
  let n := nat_of_ascii c in
  if ((65 <=? n)%nat && (n <=? 90)%nat)%bool then ascii_of_nat (n + 32) else c.

Fixpoint lower (s : string) : string :=
  match s with
  | EmptyString => EmptyString
  | String c r => String (lower_ascii c) (lower r)
  end.

(** Truthiness of an optional string: [None] and [""] are falsy. *)
Definition truthy (o : option string) : bool :=
  match o with
  | None => false
  | Some s => negb (s =? "")%string
  end.

(** [a or b] on an optional string with a string default. *)
Definition or_default (o : option string) (d : string) : string :=
  match o with
  | Some s => if (s =? "")%string then d else s
  | None => d
  end.

(** [s.startswith(p)] *)
Definition startswith (s p : string) : bool := String.prefix p s.

(** [c in s] for a one-character needle. *)
Fixpoint contains_char (c : ascii) (s : string) : bool :=
  match s with
  | EmptyString => false
  | String a r => (Ascii.eqb a c || contains_char c r)%bool
  end.

(** [sub in s] for a string needle. *)
Fixpoint contains (sub s : string) : bool :=
  (String.prefix sub s ||
   match s with
   | EmptyString => false
   | String _ r => contains sub r
   end)%bool.

(** [s.rsplit(sep, 1)] for a one-character separator: split once, at the
    rightmost separator; a string without separator is returned whole. *)
Fixpoint rsplit1 (sep : ascii) (s : string) : list string :=
  match s with
  | EmptyString => [EmptyString]
  | String c r =>
      match rsplit1 sep r with
      | [a; b] => [String c a; b]
      | _ => if Ascii.eqb c sep then [EmptyString; r] else [String c r]
      end
  end.

(** [l[-1]] on a list of strings ([IndexError] cannot arise at the uses
    below, where the list is never empty). *)
Definition last_item (l : list string) : string := List.last l EmptyString.

(** [x in (a, b, ...)] on strings. *)
Definition in_tuple (x : string) (t : list string) : bool :=
  existsb (String.eqb x) t.

Definition digit (d : Z) : ascii := ascii_of_nat (48 + Z.to_nat d).

(** Decimal digits of a natural number, most significant first.  The fuel
    given by [decimal] exceeds the number of digits. *)
Fixpoint digits_fuel (fuel : nat) (n : Z) (acc : string) : string :=
  match fuel with
  | O => acc
  | S f =>
      let acc' := String (digit (n mod 10)) acc in
      if n <? 10 then acc' else digits_fuel f (n / 10) acc'
  end.

Definition decimal (n : Z) : string :=
  digits_fuel (S (Z.to_nat (Z.log2 n))) n EmptyString.

(** [str(n)] and [f"{n}"] on an integer. *)
Definition str_int (n : Z) : string :=
  if n <? 0 then "-" ++ decimal (- n) else decimal n.

(** [f"{x}"] on an optional string. *)
Definition str_opt (o : option string) : string :=
  match o with
  | Some s => s
  | None => "None"
  end.

Definition upper_ascii (c : ascii) : ascii :=
  let n := nat_of_ascii c in
  if ((97 <=? n)%nat && (n <=? 122)%nat)%bool then ascii_of_nat (n - 32) else c.

Definition is_letter (c : ascii) : bool :=
  let n := nat_of_ascii c in
  (((65 <=? n)%nat && (n <=? 90)%nat) || ((97 <=? n)%nat && (n <=? 122)%nat))%bool.

(** [s.title()]: a letter that follows a non-letter is set in upper
    case, every other letter in lower case. *)
Fixpoint title_from (after_letter : bool) (s : string) : string :=
  match s with
  | EmptyString => EmptyString
  | String c r =>
      String (if after_letter then lower_ascii c else upper_ascii c)
             (title_from (is_letter c) r)
  end.

Definition title (s : string) : string := title_from false s.

Definition nl : string := String "010"%char EmptyString.
Definition dquote : string := String "034"%char EmptyString.

End Py.

(** ** FileClassifier: [classify_file] (bot.py, lines 65-77) *)

Module Classify.

Definition image_exts : list string :=
  ["jpg"; "jpeg"; "png"; "gif"; "bmp"; "webp"; "svg"; "tiff"].

Definition media_exts : list string :=
  ["mp4"; "mov"; "avi"; "mkv"; "mp3"; "ogg"; "wav"; "flac"; "aac"].

Definition dot : ascii := "."%char.

Section WithLower.

(** [str.lower], the built-in of Python. *)
Variable str_lower : string -> string.

(** The extension computed at line 72. *)
Definition ext_of (file_name : string) : string :=
  if Py.contains_char dot file_name
  then str_lower (Py.last_item (Py.rsplit1 dot file_name))
  else "".

(** The [if file_name:] block, lines 71-76; [None] stands for falling
    through to line 77. *)
Definition classify_by_name (file_name : option string) : option string :=
  match file_name with
  | Some n =>
      if Py.truthy (Some n) then
        let ext := ext_of n in
        if Py.in_tuple ext image_exts then Some "image"
        else if Py.in_tuple ext media_exts then Some "media"
        else None
      else None
  | None => None
  end.

(** The [if mime_type:] block, lines 66-70. *)
Definition classify_by_mime (mime_type : option string) : option string :=
  match mime_type with
  | Some m =>
      if Py.truthy (Some m) then
        if Py.startswith m "image" then Some "image"
        else if (Py.startswith m "video" || Py.startswith m "audio")%bool
             then Some "media"
        else None
      else None
  | None => None
  end.

Definition classify_file (mime_type file_name : option string) : string :=
  match classify_by_mime mime_type with
  | Some c => c
  | None =>
      match classify_by_name file_name with
      | Some c => c
      | None => "document"
      end
  end.

(** *** The classifier as the specification words it *)

(** Position of the last occurrence of [c] in [s]. *)
Fixpoint last_index (c : ascii) (s : string) : option nat :=
  match s with
  | EmptyString => None
  | String a r =>
      match last_index c r with
      | Some i => Some (S i)
      | None => if Ascii.eqb a c then Some 0%nat else None
      end
  end.

(** "substring after the last [.], lowercased; empty if no [.] present";
    an absent file name has no [.]. *)
Definition spec_extension (file_name : option string) : string :=
  match file_name with
  | None => ""
  | Some n =>
      match last_index dot n with
      | Some i => str_lower (String.substring (S i) (String.length n - S i) n)
      | None => ""
      end
  end.

Definition mime_has_prefix (mime_type : option string) (p : string) : bool :=
  match mime_type with
  | Some m => String.prefix p m
  | None => false
  end.

(** The two extension sets, as the specification lists them. *)
Definition spec_image_exts : list string :=
  ["jpg"; "jpeg"; "png"; "gif"; "bmp"; "webp"; "svg"; "tiff"].

Definition spec_media_exts : list string :=
  ["mp4"; "mov"; "avi"; "mkv"; "mp3"; "ogg"; "wav"; "flac"; "aac"].

Definition classify_spec (mime_type file_name : option string) : string :=
  if mime_has_prefix mime_type "image" then "image"
  else if (mime_has_prefix mime_type "video"
           || mime_has_prefix mime_type "audio")%bool then "media"
  else if Py.in_tuple (spec_extension file_name) spec_image_exts then "image"
  else if Py.in_tuple (spec_extension file_name) spec_media_exts then "media"
  else "document".

End WithLower.

End Classify.

(** ** Results of calls that may raise *)

(** A Python call either returns or raises; [Raise] carries [str(e)]. *)
Inductive pyres (A : Type) : Type :=
| Ret (a : A)
| Raise (msg : string).
Arguments Ret {A} a.
Arguments Raise {A} msg.

(** ** SizeFormatter: [format_size] (bot.py, lines 80-88) *)

Module Format.

(** A Python float is an IEEE binary64 number; the model carries the
    rational it denotes.  The three float operations of [format_size] are
    modelled exactly:
    - [float(n)] rounds the integer to 53 significant bits, ties to even,
      and raises [OverflowError] from 2^1024 on;
    - [s / 1024], applied only where [s >= 1024], is a change of exponent
      and loses nothing;
    - the format [.1f] prints the decimal with one fractional digit
      nearest to the exact value, ties to even. *)

Definition round_half_even (a d : Z) : Z :=
  let q := a / d in
  let r := a mod d in
  if ((2 * r >? d) || ((2 * r =? d) && Z.odd q))%bool then q + 1 else q.

(** Nearest integer with at most 53 significant bits, for [a > 0]. *)
Definition round53 (a : Z) : Z :=
  let e := Z.log2 a - 52 in
  if e <=? 0 then a else round_half_even a (2 ^ e) * 2 ^ e.

Definition float_of_int (n : Z) : pyres Q :=
  let m := round53 (Z.abs n) in
  if m <? 2 ^ 1024 then Ret (inject_Z (Z.sgn n * m))
  else Raise "int too large to convert to float".

Definition Qltb (a b : Q) : bool := negb (Qle_bool b a).

(** [f"{s:.1f}"] *)
Definition fmt_1f (s : Q) : string :=
  let t := round_half_even (Z.abs (Qnum s) * 10) (Zpos (Qden s)) in
  (if Qnum s <? 0 then "-" else "")
    ++ Py.decimal (t / 10)
    ++ String "."%char (String (Py.digit (t mod 10)) EmptyString).

Definition units : list string := ["B"; "KB"; "MB"; "GB"].

(** The [for unit in ...] loop, lines 84-88. *)
Fixpoint format_loop (us : list string) (s : Q) : string :=
  match us with
  | [] => fmt_1f s ++ " TB"
  | unit :: rest =>
      if Qltb s (inject_Z 1024) then fmt_1f s ++ " " ++ unit
      else format_loop rest (s / inject_Z 1024)
  end.

(** [not size_bytes] holds for [None] and for [0]. *)
Definition format_size (size_bytes : option Z) : pyres string :=
  match size_bytes with
  | None => Ret "unknown"
  | Some n =>
      if n =? 0 then Ret "unknown"
      else match float_of_int n with
           | Ret s => Ret (format_loop units s)
           | Raise e => Raise e
           end
  end.

(** *** The wording of the specification *)

(** The value scaled [k] times by 1024. *)
Definition scaled (v : Q) (k : nat) : Q :=
  Nat.iter k (fun s => s / inject_Z 1024)%Q v.

Definition unit_name (k : nat) : string :=
  nth k (units ++ ["TB"]) "TB".

End Format.

(** ** Python values held in documents and JSON bodies *)

#[local] Set Warnings "-register-all".

Inductive value : Type :=
| VNone
| VBool (b : bool)
| VInt (n : Z)
| VStr (s : string)
| VTimestamp (micros : Z)          (* a stored datetime, microseconds since the epoch *)
| VServerTimestamp                 (* the sentinel [firestore.SERVER_TIMESTAMP] *)
| VList (items : list value)
| VMap (entries : list (string * value)).

Module Val.

Definition of_opt_str (o : option string) : value :=
  match o with Some s => VStr s | None => VNone end.

Definition of_opt_int (o : option Z) : value :=
  match o with Some n => VInt n | None => VNone end.

(** Truthiness, as [if v:] and [not v] test it. *)
Definition truthy (v : value) : bool :=
  match v with
  | VNone => false
  | VBool b => b
  | VInt n => negb (n =? 0)
  | VStr s => negb (s =? "")%string
  | VTimestamp _ => true
  | VServerTimestamp => true
  | VList l => match l with [] => false | _ => true end
  | VMap m => match m with [] => false | _ => true end
  end.

Definition type_name (v : value) : string :=
  match v with
  | VNone => "NoneType"
  | VBool _ => "bool"
  | VInt _ => "int"
  | VStr _ => "str"
  | VTimestamp _ => "DatetimeWithNanoseconds"
  | VServerTimestamp => "Sentinel"
  | VList _ => "list"
  | VMap _ => "dict"
  end.

Definition attribute_error {A} (v : value) (attr : string) : pyres A :=
  Raise ("'" ++ type_name v ++ "' object has no attribute '" ++ attr ++ "'").

Fixpoint assoc (k : string) (m : list (string * value)) : option value :=
  match m with
  | [] => None
  | (k', v) :: r => if (k' =? k)%string then Some v else assoc k r
  end.

(** [v.get(k, default)]; only a dict has the method. *)
Definition get (v : value) (k : string) (default : value) : pyres value :=
  match v with
  | VMap m => Ret (match assoc k m with Some x => x | None => default end)
  | _ => attribute_error v "get"
  end.

(** What [json.dumps] accepts. *)
Fixpoint json_serializable (v : value) : bool :=
  match v with
  | VTimestamp _ | VServerTimestamp => false
  | VList l => forallb json_serializable l
  | VMap m => forallb (fun kv => json_serializable (snd kv)) m
  | _ => true
  end.

End Val.

(** ** The Firestore collection "files" *)

Module Firestore.

(** A document snapshot: [doc.id] and [doc.to_dict()]. *)
Record snapshot : Type := { doc_id : string; doc_fields : gmap string value }.

(** The collection in the order in which [stream()] yields it; [fault]
    is the error every call raises while the store cannot be reached. *)
Record collection : Type := { docs : list snapshot; fault : option string }.

(** What the server chooses when a document is added: its identifier, the
    time that replaces the sentinel, and the place the document takes in
    the order of [stream()]. *)
Record assigned : Type := { new_id : string; now : Z; position : nat }.

(** On a write the server puts its own time in place of the sentinel. *)
Definition resolve (now : Z) (v : value) : value :=
  match v with
  | VServerTimestamp => VTimestamp now
  | _ => v
  end.

Definition place (p : nat) (doc : snapshot) (l : list snapshot) : list snapshot :=
  (firstn p l ++ doc :: skipn p l)%list.

(** [db.collection("files").add(data)] *)
Definition add (a : assigned) (data : gmap string value)
           (db : collection) : pyres collection :=
  match fault db with
  | Some e => Raise e
  | None =>
      Ret {| docs := place (position a)
                           {| doc_id := new_id a;
                              doc_fields := resolve (now a) <$> data |}
                           (docs db);
             fault := None |}
  end.

(** [db.collection("files").stream()] *)
Definition stream (db : collection) : pyres (list snapshot) :=
  match fault db with
  | Some e => Raise e
  | None => Ret (docs db)
  end.

End Firestore.

(** ** IngestHandler: [handle_file] (bot.py, lines 117-169) *)

Module Ingest.

(** The attributes the handler reads on [Document], [PhotoSize],
    [Video], [Audio], [Voice], [VideoNote] and [Animation]. *)
Record tg_file : Type := {
  file_id : string;
  file_unique_id : string;
  file_name : option string;
  mime_type : option string;
  file_size : option Z
}.

Record Message : Type := {
  message_id : Z;
  chat : Z;                          (* [message.chat.id] *)
  document : option tg_file;
  photo : option (list tg_file);
  video : option tg_file;
  audio : option tg_file;
  voice : option tg_file;
  video_note : option tg_file;
  animation : option tg_file
}.

(** The four variables set at lines 121-144. *)
Record fields : Type := {
  f_file_id : option string;
  f_file_name : option string;
  f_file_size : option Z;
  f_mime_type : option string
}.

Definition mk (i : string) (n : string) (s : option Z) (m : option string) : fields :=
  {| f_file_id := Some i; f_file_name := Some n; f_file_size := s; f_mime_type := m |}.

(** [if message.photo:] holds for a non-empty list; [message.photo[-1]]
    is its last element. *)
Definition last_photo (p : option (list tg_file)) : option tg_file :=
  match p with
  | Some l => List.last (List.map Some l) None
  | None => None
  end.

(** The [if]/[elif] chain, lines 123-144. *)
Definition extract (message : Message) : fields :=
  match document message with
  | Some d => mk (file_id d) (Py.or_default (file_name d) "document")
                 (file_size d) (mime_type d)
  | None =>
  match last_photo (photo message) with
  | Some p => mk (file_id p) ("photo_" ++ file_unique_id p ++ ".jpg")
                 (file_size p) (Some "image/jpeg")
  | None =>
  match video message with
  | Some v => mk (file_id v) (Py.or_default (file_name v) "video.mp4")
                 (file_size v) (Some (Py.or_default (mime_type v) "video/mp4"))
  | None =>
  match audio message with
  | Some a => mk (file_id a) (Py.or_default (file_name a) "audio.mp3")
                 (file_size a) (Some (Py.or_default (mime_type a) "audio/mpeg"))
  | None =>
  match voice message with
  | Some v => mk (file_id v) ("voice_" ++ Py.str_int (message_id message) ++ ".ogg")
                 (file_size v) (Some "audio/ogg")
  | None =>
  match video_note message with
  | Some v => mk (file_id v) ("videonote_" ++ Py.str_int (message_id message) ++ ".mp4")
                 (file_size v) (Some "video/mp4")
  | None =>
  match animation message with
  | Some a => mk (file_id a) (Py.or_default (file_name a) "animation.gif")
                 (file_size a) (Some (Py.or_default (mime_type a) "image/gif"))
  | None =>
      {| f_file_id := None; f_file_name := None;
         f_file_size := None; f_mime_type := None |}
  end end end end end end end.

(** What the bot does in the chat. *)
Inductive chat_action : Type :=
| Answer (text : string)
| EditText (text : string).

Definition saving_text : string := "⏳ <b>Saving to cloud...</b>".
Definition unprocessable_text : string := "❌ Could not process this file.".

Definition saved_text (file_name size category : string) : string :=
  "✅ <b>Saved to cloud!</b>" ++ Py.nl ++ Py.nl
    ++ "📄 <b>" ++ file_name ++ "</b>" ++ Py.nl
    ++ "📦 " ++ size ++ " · " ++ Py.title category ++ Py.nl ++ Py.nl
    ++ "Open <b>☁️ My Files</b> to see it.".

Definition failed_text (e : string) : string :=
  "❌ <b>Failed to save</b>" ++ Py.nl ++ Py.nl ++ e.

(** The dictionary of lines 151-155. *)
Definition doc_data (f : fields) (category chat_id : string) : gmap string value :=
  <["file_id" := Val.of_opt_str (f_file_id f)]>
  (<["file_name" := Val.of_opt_str (f_file_name f)]>
  (<["file_size" := Val.of_opt_int (f_file_size f)]>
  (<["mime_type" := Val.of_opt_str (f_mime_type f)]>
  (<["category" := VStr category]>
  (<["chat_id" := VStr chat_id]>
  (<["timestamp" := VServerTimestamp]> ∅)))))).

Section WithLower.

(** [str.lower], the built-in of Python, as [classify_file] uses it. *)
Variable str_lower : string -> string.

(** The handler, as a function of the message and of the collection; it
    returns the collection after the call and what was said in the chat.
    [a] is what the store assigns if a document is written.  Sending and
    editing chat messages is taken to succeed. *)
Definition handle_file (a : Firestore.assigned) (message : Message)
           (db : Firestore.collection)
  : Firestore.collection * list chat_action :=
  let chat_id := Py.str_int (chat message) in
  let progress_msg := Answer saving_text in
  let f := extract message in
  if negb (Py.truthy (f_file_id f)) then
    (db, [progress_msg; EditText unprocessable_text])
  else
    let category := Classify.classify_file str_lower (f_mime_type f) (f_file_name f) in
    match Firestore.add a (doc_data f category chat_id) db with
    | Raise e => (db, [progress_msg; EditText (failed_text e)])
    | Ret db' =>
        match Format.format_size (f_file_size f) with
        | Ret size =>
            (db', [progress_msg;
                   EditText (saved_text (Py.str_opt (f_file_name f)) size category)])
        | Raise e => (db', [progress_msg; EditText (failed_text e)])
        end
    end.

(** A run of the handler over a sequence of inbound events. *)
Fixpoint run (events : list (Firestore.assigned * Message))
         (db : Firestore.collection) : Firestore.collection :=
  match events with
  | [] => db
  | (a, m) :: rest => run rest (fst (handle_file a m db))
  end.

End WithLower.

(** *** Payload shapes *)

(** The seven content types the handler is registered for, lines 112-116. *)
Inductive shape : Type :=
| DOCUMENT | PHOTO | VIDEO | AUDIO | VOICE | VIDEO_NOTE | ANIMATION.

(** A message that carries one payload of the given shape.  A photo comes
    as a list of sizes, [smaller] being those before the last. *)
Definition message_of (k : shape) (smaller : list tg_file) (f : tg_file)
           (message_id chat : Z) : Message :=
  match k with
  | DOCUMENT =>
      {| message_id := message_id; chat := chat;
         document := Some f; photo := None; video := None; audio := None;
         voice := None; video_note := None; animation := None |}
  | PHOTO =>
      {| message_id := message_id; chat := chat;
         document := None; photo := Some (smaller ++ [f])%list; video := None;
         audio := None; voice := None; video_note := None; animation := None |}
  | VIDEO =>
      {| message_id := message_id; chat := chat;
         document := None; photo := None; video := Some f; audio := None;
         voice := None; video_note := None; animation := None |}
  | AUDIO =>
      {| message_id := message_id; chat := chat;
         document := None; photo := None; video := None; audio := Some f;
         voice := None; video_note := None; animation := None |}
  | VOICE =>
      {| message_id := message_id; chat := chat;
         document := None; photo := None; video := None; audio := None;
         voice := Some f; video_note := None; animation := None |}
  | VIDEO_NOTE =>
      {| message_id := message_id; chat := chat;
         document := None; photo := None; video := None; audio := None;
         voice := None; video_note := Some f; animation := None |}
  | ANIMATION =>
      {| message_id := message_id; chat := chat;
         document := None; photo := None; video := None; audio := None;
         voice := None; video_note := None; animation := Some f |}
  end.

(** A message none of whose seven payload attributes is set. *)
Definition unrecognized (m : Message) : Prop :=
  document m = None /\ (photo m = None \/ photo m = Some []) /\
  video m = None /\ audio m = None /\ voice m = None /\
  video_note m = None /\ animation m = None.

(** A stored document whose [file_id] is a non-empty string. *)
Definition has_origin (d : Firestore.snapshot) : Prop :=
  exists s, Firestore.doc_fields d !! "file_id" = Some (VStr s) /\ s <> "".

(** A document as [handle_file] writes it: the dictionary of lines
    151-155, with the server time in place of the sentinel. *)
Definition ingested (doc : Firestore.snapshot) : Prop :=
  exists f category chat_id now,
    Firestore.doc_fields doc = Firestore.resolve now <$> doc_data f category chat_id.

Definition empty_db : Firestore.collection :=
  {| Firestore.docs := []; Firestore.fault := None |}.

End Ingest.

(** ** HTTP surface and RelayRetriever (bot.py, lines 223-309) *)

Module Api.

Inductive response : Type :=
| CorsOnly                                   (* [web.Response(headers=CORS_HEADERS)] *)
| JsonError (status : Z) (error : string)    (* [{"error": error}] with a status *)
| JsonOk                                     (* [{"ok": True}] *)
| JsonFiles (files : list (gmap string value))
| FileBody (content content_disposition content_type : string).

Definition status_of (r : response) : Z :=
  match r with
  | JsonError st _ => st
  | _ => 200
  end.

(** *** [handle_api_files], lines 223-239 *)

(** [a / b] on positive integers is the binary64 float nearest to the
    quotient, ties to even: the mantissa [m], of 53 bits, and the exponent
    [e] of the float [m * 2^e].  [e] is chosen so that the quotient lies
    between 2^52 and 2^53 when divided by [2^e]. *)
Definition true_divide (a b : Z) : Z * Z :=
  let num := fun e => a * 2 ^ Z.max 0 (- e) in
  let den := fun e => b * 2 ^ Z.max 0 e in
  let e0 := Z.log2 a - Z.log2 b - 52 in
  let e := if 2 ^ 52 * den e0 <=? num e0 then e0 else e0 - 1 in
  (Format.round_half_even (num e) (den e), e).

(** [int(x)] on a float that is not negative. *)
Definition float_trunc (x : Z * Z) : Z :=
  let '(m, e) := x in
  if 0 <=? e then m * 2 ^ e else m / 2 ^ (- e).

(** [int(ts.timestamp())] for a stored time given in microseconds since
    the epoch: [timestamp()] divides the microseconds by [10**6] as floats
    are divided, and [int] cuts the result towards zero. *)
Definition epoch_seconds (micros : Z) : Z :=
  if micros =? 0 then 0
  else Z.sgn micros * float_trunc (true_divide (Z.abs micros) 1000000).

(** The body of the [for doc in docs] loop, lines 230-234. *)
Definition normalize (doc : Firestore.snapshot) : pyres (gmap string value) :=
  let d := <["id" := VStr (Firestore.doc_id doc)]> (Firestore.doc_fields doc) in
  match d !! "timestamp" with
  | Some v =>
      if Val.truthy v then
        match v with
        | VTimestamp t =>
            Ret (<["timestamp" := VMap [("seconds", VInt (epoch_seconds t))]]> d)
        | _ => Val.attribute_error v "timestamp"
        end
      else Ret d
  | None => Ret d
  end.

(** The sort key of line 235:
    [x.get("timestamp", {}).get("seconds", 0)]. *)
Definition sort_key (x : gmap string value) : pyres Z :=
  let ts := match x !! "timestamp" with Some v => v | None => VMap [] end in
  match Val.get ts "seconds" (VInt 0) with
  | Ret (VInt n) => Ret n
  | Ret v => Raise ("'<' not supported between instances of '"
                      ++ Val.type_name v ++ "' and 'int'")
  | Raise e => Raise e
  end.

(** Sequencing of calls that may raise over a list. *)
Fixpoint traverse {A B} (f : A -> pyres B) (l : list A) : pyres (list B) :=
  match l with
  | [] => Ret []
  | a :: r =>
      match f a with
      | Raise e => Raise e
      | Ret b =>
          match traverse f r with
          | Raise e => Raise e
          | Ret bs => Ret (b :: bs)
          end
      end
  end.

(** [list.sort(key=..., reverse=True)] is a stable sort in descending
    order of the keys: elements with equal keys keep their order. *)
Fixpoint insert_desc {A} (k : Z) (x : A) (l : list (Z * A)) : list (Z * A) :=
  match l with
  | [] => [(k, x)]
  | (k', y) :: r =>
      if k' >? k then (k', y) :: insert_desc k x r else (k, x) :: (k', y) :: r
  end.

Fixpoint sort_desc {A} (l : list (Z * A)) : list (Z * A) :=
  match l with
  | [] => []
  | (k, x) :: r => insert_desc k x (sort_desc r)
  end.

(** When a stored document was created, in whole seconds, as the sort of
    the listing sees it: the seconds of its stored time, and 0 for a
    document without one. *)
Definition created_seconds (doc : Firestore.snapshot) : Z :=
  match Firestore.doc_fields doc !! "timestamp" with
  | Some (VTimestamp t) => epoch_seconds t
  | _ => 0
  end.

(** A document under the second of its creation. *)
Definition keyed (doc : Firestore.snapshot) : Z * Firestore.snapshot :=
  (created_seconds doc, doc).

(** The documents of a collection with the most recent second first, and
    the documents of one second in the order of the collection. *)
Definition listing_order (docs : list Firestore.snapshot) : list Firestore.snapshot :=
  List.map snd (sort_desc (List.map keyed docs)).

(** A document under a key and the record made of it under the same key. *)
Definition same_record (p : Z * Firestore.snapshot) (q : Z * gmap string value) : Prop :=
  fst p = fst q /\ normalize (snd p) = Ret (snd q).

(** Whether a listed record sorts under the key [k]. *)
Definition has_key (k : Z) (x : gmap string value) : bool :=
  match sort_key x with
  | Ret k' => k' =? k
  | Raise _ => false
  end.

Definition json_ok (d : gmap string value) : bool :=
  forallb (fun kv => Val.json_serializable (snd kv)) (map_to_list d).

Definition not_serializable : string :=
  "Object of type DatetimeWithNanoseconds is not JSON serializable".

Definition handle_api_files (method : string) (db : Firestore.collection) : response :=
  if (method =? "OPTIONS")%string then CorsOnly
  else
    match Firestore.stream db with
    | Raise e => JsonError 500 e
    | Ret docs =>
        match traverse normalize docs with
        | Raise e => JsonError 500 e
        | Ret files =>
            match traverse sort_key files with
            | Raise e => JsonError 500 e
            | Ret keys =>
                let sorted := List.map snd (sort_desc (combine keys files)) in
                if forallb json_ok sorted then JsonFiles sorted
                else JsonError 500 not_serializable
            end
        end
    end.

(** *** [handle_api_download], lines 242-280 *)

(** What [session.get(url)] yields when it does not raise. *)
Record upstream : Type := {
  up_status : Z;
  up_read : pyres string;            (* [await resp.read()] *)
  up_content_type : option string    (* [resp.content_type] *)
}.

Definition too_large_text : string :=
  "File is larger than 20MB. Use the Telegram bot to download it (Get button in Mini App).".

(** The [except Exception as e] block, lines 272-280. *)
Definition on_download_error (err_msg : string) : response :=
  if Py.contains "file is too big" (Py.lower err_msg)
  then JsonError 413 too_large_text
  else JsonError 500 err_msg.

Definition content_disposition (file_name : string) : string :=
  "attachment; filename=" ++ Py.dquote ++ file_name ++ Py.dquote.

Section Download.

Variable BOT_TOKEN : string.
(** [bot.get_file(file_id)] returns [tg_file.file_path] or raises. *)
Variable get_file : string -> pyres (option string).
(** [session.get(url)] *)
Variable http_get : string -> pyres upstream.

Definition file_url (file_path : option string) : string :=
  "https://api.telegram.org/file/bot" ++ BOT_TOKEN ++ "/" ++ Py.str_opt file_path.

(** The response, and the URLs fetched while producing it.  [q_file_id]
    and [q_name] are the query parameters [file_id] and [name]. *)
Definition handle_api_download (method : string) (q_file_id q_name : option string)
  : response * list string :=
  if (method =? "OPTIONS")%string then (CorsOnly, [])
  else
    let file_name := match q_name with Some n => n | None => "file" end in
    match q_file_id with
    | None => (JsonError 400 "file_id required", [])
    | Some file_id =>
        if negb (Py.truthy (Some file_id)) then (JsonError 400 "file_id required", [])
        else
          match get_file file_id with
          | Raise e => (on_download_error e, [])
          | Ret file_path =>
              let url := file_url file_path in
              match http_get url with
              | Raise e => (on_download_error e, [url])
              | Ret resp =>
                  if negb (up_status resp =? 200) then
                    (JsonError 502 "Telegram download failed", [url])
                  else
                    match up_read resp with
                    | Raise e => (on_download_error e, [url])
                    | Ret content =>
                        let ct := Py.or_default (up_content_type resp)
                                                "application/octet-stream" in
                        (FileBody content (content_disposition file_name) ct, [url])
                    end
              end
          end
    end.

End Download.

(** *** [handle_api_send], lines 283-309 *)

Inductive method_kind : Type := send_document | send_photo | send_video | send_audio.

(** The list literal of line 296. *)
Definition methods : list method_kind :=
  [send_document; send_photo; send_video; send_audio].

(** An invocation of a dispatch method on the bot. *)
Record call : Type := { c_method : method_kind; c_chat_id : Z; c_file : value }.

Section Send.

(** [int(s)] on a string, a Python built-in. *)
Variable int_of_str : string -> pyres Z.
(** The outcome of [bot.send_*(chat_id=..., <kind>=file_id)]. *)
Variable dispatch : method_kind -> Z -> value -> pyres unit.

Definition py_int (v : value) : pyres Z :=
  match v with
  | VInt n => Ret n
  | VBool b => Ret (if b then 1 else 0)
  | VStr s => int_of_str s
  | _ => Raise ("int() argument must be a string, a bytes-like object or a real number, not '"
                  ++ Val.type_name v ++ "'")
  end.

(** The [for method in ...] loop, lines 296-302: [sent] and the
    invocations made, in order.  [int(chat_id)] is evaluated inside the
    [try], before the method is called. *)
Fixpoint try_methods (ms : list method_kind) (file_id chat_id : value)
  : bool * list call :=
  match ms with
  | [] => (false, [])
  | m :: rest =>
      match py_int chat_id with
      | Raise _ => try_methods rest file_id chat_id
      | Ret c =>
          let this := {| c_method := m; c_chat_id := c; c_file := file_id |} in
          match dispatch m c file_id with
          | Ret _ => (true, [this])
          | Raise _ =>
              let '(sent, calls) := try_methods rest file_id chat_id in
              (sent, this :: calls)
          end
      end
  end.

(** Whether a dispatch method accepts the reference. *)
Definition accepts (file_id : value) (c : Z) (m : method_kind) : bool :=
  match dispatch m c file_id with
  | Ret _ => true
  | Raise _ => false
  end.

Definition invocation (file_id : value) (c : Z) (m : method_kind) : call :=
  {| c_method := m; c_chat_id := c; c_file := file_id |}.

(** [body] is the outcome of [await request.json()]. *)
Definition handle_api_send (method : string) (body : pyres value)
  : response * list call :=
  if (method =? "OPTIONS")%string then (CorsOnly, [])
  else
    match body with
    | Raise e => (JsonError 500 e, [])
    | Ret data =>
        match Val.get data "file_id" VNone with
        | Raise e => (JsonError 500 e, [])
        | Ret file_id =>
            match Val.get data "chat_id" VNone with
            | Raise e => (JsonError 500 e, [])
            | Ret chat_id =>
                if (negb (Val.truthy file_id) || negb (Val.truthy chat_id))%bool
                then (JsonError 400 "file_id and chat_id required", [])
                else
                  let '(sent, calls) := try_methods methods file_id chat_id in
                  if sent then (JsonOk, calls)
                  else (JsonError 500 "Could not send file", calls)
            end
        end
    end.

End Send.

End Api.

(** ** The unit of a size, by integer thresholds *)

Module Thresholds.

(** The number of the unit, in B, KB, MB, GB, TB, that the loop of
    [format_size] stops at. *)
Definition unit_index (n : Z) : nat :=
  if n <? 1024 then 0%nat
  else if n <? 1024 ^ 2 then 1%nat
  else if n <? 1024 ^ 3 then 2%nat
  else if n <? 1024 ^ 4 then 3%nat
  else 4%nat.

End Thresholds.

(** ** Web-app data: [handle_webapp_data] (bot.py, lines 172-198) *)

Module PyStr.

(** White space is what [str.isspace] accepts; [str.strip] removes these
    characters and no other.  In UTF-8 they are:
    - one byte: tab, line feed, vertical tab, form feed, carriage return
      (9-13), the separators 28-31 and the space (32);
    - two bytes: U+0085 and U+00A0 (194 then 133 or 160);
    - three bytes: U+1680 (225 154 128), U+2000 to U+200A, U+2028, U+2029
      and U+202F (226 128 then 128-138, 168, 169 or 175), U+205F
      (226 129 159) and U+3000 (227 128 128). *)
Definition is_space (c : ascii) : bool :=
  let n := nat_of_ascii c in
  (((9 <=? n)%nat && (n <=? 13)%nat) || ((28 <=? n)%nat && (n <=? 32)%nat))%bool.

Definition is_space2 (c1 c2 : ascii) : bool :=
  let b1 := nat_of_ascii c1 in
  let b2 := nat_of_ascii c2 in
  ((b1 =? 194)%nat && ((b2 =? 133)%nat || (b2 =? 160)%nat))%bool.

Definition is_space3 (c1 c2 c3 : ascii) : bool :=
  let b1 := nat_of_ascii c1 in
  let b2 := nat_of_ascii c2 in
  let b3 := nat_of_ascii c3 in
  (((b1 =? 225)%nat && (b2 =? 154)%nat && (b3 =? 128)%nat)
   || ((b1 =? 226)%nat && (b2 =? 128)%nat
       && (((128 <=? b3)%nat && (b3 <=? 138)%nat)
           || (b3 =? 168)%nat || (b3 =? 169)%nat || (b3 =? 175)%nat))
   || ((b1 =? 226)%nat && (b2 =? 129)%nat && (b3 =? 159)%nat)
   || ((b1 =? 227)%nat && (b2 =? 128)%nat && (b3 =? 128)%nat))%bool.

(** [s.lstrip()] *)
Fixpoint lstrip (s : string) : string :=
  match s with
  | EmptyString => EmptyString
  | String c1 r1 =>
      if is_space c1 then lstrip r1
      else
        match r1 with
        | EmptyString => s
        | String c2 r2 =>
            if is_space2 c1 c2 then lstrip r2
            else
              match r2 with
              | EmptyString => s
              | String c3 r3 => if is_space3 c1 c2 c3 then lstrip r3 else s
              end
        end
  end.

(** A string of white space only: nothing is left of it by [lstrip]. *)
Definition blank (s : string) : bool := (lstrip s =? "")%string.

(** [s.rstrip()]: the longest tail of white space is cut. *)
Fixpoint rstrip (s : string) : string :=
  match s with
  | EmptyString => EmptyString
  | String c r => if blank s then EmptyString else String c (rstrip r)
  end.

(** [s.strip()] *)
Definition strip (s : string) : string := rstrip (lstrip s).


End PyStr.

Module Webapp.

Definition no_data_text : string := "⚠️ No data received.".

Definition upload_text : string :=
  "📤 <b>Upload a file</b>" ++ Py.nl ++ Py.nl ++ "Send me any file right here!".

Definition expired_text : string :=
  "❌ Could not send the file. It may have expired.".

Section Relay.

(** The outcome of [bot.send_*(chat_id=..., <kind>=file_id)]. *)
Variable dispatch : Api.method_kind -> Z -> value -> pyres unit.

(** The [for method in ...] loop, lines 190-196; here [chat_id] is the
    integer [message.chat.id] and no conversion takes place. *)
Fixpoint try_methods (ms : list Api.method_kind) (file_id : string) (chat_id : Z)
  : bool * list Api.call :=
  match ms with
  | [] => (false, [])
  | m :: rest =>
      let this := {| Api.c_method := m; Api.c_chat_id := chat_id;
                     Api.c_file := VStr file_id |} in
      match dispatch m chat_id (VStr file_id) with
      | Ret _ => (true, [this])
      | Raise _ =>
          let '(sent, calls) := try_methods rest file_id chat_id in
          (sent, this :: calls)
      end
  end.

(** [raw] is [message.web_app_data.data] and [chat] is [message.chat.id].
    The result is what the bot answers in the chat and the dispatch
    methods it invokes.  Answering in the chat is taken to succeed. *)
Definition handle_webapp_data (raw : string) (chat : Z)
  : list Ingest.chat_action * list Api.call :=
  let data := PyStr.strip raw in
  if negb (Py.truthy (Some data)) then ([Ingest.Answer no_data_text], [])
  else if (data =? "__UPLOAD__")%string then ([Ingest.Answer upload_text], [])
  else
    let '(sent, calls) := try_methods Api.methods data chat in
    if negb sent then ([Ingest.Answer expired_text], calls)
    else ([], calls).

End Relay.

End Webapp.

(** * Properties *)

(** ** Facts on the Python built-ins *)

Section PyFacts.

Import Py.

Lemma contains_char_last_index c s :
  contains_char c s = true <-> Classify.last_index c s <> None.
Proof.
  induction s as [|a r IH]; simpl.
  - split; [discriminate | congruence].
  - destruct (Classify.last_index c r) as [i|].
    + split; [discriminate | intros _].
      rewrite (proj2 IH); [apply orb_true_r | discriminate].
    + destruct (Ascii.eqb a c); simpl.
      * split; [discriminate | reflexivity].
      * rewrite IH. split; congruence.
Qed.

(** [rsplit1] cuts at the last separator. *)
Lemma rsplit1_last_index c s :
  rsplit1 c s =
    match Classify.last_index c s with
    | Some i => [String.substring 0 i s;
                 String.substring (S i) (String.length s - S i) s]
    | None => [s]
    end.
Proof.
  induction s as [|a r IH]; simpl; [reflexivity|].
  rewrite IH. destruct (Classify.last_index c r) as [i|].
  - reflexivity.
  - destruct (Ascii.eqb a c); [|reflexivity].
    f_equal. f_equal. rewrite Nat.sub_0_r.
    clear IH. induction r as [|b r' IH']; simpl; [reflexivity|].
    now rewrite <- IH' at 1.
Qed.

Lemma append_cons (x : ascii) (r b : string) : String x r ++ b = String x (r ++ b).
Proof. reflexivity. Qed.

Lemma string_app_assoc (a b c : string) : (a ++ b) ++ c = a ++ (b ++ c).
Proof.
  induction a as [|x r IH]; [reflexivity|].
  now rewrite !append_cons, IH.
Qed.

Lemma contains_char_app c s t :
  contains_char c (s ++ t) = (contains_char c s || contains_char c t)%bool.
Proof.
  induction s as [|a r IH]; [reflexivity|].
  rewrite append_cons. simpl. now rewrite IH, orb_assoc.
Qed.

End PyFacts.

(** ** FileClassifier *)

Section ClassifyFacts.

Import Classify.

Variable str_lower : string -> string.

#[local] Abbreviation ext_of := (Classify.ext_of str_lower).
#[local] Abbreviation spec_extension := (Classify.spec_extension str_lower).
#[local] Abbreviation classify_by_name := (Classify.classify_by_name str_lower).
#[local] Abbreviation classify_file := (Classify.classify_file str_lower).
#[local] Abbreviation classify_spec := (Classify.classify_spec str_lower).

Lemma ext_of_spec n : ext_of n = spec_extension (Some n).
Proof.
  unfold Classify.ext_of, Classify.spec_extension.
  rewrite rsplit1_last_index.
  pose proof (contains_char_last_index dot n) as H.
  destruct (last_index dot n) as [i|].
  - rewrite (proj2 H) by discriminate. reflexivity.
  - destruct (Py.contains_char dot n); [|reflexivity].
    exfalso. now apply (proj1 H).
Qed.

Lemma classify_by_mime_spec m :
  classify_by_mime m =
    if mime_has_prefix m "image" then Some "image"
    else if (mime_has_prefix m "video" || mime_has_prefix m "audio")%bool
         then Some "media" else None.
Proof.
  destruct m as [m|]; [|reflexivity].
  destruct m as [|a r]; reflexivity.
Qed.

Lemma classify_by_name_spec n :
  classify_by_name n =
    if Py.in_tuple (spec_extension n) image_exts then Some "image"
    else if Py.in_tuple (spec_extension n) media_exts then Some "media"
    else None.
Proof.
  destruct n as [n|]; [|reflexivity].
  destruct n as [|a r]; [reflexivity|].
  unfold Classify.classify_by_name. rewrite ext_of_spec. reflexivity.
Qed.

Lemma classify_file_refines mime name :
  classify_file mime name = classify_spec mime name.
Proof.
  unfold Classify.classify_file, Classify.classify_spec.
  rewrite classify_by_mime_spec, classify_by_name_spec.
  change spec_image_exts with image_exts. change spec_media_exts with media_exts.
  destruct (mime_has_prefix mime "image"); [reflexivity|].
  destruct (mime_has_prefix mime "video" || mime_has_prefix mime "audio")%bool;
    [reflexivity|].
  destruct (Py.in_tuple (spec_extension name) image_exts); [reflexivity|].
  destruct (Py.in_tuple (spec_extension name) media_exts); reflexivity.
Qed.

Lemma classify_spec_range mime name :
  In (classify_spec mime name) ["image"; "media"; "document"].
Proof.
  unfold Classify.classify_spec.
  repeat match goal with |- context [if ?b then _ else _] => destruct b end;
    simpl; auto.
Qed.

(** The category of a name whose extension is known. *)
Lemma classify_file_by_ext mime n ext :
  classify_by_mime mime = None -> n <> "" -> ext_of n = ext ->
  classify_file mime (Some n) =
    if Py.in_tuple ext image_exts then "image"
    else if Py.in_tuple ext media_exts then "media"
    else "document".
Proof.
  intros Hm Hn He. unfold Classify.classify_file, Classify.classify_by_name.
  rewrite Hm, He. unfold Py.truthy.
  destruct (String.eqb_spec n ""); [contradiction|]. cbn [negb].
  destruct (Py.in_tuple ext image_exts); [reflexivity|].
  destruct (Py.in_tuple ext media_exts); reflexivity.
Qed.

(** C4. Whatever [str.lower] does, [classify_file] is a total function of
    the optional mime type and the optional file name, its value is one of
    "image", "media" and "document", and it is the first-match rule of the
    specification: mime prefix image, then mime prefix video or audio,
    then the lower-cased extension after the last dot of the file name
    looked up in the two extension sets, then document.  With [str.lower]
    lower-casing ASCII text the way Python does, the four examples of the
    specification evaluate as listed. *)
Theorem classify_file_total_first_match :
  (forall s, Py.is_ascii s = true -> str_lower s = Py.lower s) ->
  (forall mime name, classify_file mime name = classify_spec mime name) /\
  (forall mime name, In (classify_file mime name) ["image"; "media"; "document"]) /\
  classify_file (Some "image/png") None = "image" /\
  classify_file None (Some "movie.MKV") = "media" /\
  classify_file None (Some "readme") = "document" /\
  classify_file (Some "application/zip") (Some "archive.zip") = "document" /\
  classify_file None None = "document".
Proof.
  intros Hascii.
  split; [exact classify_file_refines|].
  split; [intros; rewrite classify_file_refines; apply classify_spec_range|].
  split; [reflexivity|].
  split.
  { rewrite (classify_file_by_ext None "movie.MKV" "mkv");
      [reflexivity | reflexivity | discriminate |].
    change (ext_of "movie.MKV") with (str_lower "MKV"). now rewrite Hascii. }
  split; [reflexivity|].
  split; [|reflexivity].
  rewrite (classify_file_by_ext (Some "application/zip") "archive.zip" "zip");
    [reflexivity | reflexivity | discriminate |].
  change (ext_of "archive.zip") with (str_lower "zip"). now rewrite Hascii.
Qed.

End ClassifyFacts.

Lemma classify_file_total_first_match_witness :
  (forall s, Py.is_ascii s = true -> Py.lower s = Py.lower s) /\
  Classify.classify_file Py.lower None (Some "movie.MKV") = "media" /\
  Classify.classify_file Py.lower (Some "application/zip") (Some "archive.zip")
    = "document".
Proof.
  assert (H : forall s, Py.is_ascii s = true -> Py.lower s = Py.lower s)
    by (intros; reflexivity).
  split; [exact H|].
  pose proof (classify_file_total_first_match Py.lower H)
    as (_ & _ & _ & Hmkv & _ & Hzip & _).
  split; [exact Hmkv | exact Hzip].
Defined.

(** ** SizeFormatter *)

Section FormatFacts.

Import Format.

Lemma Qltb_lt a b : Qltb a b = true <-> (a < b)%Q.
Proof.
  unfold Qltb. rewrite negb_true_iff. split.
  - intros H. apply Qnot_le_lt. intros Hle.
    apply Qle_bool_iff in Hle. congruence.
  - intros H. destruct (Qle_bool b a) eqn:E; [|reflexivity].
    apply Qle_bool_iff in E. exfalso. exact (Qlt_not_le _ _ H E).
Qed.

Lemma Qltb_ge a b : Qltb a b = false <-> ~ (a < b)%Q.
Proof.
  rewrite <- Qltb_lt. destruct (Qltb a b); split; congruence.
Qed.

Lemma scaled_shift v k : scaled (v / inject_Z 1024)%Q k = scaled v (S k).
Proof. unfold scaled. now rewrite Nat.iter_succ_r. Qed.

(** The loop stops at the first unit at which the scaled value is below
    1024, and ends in TB when there is none. *)
Lemma format_loop_first_below us : forall s,
  exists k, (k <= length us)%nat /\
    format_loop us s = fmt_1f (scaled s k) ++ " " ++ nth k (us ++ ["TB"]) "TB" /\
    (forall j, (j < k)%nat -> ~ (scaled s j < inject_Z 1024)%Q) /\
    ((k < length us)%nat -> (scaled s k < inject_Z 1024)%Q).
Proof.
  induction us as [|u rest IH]; intros s.
  - exists 0%nat. simpl.
    split; [lia|]. split; [reflexivity|]. split; intros; lia.
  - simpl. destruct (Qltb s (inject_Z 1024)) eqn:E.
    + exists 0%nat. simpl.
      split; [lia|]. split; [reflexivity|]. split; [intros; lia|].
      intros _. now apply Qltb_lt.
    + destruct (IH (s / inject_Z 1024)%Q) as (k & Hk & Hfmt & Hbefore & Hstop).
      exists (S k). rewrite scaled_shift in Hfmt, Hstop.
      split; [lia|]. split; [exact Hfmt|]. split.
      * intros [|j] Hj.
        -- simpl. now apply Qltb_ge.
        -- rewrite <- scaled_shift. apply Hbefore. lia.
      * intros Hlt. apply Hstop. lia.
Qed.

Lemma fmt_1f_shape s :
  exists i d, 0 <= d <= 9 /\
    fmt_1f s = i ++ "." ++ String (Py.digit d) EmptyString.
Proof.
  unfold fmt_1f.
  set (t := round_half_even (Z.abs (Qnum s) * 10) (Z.pos (Qden s))).
  exists ((if Qnum s <? 0 then "-" else "") ++ Py.decimal (t / 10)), (t mod 10).
  split.
  - pose proof (Z.mod_pos_bound t 10). lia.
  - now rewrite string_app_assoc.
Qed.

Lemma fmt_1f_has_point s : Py.contains_char "."%char (fmt_1f s) = true.
Proof.
  destruct (fmt_1f_shape s) as (i & d & _ & ->).
  rewrite contains_char_app. simpl. apply orb_true_r.
Qed.

Lemma format_loop_has_point us : forall s,
  Py.contains_char "."%char (format_loop us s) = true.
Proof.
  induction us as [|u rest IH]; intros s; simpl.
  - now rewrite contains_char_app, fmt_1f_has_point.
  - destruct (Qltb s (inject_Z 1024)); [|apply IH].
    now rewrite contains_char_app, fmt_1f_has_point.
Qed.

Lemma format_size_unknown_iff b :
  format_size b = Ret "unknown" <-> b = None \/ b = Some 0.
Proof.
  split.
  - destruct b as [n|]; [|now left]. unfold format_size.
    destruct (n =? 0) eqn:E; [right; f_equal; lia|].
    destruct (float_of_int n) as [s|e]; [|discriminate].
    intros H.
    pose proof (format_loop_has_point units s) as P.
    replace (format_loop units s) with "unknown" in P by congruence.
    discriminate.
  - intros [-> | ->]; reflexivity.
Qed.

(** Integers of at most 53 bits are floats: conversion changes nothing. *)
Lemma float_of_int_exact n :
  Z.abs n < 2 ^ 53 -> float_of_int n = Ret (inject_Z n).
Proof.
  intros H. unfold float_of_int, round53.
  assert (Z.log2 (Z.abs n) - 52 <= 0) as Hlog.
  { destruct (Z.eq_dec (Z.abs n) 0) as [->|Hne]; [simpl; lia|].
    assert (Z.log2 (Z.abs n) < 53); [|lia].
    apply Z.log2_lt_pow2; lia. }
  apply Z.leb_le in Hlog. rewrite Hlog.
  assert ((Z.abs n <? 2 ^ 1024) = true) as ->.
  { apply Z.ltb_lt. eapply Z.lt_trans; [exact H|]. reflexivity. }
  now rewrite Z.mul_comm, Z.abs_sgn.
Qed.

Lemma round_half_even_le a d : round_half_even a d <= a / d + 1.
Proof. unfold round_half_even. destruct (_ || _)%bool; lia. Qed.

Lemma round53_le_double a : 0 <= a -> round53 a <= 2 * a.
Proof.
intros Ha. unfold round53.
destruct (Z.leb_spec (Z.log2 a - 52) 0) as [|He]; [lia|].
assert (0 < a) as Hpos.
{ destruct (Z.eq_dec a 0) as [->|]; [simpl in He; lia | lia]. }
set (d := 2 ^ (Z.log2 a - 52)).
assert (0 < d) as Hd by (apply Z.pow_pos_nonneg; lia).
assert (d <= a) as Hda.
{ transitivity (2 ^ Z.log2 a).
  - apply Z.pow_le_mono_r; lia.
  - apply Z.log2_spec; lia. }
pose proof (round_half_even_le a d) as Hr.
pose proof (Z.mul_div_le a d Hd) as Hq.
nia.
Qed.

(** No size below 2^1023 overflows the conversion. *)
Lemma float_of_int_returns n :
Z.abs n < 2 ^ 1023 -> exists v, float_of_int n = Ret v.
Proof.
intros H. unfold float_of_int.
pose proof (round53_le_double (Z.abs n) (Z.abs_nonneg n)) as Hr.
assert (2 ^ 1024 = 2 * 2 ^ 1023) as E by reflexivity.
set (B := 2 ^ 1023) in *.
assert ((round53 (Z.abs n) <? 2 ^ 1024) = true) as ->.
{ apply Z.ltb_lt. rewrite E. lia. }
eexists. reflexivity.
Qed.

(** C8. [format_size] returns "unknown" exactly for an absent or zero
    size.  For any other size [n] that converts to a float [v], it reports
    the value scaled [k] times by 1024 with unit number [k] of B, KB, MB,
    GB, TB, where [k] is the first scaling step at which the value is
    strictly below 1024 and is 4 (TB) if no step through GB is; the number
    is printed with a decimal point followed by one digit.  Sizes below
    2^53 convert exactly, sizes below 2^1023 convert, and [format_size 1536] is "1.5 KB",
    [format_size 1073741824] is "1.0 GB". *)
Theorem format_size_scaling (n : Z) (v : Q) :
  n <> 0 -> float_of_int n = Ret v ->
  (forall b, format_size b = Ret "unknown" <-> b = None \/ b = Some 0) /\
  (exists k, (k <= 4)%nat /\
     format_size (Some n) = Ret (fmt_1f (scaled v k) ++ " " ++ unit_name k) /\
     (forall j, (j < k)%nat -> ~ (scaled v j < inject_Z 1024)%Q) /\
     ((k < 4)%nat -> (scaled v k < inject_Z 1024)%Q)) /\
  (forall s, exists i d, 0 <= d <= 9 /\
     fmt_1f s = i ++ "." ++ String (Py.digit d) EmptyString) /\
  (forall m, Z.abs m < 2 ^ 53 -> float_of_int m = Ret (inject_Z m)) /\
  (forall m, Z.abs m < 2 ^ 1023 -> exists w, float_of_int m = Ret w) /\
  format_size None = Ret "unknown" /\
  format_size (Some 0) = Ret "unknown" /\
  format_size (Some 1536) = Ret "1.5 KB" /\
  format_size (Some 1073741824) = Ret "1.0 GB".
Proof.
  intros Hn Hv.
  split; [exact format_size_unknown_iff|].
  split.
  { destruct (format_loop_first_below units v) as (k & Hk & Hfmt & Hb & Hs).
    exists k. split; [exact Hk|]. split; [|split; assumption].
    unfold format_size. apply Z.eqb_neq in Hn. rewrite Hn, Hv.
    now rewrite Hfmt. }
  split; [exact fmt_1f_shape|].
  split; [exact float_of_int_exact|].
  split; [exact float_of_int_returns|].
  repeat split; vm_compute; reflexivity.
Qed.

Lemma format_size_scaling_witness :
  1536 <> 0 /\ float_of_int 1536 = Ret (inject_Z 1536) /\
  exists k, (k <= 4)%nat /\
    format_size (Some 1536)
      = Ret (fmt_1f (scaled (inject_Z 1536) k) ++ " " ++ unit_name k).
Proof.
  assert (H0 : 1536 <> 0) by discriminate.
  assert (Hf : float_of_int 1536 = Ret (inject_Z 1536)) by reflexivity.
  split; [exact H0|]. split; [exact Hf|].
  destruct (format_size_scaling 1536 (inject_Z 1536) H0 Hf)
    as (_ & (k & Hk & Hfmt & _) & _).
  exists k. split; assumption.
Defined.

End FormatFacts.

(** ** Record builder and ingest *)

Section IngestFacts.

Import Ingest.

Variable str_lower : string -> string.

#[local] Abbreviation handle_file := (Ingest.handle_file str_lower).
#[local] Abbreviation run := (Ingest.run str_lower).

Lemma last_photo_snoc smaller f : last_photo (Some (smaller ++ [f])%list) = Some f.
Proof.
  unfold last_photo. rewrite List.map_app. simpl.
  now rewrite List.last_last.
Qed.

(** C6 (as amended). The record builder takes the first payload attribute
    that is set, in the order document, photo, video, audio, voice, video
    note, animation, and applies the defaults of that shape, whatever the
    message carries besides.  A document gets the provided file name when it
    is present and not empty and otherwise "document", and its mime type
    exactly as provided: an absent mime type stays absent.  A photo, taken
    from the last entry of a non-empty list of sizes, gets
    photo_<uniqueId>.jpg and image/jpeg; a voice note voice_<messageId>.ogg
    and audio/ogg; a video note videonote_<messageId>.mp4 and video/mp4; a
    video, an audio and an animation get the provided file name and mime
    type when they are present and not empty, and otherwise video.mp4 with
    video/mp4, audio.mp3 with audio/mpeg, animation.gif with image/gif. *)
Theorem record_builder_defaults (m : Message) :
  (forall d, document m = Some d ->
     extract m = mk (file_id d) (Py.or_default (file_name d) "document")
                    (file_size d) (mime_type d)) /\
  (forall p, document m = None -> last_photo (photo m) = Some p ->
     extract m = mk (file_id p) ("photo_" ++ file_unique_id p ++ ".jpg")
                    (file_size p) (Some "image/jpeg")) /\
  (forall v, document m = None -> last_photo (photo m) = None ->
     video m = Some v ->
     extract m = mk (file_id v) (Py.or_default (file_name v) "video.mp4")
                    (file_size v) (Some (Py.or_default (mime_type v) "video/mp4"))) /\
  (forall a, document m = None -> last_photo (photo m) = None ->
     video m = None -> audio m = Some a ->
     extract m = mk (file_id a) (Py.or_default (file_name a) "audio.mp3")
                    (file_size a) (Some (Py.or_default (mime_type a) "audio/mpeg"))) /\
  (forall v, document m = None -> last_photo (photo m) = None ->
     video m = None -> audio m = None -> voice m = Some v ->
     extract m = mk (file_id v) ("voice_" ++ Py.str_int (message_id m) ++ ".ogg")
                    (file_size v) (Some "audio/ogg")) /\
  (forall v, document m = None -> last_photo (photo m) = None ->
     video m = None -> audio m = None -> voice m = None ->
     video_note m = Some v ->
     extract m = mk (file_id v) ("videonote_" ++ Py.str_int (message_id m) ++ ".mp4")
                    (file_size v) (Some "video/mp4")) /\
  (forall a, document m = None -> last_photo (photo m) = None ->
     video m = None -> audio m = None -> voice m = None ->
     video_note m = None -> animation m = Some a ->
     extract m = mk (file_id a) (Py.or_default (file_name a) "animation.gif")
                    (file_size a) (Some (Py.or_default (mime_type a) "image/gif"))) /\
  (forall smaller p, last_photo (Some (smaller ++ [p])%list) = Some p) /\
  last_photo (Some []) = None /\
  last_photo None = None /\
  (forall a r, Py.or_default (Some (String a r)) "document" = String a r) /\
  Py.or_default None "document" = "document" /\
  Py.or_default (Some "") "document" = "document".
Proof.
  unfold extract.
  split; [intros d ->; reflexivity|].
  split; [intros p -> ->; reflexivity|].
  split; [intros v -> -> ->; reflexivity|].
  split; [intros a -> -> -> ->; reflexivity|].
  split; [intros v -> -> -> -> ->; reflexivity|].
  split; [intros v -> -> -> -> -> ->; reflexivity|].
  split; [intros a -> -> -> -> -> -> ->; reflexivity|].
  split; [exact last_photo_snoc|].
  repeat split; reflexivity.
Qed.

(** C6, the claim as stated fails: a document that comes without a mime
    type is stored without one; no default mime type is put in its place. *)
Lemma document_mime_has_no_default :
  let d := {| file_id := "BQACAgIAAxkBAAIB"; file_unique_id := "AgADBQAD";
              file_name := None; mime_type := None; file_size := Some 2048 |} in
  let m := message_of DOCUMENT [] d 17 4242 in
  f_file_name (extract m) = Some "document" /\
  f_mime_type (extract m) = None /\
  ~ (exists default, f_mime_type (extract m) = Some default).
Proof.
  cbv zeta. split; [reflexivity|]. split; [reflexivity|].
  intros [x Hx]. discriminate Hx.
Qed.

Lemma handle_file_unrecognized a m db :
  unrecognized m ->
  handle_file a m db = (db, [Answer saving_text; EditText unprocessable_text]).
Proof.
  intros (Hd & Hp & Hv & Ha & Hvo & Hvn & Han).
  unfold Ingest.handle_file, extract.
  rewrite Hd, Hv, Ha, Hvo, Hvn, Han.
  destruct Hp as [-> | ->]; reflexivity.
Qed.

Lemma Forall_place (P : Firestore.snapshot -> Prop) p doc l :
  P doc -> Forall P l -> Forall P (Firestore.place p doc l).
Proof.
  intros Hdoc Hl. unfold Firestore.place.
  rewrite <- (List.firstn_skipn p l) in Hl.
  apply Forall_app in Hl. destruct Hl as [Hfirst Hrest].
  apply Forall_app. split; [exact Hfirst | now constructor].
Qed.

(** Whatever the handler adds to the collection carries a file id. *)
Lemma handle_file_keeps_origin a m db :
  Forall has_origin (Firestore.docs db) ->
  Forall has_origin (Firestore.docs (fst (handle_file a m db))).
Proof.
  intros Hdb. unfold Ingest.handle_file.
  destruct (f_file_id (extract m)) as [fid|] eqn:Hfid; simpl; [|exact Hdb].
  destruct (String.eqb_spec fid "") as [->|Hne]; simpl; [exact Hdb|].
  unfold Firestore.add.
  destruct (Firestore.fault db) as [e|]; [exact Hdb|].
  assert (Forall has_origin
            (Firestore.place (Firestore.position a)
               {| Firestore.doc_id := Firestore.new_id a;
                  Firestore.doc_fields :=
                    Firestore.resolve (Firestore.now a) <$>
                      doc_data (extract m)
                        (Classify.classify_file str_lower
                           (f_mime_type (extract m)) (f_file_name (extract m)))
                        (Py.str_int (chat m)) |}
               (Firestore.docs db))) as Hall.
  { apply Forall_place; [|exact Hdb].
    exists fid. split; [|exact Hne]. simpl.
    rewrite lookup_fmap. unfold doc_data.
    rewrite lookup_insert_eq, Hfid. reflexivity. }
  destruct (Format.format_size (f_file_size (extract m))); exact Hall.
Qed.

Lemma run_keeps_origin events : forall db,
  Forall has_origin (Firestore.docs db) ->
  Forall has_origin (Firestore.docs (run events db)).
Proof.
  induction events as [|[a m] rest IH]; intros db Hdb; simpl.
  - exact Hdb.
  - apply IH. now apply handle_file_keeps_origin.
Qed.

(** C3. An inbound message that has none of the seven payload attributes
    leaves the collection as it was and ends with the notice "Could not
    process this file." in the chat; and every document of a collection
    built by the handler from the empty one, over any sequence of inbound
    messages, holds a non-empty [file_id]. *)
Theorem unrecognized_payload_creates_no_record a m db :
  unrecognized m ->
  handle_file a m db
    = (db, [Answer saving_text; EditText unprocessable_text]) /\
  (forall events, Forall has_origin (Firestore.docs (run events empty_db))).
Proof.
  intros Hm. split; [now apply handle_file_unrecognized|].
  intros events. apply run_keeps_origin. constructor.
Qed.

End IngestFacts.

Lemma unrecognized_payload_creates_no_record_witness :
  let m := {| Ingest.message_id := 5; Ingest.chat := 99; Ingest.document := None;
              Ingest.photo := Some []; Ingest.video := None; Ingest.audio := None;
              Ingest.voice := None; Ingest.video_note := None;
              Ingest.animation := None |} in
  Ingest.unrecognized m /\
  Ingest.handle_file Py.lower
      {| Firestore.new_id := "doc1"; Firestore.now := 1700000000000000;
         Firestore.position := 0 |} m Ingest.empty_db
    = (Ingest.empty_db,
       [Ingest.Answer Ingest.saving_text; Ingest.EditText Ingest.unprocessable_text]).
Proof.
  cbv zeta.
  match goal with
  | |- Ingest.unrecognized ?m /\ _ =>
      assert (H : Ingest.unrecognized m)
        by (unfold Ingest.unrecognized; simpl; repeat split; auto)
  end.
  split; [exact H|].
  exact (proj1 (unrecognized_payload_creates_no_record Py.lower _ _ Ingest.empty_db H)).
Defined.

Lemma record_builder_defaults_witness :
  let an := {| Ingest.file_id := "CgACAgQAAxkB"; Ingest.file_unique_id := "AgADanim";
               Ingest.file_name := None; Ingest.mime_type := Some "";
               Ingest.file_size := Some 90210 |} in
  let m := Ingest.message_of Ingest.ANIMATION [] an 8 77 in
  Ingest.document m = None /\ Ingest.last_photo (Ingest.photo m) = None /\
  Ingest.video m = None /\ Ingest.audio m = None /\ Ingest.voice m = None /\
  Ingest.video_note m = None /\ Ingest.animation m = Some an /\
  Ingest.extract m
    = Ingest.mk "CgACAgQAAxkB" "animation.gif" (Some 90210) (Some "image/gif").
Proof.
  cbv zeta. repeat (split; [reflexivity|]).
  match goal with
  | |- Ingest.extract ?m = _ =>
      exact (proj1 (proj2 (proj2 (proj2 (proj2 (proj2 (proj2
               (record_builder_defaults m)))))))
               _ eq_refl eq_refl eq_refl eq_refl eq_refl eq_refl eq_refl)
  end.
Defined.

(** ** Relay path *)

Section SendFacts.

Import Api.

Variable int_of_str : string -> pyres Z.
Variable dispatch : method_kind -> Z -> value -> pyres unit.

#[local] Abbreviation try_methods := (Api.try_methods int_of_str dispatch).
#[local] Abbreviation handle_api_send := (Api.handle_api_send int_of_str dispatch).
#[local] Abbreviation accepts := (Api.accepts dispatch).

(** The loop invokes a prefix of the list, every invoked method but the
    last has failed, and the loop reports [sent] exactly when the last
    invoked method accepted. *)
Lemma try_methods_prefix file_id chat_id c :
  py_int int_of_str chat_id = Ret c ->
  forall ms,
  exists tried rest,
    ms = (tried ++ rest)%list /\
    snd (try_methods ms file_id chat_id) = List.map (invocation file_id c) tried /\
    if fst (try_methods ms file_id chat_id)
    then exists failed m, tried = (failed ++ [m])%list /\
           Forall (fun x => accepts file_id c x = false) failed /\
           accepts file_id c m = true
    else rest = [] /\ Forall (fun x => accepts file_id c x = false) tried.
Proof.
  intros Hc ms. induction ms as [|m ms IH].
  - exists [], []. simpl. repeat split; constructor.
  - simpl. rewrite Hc.
    destruct (dispatch m c file_id) as [u|e] eqn:Hd.
    + exists [m], ms. simpl. repeat split.
      exists [], m. repeat split; [constructor|].
      unfold Api.accepts. now rewrite Hd.
    + destruct IH as (tried & rest & Hms & Hcalls & Hsent).
      destruct (try_methods ms file_id chat_id) as [sent calls] eqn:Ht.
      simpl in *. exists (m :: tried), rest.
      assert (accepts file_id c m = false) as Hm
        by (unfold Api.accepts; now rewrite Hd).
      split; [now rewrite Hms|]. split; [now rewrite Hcalls|].
      destruct sent.
      * destruct Hsent as (failed & m' & -> & Hf & Hm').
        exists (m :: failed), m'. repeat split; [now constructor | exact Hm'].
      * destruct Hsent as [-> Hall]. split; [reflexivity | now constructor].
Qed.

Lemma in_removelast_in {A} (x : A) (l : list A) :
  In x (removelast l) -> In x l.
Proof.
  induction l as [|a l IH]; [simpl; tauto|].
  destruct l as [|b t]; [simpl; tauto|].
  intros [->|H]; [now left | right; now apply IH].
Qed.

Lemma methods_nodup : List.NoDup methods.
Proof.
  unfold methods.
  repeat (constructor; [simpl; intuition discriminate|]). constructor.
Qed.

Lemma try_methods_second_accepts file_id chat_id c :
  py_int int_of_str chat_id = Ret c ->
  accepts file_id c send_document = false ->
  accepts file_id c send_photo = true ->
  try_methods methods file_id chat_id
    = (true, [invocation file_id c send_document; invocation file_id c send_photo]).
Proof.
  intros Hc. unfold Api.accepts, methods. simpl. rewrite Hc.
  destruct (dispatch send_document c file_id); [discriminate|].
  destruct (dispatch send_photo c file_id); [|discriminate].
  reflexivity.
Qed.

Lemma nodup_prefix {A} (l1 l2 : list A) : List.NoDup (l1 ++ l2)%list -> List.NoDup l1.
Proof.
  induction l1 as [|a l1 IH]; simpl; intros H; [constructor|].
  inversion H as [|? ? Hnotin Hrest]; subst. constructor.
  - intros Hin. apply Hnotin. apply List.in_or_app. now left.
  - now apply IH.
Qed.

Lemma try_methods_no_int file_id chat_id e :
  py_int int_of_str chat_id = Raise e ->
  forall ms, try_methods ms file_id chat_id = (false, []).
Proof.
  intros He ms. induction ms as [|m ms IH]; simpl; [reflexivity|].
  now rewrite He.
Qed.

(** C1 (as amended). For a request whose body holds a file id and a chat
    id, what the handler does depends on [int(chat_id)].  When the chat id
    converts to an integer, the handler invokes a prefix of the list
    document, photo, video, audio, in that order and each method at most
    once; every invoked method before the last one has failed; the answer
    is [{"ok": true}] exactly when some method accepts, and the error
    "Could not send file" with status 500 exactly when all four fail; when
    the document method fails and the photo method accepts, exactly these
    two are invoked.  When the chat id does not convert, no method is
    invoked at all and the answer is the same error with status 500. *)
Theorem relay_fixed_order_first_success
        (method : string) (data file_id chat_id : value) :
  method <> "OPTIONS" ->
  Val.get data "file_id" VNone = Ret file_id ->
  Val.get data "chat_id" VNone = Ret chat_id ->
  Val.truthy file_id = true ->
  Val.truthy chat_id = true ->
  let resp := fst (handle_api_send method (Ret data)) in
  let calls := snd (handle_api_send method (Ret data)) in
  (forall c, py_int int_of_str chat_id = Ret c ->
     (exists tried rest,
         methods = (tried ++ rest)%list /\
         calls = List.map (invocation file_id c) tried /\
         Forall (fun m => accepts file_id c m = false) (removelast tried) /\
         (resp = JsonOk -> accepts file_id c (List.last tried send_document) = true) /\
         (resp <> JsonOk -> rest = [])) /\
     List.NoDup (List.map c_method calls) /\
     (resp = JsonOk <-> Exists (fun m => accepts file_id c m = true) methods) /\
     (resp = JsonError 500 "Could not send file"
        <-> Forall (fun m => accepts file_id c m = false) methods) /\
     (status_of resp = 500
        <-> Forall (fun m => accepts file_id c m = false) methods) /\
     (accepts file_id c send_document = false ->
      accepts file_id c send_photo = true ->
      resp = JsonOk /\ List.map c_method calls = [send_document; send_photo])) /\
  (forall e, py_int int_of_str chat_id = Raise e ->
     resp = JsonError 500 "Could not send file" /\ calls = []).
Proof.
  intros Hmeth Hfid Hcid Htf Htc resp calls.
  assert (Hrun : handle_api_send method (Ret data)
                 = (if fst (try_methods methods file_id chat_id)
                    then JsonOk else JsonError 500 "Could not send file",
                    snd (try_methods methods file_id chat_id))).
  { unfold Api.handle_api_send.
    destruct (String.eqb_spec method "OPTIONS") as [E|_]; [contradiction|].
    rewrite Hfid, Hcid, Htf, Htc. cbn [negb orb].
    destruct (try_methods methods file_id chat_id) as [[|] cs]; reflexivity. }
  split.
  2:{ intros e He. subst resp calls.
      rewrite Hrun, (try_methods_no_int file_id chat_id e He). split; reflexivity. }
  intros c Hint.
  destruct (try_methods_prefix file_id chat_id c Hint methods)
    as (tried & rest & Hms & Hcalls & Hsent).
  assert (Hmap : List.map c_method (List.map (invocation file_id c) tried) = tried).
  { rewrite List.map_map. simpl. apply List.map_id. }
  assert (Hsecond : accepts file_id c send_document = false ->
                    accepts file_id c send_photo = true ->
                    fst (try_methods methods file_id chat_id) = true /\
                    List.map c_method (snd (try_methods methods file_id chat_id))
                      = [send_document; send_photo]).
  { intros H1 H2.
    rewrite (try_methods_second_accepts file_id chat_id c Hint H1 H2).
    split; reflexivity. }
  subst resp calls. rewrite Hrun.
  set (tm := try_methods methods file_id chat_id) in *. clearbody tm.
  cbn [fst snd].
  destruct (fst tm) eqn:Hfst.
  - destruct Hsent as (failed & m & -> & Hfailed & Hm).
    assert (Hex : Exists (fun x => accepts file_id c x = true) methods).
    { rewrite Hms. apply Exists_app. left. apply Exists_app. right.
      now constructor. }
    assert (Hnall : ~ Forall (fun x => accepts file_id c x = false) methods).
    { intros Hall. apply Exists_exists in Hex. destruct Hex as (x & Hin & Hx).
      rewrite Forall_forall in Hall. specialize (Hall x Hin). congruence. }
    split; [|split; [|split; [|split; [|split]]]].
    + exists (failed ++ [m])%list, rest.
      split; [exact Hms|]. split; [exact Hcalls|].
      rewrite List.removelast_last, List.last_last.
      split; [exact Hfailed|].
      split; [intros _; exact Hm | intros H; now contradiction H].
    + rewrite Hcalls, Hmap. apply (nodup_prefix _ rest).
      rewrite <- Hms. apply methods_nodup.
    + split; [intros _; exact Hex | reflexivity].
    + split; [discriminate | intros H; contradiction].
    + simpl. split; [discriminate | intros H; contradiction].
    + intros H1 H2. split; [reflexivity | exact (proj2 (Hsecond H1 H2))].
  - destruct Hsent as [-> Hall]. rewrite List.app_nil_r in Hms.
    assert (Hnex : ~ Exists (fun x => accepts file_id c x = true) methods).
    { intros Hex. apply Exists_exists in Hex. destruct Hex as (x & Hin & Hx).
      rewrite Hms in Hin. rewrite Forall_forall in Hall.
      specialize (Hall x Hin). congruence. }
    split; [|split; [|split; [|split; [|split]]]].
    + exists tried, []. split; [now rewrite List.app_nil_r|].
      split; [exact Hcalls|].
      split; [|split; [discriminate | reflexivity]].
      rewrite List.Forall_forall in *. intros x Hx.
      apply Hall. now apply in_removelast_in.
    + rewrite Hcalls, Hmap, <- Hms. apply methods_nodup.
    + split; [discriminate | intros H; contradiction].
    + split; [intros _; now rewrite Hms | reflexivity].
    + simpl. split; [intros _; now rewrite Hms | reflexivity].
    + intros H1 H2. destruct (Hsecond H1 H2) as [Habs _]. discriminate.
Qed.

End SendFacts.

(** C1, the sentence as the specification has it fails: for a chat that
    is named, not numbered, the answer is the error with status 500 although
    no method has failed; none of the four is attempted, and each of them
    accepts the file for every chat. *)
Lemma relay_fails_without_any_attempt :
  let int_of_str := fun s : string =>
                      @Raise Z ("invalid literal for int() with base 10: '" ++ s ++ "'") in
  let dispatch := fun (_ : Api.method_kind) (_ : Z) (_ : value) => Ret tt in
  let data := VMap [("file_id", VStr "BQACAgIAAxkBAAIB"); ("chat_id", VStr "@channel")] in
  Api.handle_api_send int_of_str dispatch "POST" (Ret data)
    = (Api.JsonError 500 "Could not send file", []) /\
  Api.status_of (fst (Api.handle_api_send int_of_str dispatch "POST" (Ret data))) = 500 /\
  (forall c, Forall (fun m => Api.accepts dispatch (VStr "BQACAgIAAxkBAAIB") c m = true)
                    Api.methods).
Proof.
  cbv zeta. split; [reflexivity|]. split; [reflexivity|].
  intros c. repeat constructor.
Qed.

Lemma relay_fixed_order_first_success_witness :
  let int_of_str := fun s : string =>
                      if (s =? "4242")%string then Ret 4242
                      else @Raise Z "invalid literal for int()" in
  let dispatch := fun (m : Api.method_kind) (_ : Z) (_ : value) =>
                    match m with
                    | Api.send_photo => Ret tt
                    | _ => Raise "Bad Request: wrong file type"
                    end in
  let data := VMap [("file_id", VStr "AgACAgIAAxkBAAIC"); ("chat_id", VStr "4242")] in
  "POST" <> "OPTIONS" /\
  Val.truthy (VStr "AgACAgIAAxkBAAIC") = true /\
  Val.truthy (VStr "4242") = true /\
  Api.py_int int_of_str (VStr "4242") = Ret 4242 /\
  fst (Api.handle_api_send int_of_str dispatch "POST" (Ret data)) = Api.JsonOk /\
  List.map Api.c_method (snd (Api.handle_api_send int_of_str dispatch "POST" (Ret data)))
    = [Api.send_document; Api.send_photo].
Proof.
  cbv zeta.
  assert (H1 : "POST" <> "OPTIONS") by discriminate.
  split; [exact H1|]. split; [reflexivity|]. split; [reflexivity|].
  split; [reflexivity|].
  match goal with
  | |- fst (Api.handle_api_send ?i ?d _ (Ret ?b)) = _ /\ _ =>
      pose proof (proj1 (relay_fixed_order_first_success i d "POST" b
                           (VStr "AgACAgIAAxkBAAIC") (VStr "4242")
                           H1 eq_refl eq_refl eq_refl eq_refl)
                    4242 eq_refl) as (_ & _ & _ & _ & _ & H)
  end.
  apply H; reflexivity.
Defined.

(** ** Download path *)

Section DownloadFacts.

Import Api.

Variable BOT_TOKEN : string.
Variable get_file : string -> pyres (option string).
Variable http_get : string -> pyres upstream.

#[local] Abbreviation handle_api_download :=
  (Api.handle_api_download BOT_TOKEN get_file http_get).
#[local] Abbreviation file_url := (Api.file_url BOT_TOKEN).

Lemma not_options method :
  method <> "OPTIONS" -> (method =? "OPTIONS")%string = false.
Proof. intros H. now apply String.eqb_neq. Qed.

Lemma truthy_nonempty s : s <> "" -> Py.truthy (Some s) = true.
Proof.
  intros H. unfold Py.truthy.
  destruct (String.eqb_spec s ""); [contradiction | reflexivity].
Qed.

(** C2 (as amended). For a download request with a file id that the origin
    resolves: when the upstream answers with a status other than 200, the
    response is the error "Telegram download failed" with status 502; when
    the fetch, or reading its body, raises an error whose text does not
    contain "file is too big", the response is that error text with
    status 500. *)
Theorem upstream_failure_responses
        (method file_id : string) (q_name path : option string) :
  method <> "OPTIONS" ->
  file_id <> "" ->
  get_file file_id = Ret path ->
  (forall resp, http_get (file_url path) = Ret resp ->
                up_status resp <> 200 ->
     handle_api_download method (Some file_id) q_name
       = (JsonError 502 "Telegram download failed", [file_url path])) /\
  (forall e, http_get (file_url path) = Raise e ->
             Py.contains "file is too big" (Py.lower e) = false ->
     handle_api_download method (Some file_id) q_name
       = (JsonError 500 e, [file_url path])) /\
  (forall resp e, http_get (file_url path) = Ret resp ->
                  up_status resp = 200 -> up_read resp = Raise e ->
                  Py.contains "file is too big" (Py.lower e) = false ->
     handle_api_download method (Some file_id) q_name
       = (JsonError 500 e, [file_url path])).
Proof.
  intros Hm Hf Hg.
  unfold Api.handle_api_download.
  rewrite (not_options _ Hm), (truthy_nonempty _ Hf), Hg. cbn [negb].
  split; [|split].
  - intros resp Hget Hst. rewrite Hget.
    apply Z.eqb_neq in Hst. now rewrite Hst.
  - intros e Hget He. rewrite Hget. unfold on_download_error. now rewrite He.
  - intros resp e Hget Hst Hread He. rewrite Hget, Hst, Hread.
    unfold on_download_error. now rewrite He.
Qed.

(** C5. For a download request whose file id the origin refuses with an
    error that contains "file is too big" (in any letter case), the
    response has status 413 and the text that sends the user to the bot,
    and nothing is fetched; a request without [file_id], or with an empty
    one, gets status 400, and nothing is fetched either. *)
Theorem too_large_and_missing_id (method : string) (q_name : option string) :
  method <> "OPTIONS" ->
  (forall file_id e,
      file_id <> "" ->
      get_file file_id = Raise e ->
      Py.contains "file is too big" (Py.lower e) = true ->
      handle_api_download method (Some file_id) q_name
        = (JsonError 413 too_large_text, []) /\
      status_of (fst (handle_api_download method (Some file_id) q_name)) = 413) /\
  handle_api_download method None q_name = (JsonError 400 "file_id required", []) /\
  handle_api_download method (Some "") q_name = (JsonError 400 "file_id required", []) /\
  Py.contains "Use the Telegram bot to download it" too_large_text = true.
Proof.
  intros Hm. unfold Api.handle_api_download. rewrite (not_options _ Hm).
  split; [|split; [|split]]; try reflexivity.
  intros file_id e Hf Hg He.
  rewrite (truthy_nonempty _ Hf), Hg. cbn [negb].
  unfold on_download_error. rewrite He. split; reflexivity.
Qed.

(** C9. A download request that gives [file_id] and no [name] is served
    under the display name "file": when the origin resolves the file and the
    upstream answers 200 with a body, the response carries the header
    Content-Disposition: attachment; filename="file". *)
Theorem download_default_name
        (method file_id content : string) (path : option string) (resp : upstream) :
  method <> "OPTIONS" ->
  file_id <> "" ->
  get_file file_id = Ret path ->
  http_get (file_url path) = Ret resp ->
  up_status resp = 200 ->
  up_read resp = Ret content ->
  handle_api_download method (Some file_id) None
    = (FileBody content
                ("attachment; filename=" ++ String "034"%char ("file" ++ String "034"%char ""))
                (Py.or_default (up_content_type resp) "application/octet-stream"),
       [file_url path]).
Proof.
  intros Hm Hf Hg Hget Hst Hread.
  unfold Api.handle_api_download.
  rewrite (not_options _ Hm), (truthy_nonempty _ Hf), Hg, Hget, Hst, Hread.
  reflexivity.
Qed.

End DownloadFacts.

(** C2, the claim as stated fails: a transport error during the fetch is
    answered with status 500, not with the gateway error 502. *)
Lemma transport_error_is_not_502 :
  let get_file := fun _ : string => Ret (Some "documents/file_7.pdf") in
  let http_get := fun _ : string =>
                    @Raise Api.upstream "Cannot connect to host api.telegram.org:443" in
  Api.handle_api_download "TOKEN" get_file http_get "GET" (Some "BQACAgIAAxkBAAIB")
                          (Some "report.pdf")
    = (Api.JsonError 500 "Cannot connect to host api.telegram.org:443",
       ["https://api.telegram.org/file/botTOKEN/documents/file_7.pdf"]) /\
  Api.status_of (fst (Api.handle_api_download "TOKEN" get_file http_get "GET"
                        (Some "BQACAgIAAxkBAAIB") (Some "report.pdf"))) <> 502.
Proof.
  cbv zeta. split; [reflexivity|]. vm_compute. discriminate.
Qed.

(** ** Listing *)

Section SortFacts.

Import Api.

Context {A : Type}.

#[local] Abbreviation desc := (StronglySorted (fun a b : Z * A => fst a >= fst b)).

Lemma insert_desc_perm k (x : A) l :
  Permutation (insert_desc k x l) ((k, x) :: l).
Proof.
  induction l as [|[k' y] r IH]; simpl; [reflexivity|].
  destruct (k' >? k); [|reflexivity].
  rewrite IH. apply perm_swap.
Qed.

Lemma sort_desc_perm (l : list (Z * A)) : Permutation (sort_desc l) l.
Proof.
  induction l as [|[k x] r IH]; simpl; [reflexivity|].
  rewrite insert_desc_perm. now constructor.
Qed.

Lemma insert_desc_sorted k (x : A) l : desc l -> desc (insert_desc k x l).
Proof.
  induction l as [|[k' y] r IH]; intros Hs; simpl.
  - constructor; constructor.
  - inversion Hs as [|? ? Hr Hall]; subst.
    destruct (k' >? k) eqn:E.
    + constructor; [now apply IH|].
      eapply Permutation_Forall; [symmetry; apply insert_desc_perm|].
      constructor; [simpl; lia | exact Hall].
    + constructor; [exact Hs|].
      constructor; [simpl; lia|].
      eapply List.Forall_impl; [|exact Hall].
      intros [k'' z]; simpl. lia.
Qed.

Lemma sort_desc_sorted (l : list (Z * A)) : desc (sort_desc l).
Proof.
  induction l as [|[k x] r IH]; simpl; [constructor|].
  now apply insert_desc_sorted.
Qed.

(** Sorting what is sorted changes nothing. *)
Lemma sort_desc_fixed (l : list (Z * A)) : desc l -> sort_desc l = l.
Proof.
  induction l as [|[k x] r IH]; intros Hs; simpl; [reflexivity|].
  inversion Hs as [|? ? Hr Hall]; subst.
  rewrite (IH Hr). destruct r as [|[k' y] r']; simpl; [reflexivity|].
  inversion Hall as [|? ? Hk _]; subst. simpl in Hk.
  destruct (k' >? k) eqn:E; [lia | reflexivity].
Qed.

(** The sort is stable: records with the same key keep their order. *)
Lemma insert_desc_filter k0 k (x : A) l :
  List.filter (fun p => fst p =? k0) (insert_desc k x l)
    = List.filter (fun p => fst p =? k0) ((k, x) :: l).
Proof.
  induction l as [|[k' y] r IH]; [reflexivity|].
  cbn [insert_desc]. destruct (k' >? k) eqn:E; [|reflexivity].
  cbn [List.filter fst] in *. rewrite IH.
  destruct (k' =? k0) eqn:E1, (k =? k0) eqn:E2; try reflexivity. lia.
Qed.

Lemma sort_desc_filter k0 (l : list (Z * A)) :
  List.filter (fun p => fst p =? k0) (sort_desc l)
    = List.filter (fun p => fst p =? k0) l.
Proof.
  induction l as [|[k x] r IH]; [reflexivity|].
  cbn [sort_desc]. rewrite insert_desc_filter.
  cbn [List.filter]. now rewrite IH.
Qed.

End SortFacts.

Section TraverseFacts.

Import Api.

Context {A B : Type} (f : A -> pyres B).

Lemma traverse_cons a l bs :
  traverse f (a :: l) = Ret bs ->
  exists b bs', bs = b :: bs' /\ f a = Ret b /\ traverse f l = Ret bs'.
Proof.
  simpl. destruct (f a) as [b|e]; [|discriminate].
  destruct (traverse f l) as [bs'|e]; [|discriminate].
  intros H. injection H as <-. now exists b, bs'.
Qed.

Lemma traverse_length l : forall bs,
  traverse f l = Ret bs -> length bs = length l.
Proof.
  induction l as [|a l IH]; intros bs H.
  - injection H as <-. reflexivity.
  - apply traverse_cons in H. destruct H as (b & bs' & -> & _ & H).
    simpl. f_equal. now apply IH.
Qed.

Lemma traverse_combine l : forall bs,
  traverse f l = Ret bs ->
  Forall (fun p => f (snd p) = Ret (fst p)) (combine bs l) /\
  List.map snd (combine bs l) = l.
Proof.
  induction l as [|a l IH]; intros bs H.
  - injection H as <-. split; [constructor | reflexivity].
  - apply traverse_cons in H. destruct H as (b & bs' & -> & Hb & H).
    destruct (IH _ H) as [Hall Hmap]. simpl. split.
    + now constructor.
    + now rewrite Hmap.
Qed.

Lemma traverse_of_pairs (s : list (B * A)) :
  Forall (fun p => f (snd p) = Ret (fst p)) s ->
  traverse f (List.map snd s) = Ret (List.map fst s).
Proof.
  induction 1 as [|[b a] s Hb _ IH]; [reflexivity|].
  simpl in *. now rewrite Hb, IH.
Qed.

Lemma traverse_nth l : forall bs i a,
  traverse f l = Ret bs -> nth_error l i = Some a ->
  exists b, nth_error bs i = Some b /\ f a = Ret b.
Proof.
  induction l as [|x l IH]; intros bs i a H Hi.
  - destruct i; discriminate.
  - apply traverse_cons in H. destruct H as (b & bs' & -> & Hb & H).
    destruct i as [|i]; simpl in *.
    + injection Hi as <-. now exists b.
    + now apply (IH bs' i a).
Qed.

End TraverseFacts.

Lemma strongly_sorted_nth (l : list Z) : StronglySorted Z.ge l ->
  forall i j a b, (i < j)%nat ->
    nth_error l i = Some a -> nth_error l j = Some b -> a >= b.
Proof.
  induction 1 as [|x l Hs IH Hall]; intros i j a b Hij Hi Hj.
  - destruct i; discriminate.
  - destruct j as [|j]; [lia|]. simpl in Hj.
    destruct i as [|i]; simpl in Hi.
    + injection Hi as <-. rewrite List.Forall_forall in Hall.
      apply Hall. eapply nth_error_In. exact Hj.
    + apply (IH i j); [lia | assumption | assumption].
Qed.

Lemma map_fst_sorted {A} (s : list (Z * A)) :
  StronglySorted (fun a b : Z * A => fst a >= fst b) s ->
  StronglySorted Z.ge (List.map fst s).
Proof.
  induction 1 as [|p s Hs IH Hall]; simpl; constructor; [exact IH|].
  rewrite List.Forall_forall in *. intros k Hk.
  apply List.in_map_iff in Hk. destruct Hk as (q & <- & Hq). now apply Hall.
Qed.

Section ListingFacts.

Import Api.

Variable str_lower : string -> string.

#[local] Abbreviation handle_file := (Ingest.handle_file str_lower).
#[local] Abbreviation run := (Ingest.run str_lower).

Lemma handle_api_files_inv method db out :
  handle_api_files method db = JsonFiles out ->
  exists files keys,
    method <> "OPTIONS" /\
    Firestore.fault db = None /\
    traverse normalize (Firestore.docs db) = Ret files /\
    traverse sort_key files = Ret keys /\
    out = List.map snd (sort_desc (combine keys files)).
Proof.
  unfold handle_api_files, Firestore.stream.
  destruct (String.eqb_spec method "OPTIONS") as [|Hm]; [discriminate|].
  destruct (Firestore.fault db) as [e|] eqn:Hf; [discriminate|].
  destruct (traverse normalize (Firestore.docs db)) as [files|e] eqn:Hn;
    [|discriminate].
  destruct (traverse sort_key files) as [keys|e] eqn:Hk; [|discriminate].
  destruct (forallb json_ok _); [|discriminate].
  intros H. injection H as <-. exists files, keys.
  split; [exact Hm|]. split; [reflexivity|]. split; [reflexivity|].
  split; [exact Hk | reflexivity].
Qed.

Lemma has_key_of_pairs k (s : list (Z * gmap string value)) :
  Forall (fun p => sort_key (snd p) = Ret (fst p)) s ->
  List.filter (has_key k) (List.map snd s)
    = List.map snd (List.filter (fun p => fst p =? k) s).
Proof.
  induction 1 as [|[k' x] s Hk _ IH]; [reflexivity|].
  simpl in *. unfold has_key at 1. rewrite Hk.
  destruct (k' =? k); simpl; now rewrite IH.
Qed.

Lemma sorted_pairs files keys :
  traverse sort_key files = Ret keys ->
  let s := sort_desc (combine keys files) in
  Forall (fun p => sort_key (snd p) = Ret (fst p)) s /\
  Permutation (List.map snd s) files /\
  StronglySorted Z.ge (List.map fst s).
Proof.
  intros Hk s. destruct (traverse_combine sort_key files keys Hk) as [Hall Hmap].
  split; [|split].
  - eapply Permutation_Forall; [symmetry; apply sort_desc_perm | exact Hall].
  - transitivity (List.map snd (combine keys files)).
    + apply Permutation_map, sort_desc_perm.
    + now rewrite Hmap.
  - apply map_fst_sorted, sort_desc_sorted.
Qed.

Lemma resolve_opt_str now o :
  Val.json_serializable (Firestore.resolve now (Val.of_opt_str o)) = true.
Proof. destruct o; reflexivity. Qed.

Lemma resolve_opt_int now o :
  Val.json_serializable (Firestore.resolve now (Val.of_opt_int o)) = true.
Proof. destruct o; reflexivity. Qed.

Lemma ingested_listable doc :
  Ingest.ingested doc ->
  exists d k, normalize doc = Ret d /\ sort_key d = Ret k /\ json_ok d = true.
Proof.
  intros (f & category & chat_id & now & Hfields).
  unfold normalize. rewrite Hfields. unfold Ingest.doc_data.
  rewrite !fmap_insert, fmap_empty.
  set (d0 := <["id" := VStr (Firestore.doc_id doc)]> _).
  assert (d0 !! "timestamp" = Some (VTimestamp now)) as ->.
  { unfold d0. now simplify_map_eq. }
  cbn [Val.truthy Firestore.resolve].
  eexists _, (epoch_seconds now). split; [reflexivity|]. split.
  - unfold sort_key. rewrite lookup_insert_eq. reflexivity.
  - unfold json_ok. apply forallb_forall. intros [k v] Hin.
    apply list_elem_of_In, elem_of_map_to_list in Hin. cbn [snd].
    unfold d0 in Hin.
    repeat (rewrite lookup_insert in Hin;
            destruct (decide _) as [?|?];
            [first [contradiction
                   | injection Hin as <-;
                     first [reflexivity | apply resolve_opt_str | apply resolve_opt_int]]
            |]).
    rewrite lookup_empty in Hin. discriminate.
Qed.

Lemma handle_file_keeps_ingested a m db :
  Firestore.fault db = None /\ Forall Ingest.ingested (Firestore.docs db) ->
  Firestore.fault (fst (handle_file a m db)) = None /\
  Forall Ingest.ingested (Firestore.docs (fst (handle_file a m db))).
Proof.
  intros [Hf Hall]. unfold Ingest.handle_file.
  destruct (negb (Py.truthy (Ingest.f_file_id (Ingest.extract m)))); [now split|].
  unfold Firestore.add. rewrite Hf.
  destruct (Format.format_size (Ingest.f_file_size (Ingest.extract m)));
    (split; [reflexivity|]); cbn [fst Firestore.docs];
    (apply Forall_place; [|exact Hall]);
    now eexists _, _, _, _.
Qed.

Lemma run_keeps_ingested events : forall db,
  Firestore.fault db = None /\ Forall Ingest.ingested (Firestore.docs db) ->
  Firestore.fault (run events db) = None /\
  Forall Ingest.ingested (Firestore.docs (run events db)).
Proof.
  induction events as [|[a m] rest IH]; intros db Hdb; simpl.
  - exact Hdb.
  - apply IH. now apply handle_file_keeps_ingested.
Qed.

Lemma traverse_normalize_ingested docs :
  Forall Ingest.ingested docs ->
  exists files,
    traverse normalize docs = Ret files /\
    Forall (fun d => (exists k, sort_key d = Ret k) /\ json_ok d = true) files.
Proof.
  induction 1 as [|doc docs Hdoc _ (files & Hfiles & Hall)].
  - exists []. split; [reflexivity | constructor].
  - destruct (ingested_listable doc Hdoc) as (d & k & Hn & Hk & Hj).
    exists (d :: files). simpl. rewrite Hn, Hfiles.
    split; [reflexivity|]. constructor; [|exact Hall].
    split; [now exists k | exact Hj].
Qed.

Lemma traverse_sort_key_total files :
  Forall (fun d => (exists k, sort_key d = Ret k) /\ json_ok d = true) files ->
  exists keys, traverse sort_key files = Ret keys.
Proof.
  induction 1 as [|d files [[k Hk] _] _ (keys & Hkeys)].
  - now exists [].
  - exists (k :: keys). simpl. now rewrite Hk, Hkeys.
Qed.

(** Whatever the ingest handler has stored, the listing returns. *)
Lemma listing_of_ingested method db :
  method <> "OPTIONS" ->
  Firestore.fault db = None -> Forall Ingest.ingested (Firestore.docs db) ->
  exists out, handle_api_files method db = JsonFiles out.
Proof.
  intros Hm Hf Hall. unfold handle_api_files, Firestore.stream.
  destruct (String.eqb_spec method "OPTIONS"); [contradiction|]. rewrite Hf.
  destruct (traverse_normalize_ingested _ Hall) as (files & -> & Hfiles).
  destruct (traverse_sort_key_total _ Hfiles) as (keys & Hkeys). rewrite Hkeys.
  destruct (sorted_pairs files keys Hkeys) as (_ & Hperm & _).
  eexists. rewrite (proj2 (forallb_forall _ _)); [reflexivity|].
  intros d Hd. apply (Permutation_in _ Hperm) in Hd.
  rewrite List.Forall_forall in Hfiles. now apply Hfiles.
Qed.

(** The key under which a listed record sorts is the creation second of
    the document it comes from. *)
Lemma sort_key_of_normalized doc d k :
  normalize doc = Ret d -> sort_key d = Ret k -> k = created_seconds doc.
Proof.
  unfold normalize, created_seconds.
  rewrite lookup_insert_ne by discriminate.
  destruct (Firestore.doc_fields doc !! "timestamp") as [v|] eqn:Hv.
  - destruct (Val.truthy v) eqn:Tv.
    + destruct v; try discriminate. intros H. injection H as <-.
      unfold sort_key. rewrite lookup_insert_eq. cbn. congruence.
    + intros H. injection H as <-. unfold sort_key.
      rewrite lookup_insert_ne by discriminate. rewrite Hv.
      destruct v; try discriminate.
      destruct entries; [cbn; congruence | discriminate].
  - intros H. injection H as <-. unfold sort_key.
    rewrite lookup_insert_ne by discriminate. rewrite Hv. cbn. congruence.
Qed.

Lemma keyed_combine docs : forall files keys,
  traverse normalize docs = Ret files ->
  traverse sort_key files = Ret keys ->
  Forall2 same_record (List.map keyed docs) (combine keys files).
Proof.
  induction docs as [|doc docs IH]; intros files keys Hn Hk.
  - injection Hn as <-. injection Hk as <-. constructor.
  - apply traverse_cons in Hn. destruct Hn as (d & files' & -> & Hd & Hn).
    apply traverse_cons in Hk. destruct Hk as (k & keys' & -> & Hkd & Hk).
    simpl. constructor; [|now apply IH].
    split; [|exact Hd]. simpl. symmetry. now apply (sort_key_of_normalized doc d k).
Qed.

Lemma insert_desc_same k doc d l l' :
  normalize doc = Ret d ->
  Forall2 same_record l l' ->
  Forall2 same_record (insert_desc k doc l) (insert_desc k d l').
Proof.
  intros Hd. induction 1 as [|[k1 x] [k2 y] l l' [Hk Hxy] Hl IH]; simpl.
  - constructor; [now split | constructor].
  - simpl in Hk. subst k2. destruct (k1 >? k).
    + constructor; [now split | exact IH].
    + constructor; [now split|]. constructor; [now split | assumption].
Qed.

Lemma sort_desc_same l l' :
  Forall2 same_record l l' -> Forall2 same_record (sort_desc l) (sort_desc l').
Proof.
  induction 1 as [|[k1 x] [k2 y] l l' [Hk Hxy] _ IH]; simpl; [constructor|].
  simpl in Hk, Hxy. subst k2. now apply insert_desc_same.
Qed.

Lemma traverse_same s s' :
  Forall2 same_record s s' ->
  traverse normalize (List.map snd s) = Ret (List.map snd s').
Proof.
  induction 1 as [|p q s s' [_ Hpq] _ IH]; [reflexivity|].
  simpl. now rewrite Hpq, IH.
Qed.

Lemma keyed_sorted (s : list (Z * Firestore.snapshot)) :
  Forall (fun p => fst p = created_seconds (snd p)) s ->
  StronglySorted (fun a b : Z * Firestore.snapshot => fst a >= fst b) s ->
  StronglySorted (fun a b => created_seconds a >= created_seconds b) (List.map snd s).
Proof.
  intros Hall Hs. induction Hs as [|p s Hs IH Hp]; simpl; [constructor|].
  inversion Hall as [|? ? Hp0 Hall']; subst.
  constructor; [now apply IH|].
  rewrite List.Forall_forall in *. intros x Hx.
  apply List.in_map_iff in Hx. destruct Hx as (q & <- & Hq).
  rewrite <- Hp0, <- (Hall' q Hq). now apply Hp.
Qed.

Lemma keyed_filter k (s : list (Z * Firestore.snapshot)) :
  Forall (fun p => fst p = created_seconds (snd p)) s ->
  List.filter (fun d => created_seconds d =? k) (List.map snd s)
    = List.map snd (List.filter (fun p => fst p =? k) s).
Proof.
  induction 1 as [|[k' x] s Hk _ IH]; [reflexivity|].
  simpl in *. rewrite <- Hk. destruct (k' =? k); simpl; now rewrite IH.
Qed.

Lemma keyed_all docs :
  Forall (fun p => fst p = created_seconds (snd p)) (List.map keyed docs).
Proof. induction docs; simpl; constructor; [reflexivity | assumption]. Qed.

Lemma map_snd_keyed docs : List.map snd (List.map keyed docs) = docs.
Proof. induction docs as [|d l IH]; simpl; [reflexivity | now rewrite IH]. Qed.

Lemma listing_order_perm docs : Permutation (listing_order docs) docs.
Proof.
  unfold listing_order.
  rewrite <- (map_snd_keyed docs) at 2.
  apply Permutation_map, sort_desc_perm.
Qed.

Lemma listing_order_sorted docs :
  StronglySorted (fun a b => created_seconds a >= created_seconds b)
                 (listing_order docs).
Proof.
  unfold listing_order. apply keyed_sorted.
  - eapply Permutation_Forall; [symmetry; apply sort_desc_perm | apply keyed_all].
  - apply sort_desc_sorted.
Qed.

Lemma listing_order_stable k docs :
  List.filter (fun d => created_seconds d =? k) (listing_order docs)
    = List.filter (fun d => created_seconds d =? k) docs.
Proof.
  unfold listing_order. rewrite keyed_filter.
  - rewrite sort_desc_filter, <- keyed_filter by apply keyed_all.
    now rewrite map_snd_keyed.
  - eapply Permutation_Forall; [symmetry; apply sort_desc_perm | apply keyed_all].
Qed.

(** An order that is descending and keeps the documents of each second as
    they stand is fixed by these two properties. *)
Lemma descending_stable_unique (l1 : list Firestore.snapshot) : forall l2,
  StronglySorted (fun a b => created_seconds a >= created_seconds b) l1 ->
  StronglySorted (fun a b => created_seconds a >= created_seconds b) l2 ->
  (forall k, List.filter (fun d => created_seconds d =? k) l1
             = List.filter (fun d => created_seconds d =? k) l2) ->
  l1 = l2.
Proof.
  induction l1 as [|x r1 IH]; intros l2 H1 H2 Hf.
  - destruct l2 as [|y r2]; [reflexivity|].
    specialize (Hf (created_seconds y)). simpl in Hf.
    rewrite Z.eqb_refl in Hf. discriminate.
  - destruct l2 as [|y r2].
    { specialize (Hf (created_seconds x)). simpl in Hf.
      rewrite Z.eqb_refl in Hf. discriminate. }
    inversion H1 as [|? ? Hr1 Hx]; subst. inversion H2 as [|? ? Hr2 Hy]; subst.
    assert (forall (a : Firestore.snapshot) l b,
              Forall (fun c => created_seconds a >= created_seconds c) l ->
              In b (List.filter (fun d => created_seconds d =? created_seconds b) (a :: l)) ->
              created_seconds a >= created_seconds b) as Hhead.
    { intros a l b Ha Hb. apply List.filter_In in Hb. destruct Hb as [[<-|Hb] _]; [lia|].
      rewrite List.Forall_forall in Ha. now apply Ha. }
    assert (created_seconds x = created_seconds y) as Hxy.
    { assert (created_seconds x >= created_seconds y).
      { apply (Hhead x r1 y Hx). rewrite Hf. simpl. rewrite Z.eqb_refl. now left. }
      assert (created_seconds y >= created_seconds x).
      { apply (Hhead y r2 x Hy). rewrite <- Hf. simpl. rewrite Z.eqb_refl. now left. }
      lia. }
    pose proof (Hf (created_seconds x)) as Hfx. simpl in Hfx.
    rewrite <- Hxy, Z.eqb_refl in Hfx. injection Hfx as <- Hfx.
    f_equal. apply IH; [assumption | assumption |].
    intros k. specialize (Hf k). simpl in Hf.
    destruct (created_seconds x =? k) eqn:E; [|exact Hf].
    apply Z.eqb_eq in E. subst k. exact Hfx.
Qed.

(** C7 (as amended). When the listing answers with records, these are the
    documents of the collection, each one normalised, all of them and no
    other, in descending order of the time of their creation in whole
    seconds, as [int(ts.timestamp())] counts them, 0 for a document without
    a stored time; documents of the same second keep the order of the
    collection, whichever of them is the more recent; and no other order
    has these two properties, so that the answer depends on the stored
    documents alone.
    An empty collection is answered with the empty list, and every
    collection that the ingest handler has filled is answered with
    records. *)
Theorem list_files_sorted_descending method db out :
  handle_api_files method db = JsonFiles out ->
  let order := listing_order (Firestore.docs db) in
  traverse normalize order = Ret out /\
  Permutation order (Firestore.docs db) /\
  StronglySorted (fun a b => created_seconds a >= created_seconds b) order /\
  (forall k, List.filter (fun d => created_seconds d =? k) order
             = List.filter (fun d => created_seconds d =? k) (Firestore.docs db)) /\
  (forall other,
      StronglySorted (fun a b => created_seconds a >= created_seconds b) other ->
      (forall k, List.filter (fun d => created_seconds d =? k) other
                 = List.filter (fun d => created_seconds d =? k) (Firestore.docs db)) ->
      other = order) /\
  length out = length (Firestore.docs db) /\
  handle_api_files method Ingest.empty_db = JsonFiles [] /\
  (forall events, exists listed,
      handle_api_files method (run events Ingest.empty_db) = JsonFiles listed).
Proof.
  intros H order.
  destruct (handle_api_files_inv _ _ _ H) as (files & keys & Hm & Hf & Hn & Hk & ->).
  destruct (sorted_pairs files keys Hk) as (Hall & Hperm & Hsorted).
  split.
  { unfold order, listing_order.
    apply traverse_same, sort_desc_same. now apply keyed_combine. }
  split; [apply listing_order_perm|].
  split; [apply listing_order_sorted|].
  split; [intros k; apply listing_order_stable|].
  split.
  { intros other Hs Hst.
    apply descending_stable_unique; [exact Hs | apply listing_order_sorted|].
    intros k. unfold order. now rewrite listing_order_stable, Hst. }
  split.
  { rewrite (Permutation_length Hperm). eapply traverse_length. exact Hn. }
  split.
  { unfold handle_api_files.
    destruct (String.eqb_spec method "OPTIONS"); [contradiction | reflexivity]. }
  intros events.
  destruct (run_keeps_ingested events Ingest.empty_db) as [Hfault Hdocs].
  { split; [reflexivity | constructor]. }
  now apply listing_of_ingested.
Qed.

Lemma sort_key_without_timestamp (d : gmap string value) :
  d !! "timestamp" = None -> sort_key d = Ret 0.
Proof. intros H. unfold sort_key. now rewrite H. Qed.

Lemma sort_key_of_seconds (x : gmap string value) s :
  x !! "timestamp" = Some (VMap [("seconds", VInt s)]) -> sort_key x = Ret s.
Proof. intros H. unfold sort_key. now rewrite H. Qed.

Lemma normalize_without_timestamp doc :
  Firestore.doc_fields doc !! "timestamp" = None ->
  normalize doc = Ret (<["id" := VStr (Firestore.doc_id doc)]> (Firestore.doc_fields doc)) /\
  (<["id" := VStr (Firestore.doc_id doc)]> (Firestore.doc_fields doc)) !! "timestamp" = None.
Proof.
  intros H.
  assert ((<["id" := VStr (Firestore.doc_id doc)]> (Firestore.doc_fields doc))
            !! "timestamp" = None) as Hd.
  { rewrite lookup_insert_ne; [exact H | discriminate]. }
  split; [|exact Hd]. unfold normalize. now rewrite Hd.
Qed.

(** C10. In a listing, a document stored without a timestamp is returned
    without a [timestamp] field, its sort key is 0, and it stands after
    every record that carries a timestamp of positive seconds. *)
Theorem missing_timestamp_sorts_last method db out doc :
  handle_api_files method db = JsonFiles out ->
  In doc (Firestore.docs db) ->
  Firestore.doc_fields doc !! "timestamp" = None ->
  exists d,
    normalize doc = Ret d /\
    d !! "timestamp" = None /\
    d !! "id" = Some (VStr (Firestore.doc_id doc)) /\
    sort_key d = Ret 0 /\
    In d out /\
    (forall i j x s,
        nth_error out i = Some d ->
        nth_error out j = Some x ->
        x !! "timestamp" = Some (VMap [("seconds", VInt s)]) -> 0 < s ->
        (j < i)%nat).
Proof.
  intros H Hin Hts.
  destruct (handle_api_files_inv _ _ _ H) as (files & keys & Hm & Hf & Hn & Hk & ->).
  destruct (sorted_pairs files keys Hk) as (Hall & Hperm & Hsorted).
  set (s := sort_desc (combine keys files)) in *.
  destruct (normalize_without_timestamp doc Hts) as [Hnorm Hd].
  set (d := <["id" := VStr (Firestore.doc_id doc)]> (Firestore.doc_fields doc)) in *.
  exists d. split; [exact Hnorm|]. split; [exact Hd|].
  split; [apply lookup_insert_eq|].
  split; [now apply sort_key_without_timestamp|].
  split.
  - apply (Permutation_in _ (Permutation_sym Hperm)).
    apply In_nth_error in Hin. destruct Hin as [n Hn'].
    destruct (traverse_nth normalize _ _ _ _ Hn Hn') as (b & Hb & Hnb).
    rewrite Hnorm in Hnb. injection Hnb as <-.
    eapply nth_error_In. exact Hb.
  - intros i j x k Hi Hj Hx Hpos. apply sort_key_of_seconds in Hx.
    pose proof (traverse_of_pairs sort_key s Hall) as Hkeys.
    destruct (traverse_nth sort_key _ _ _ _ Hkeys Hi) as (ki & Hki & Hdi).
    destruct (traverse_nth sort_key _ _ _ _ Hkeys Hj) as (kj & Hkj & Hxj).
    rewrite (sort_key_without_timestamp d Hd) in Hdi. injection Hdi as <-.
    rewrite Hx in Hxj. injection Hxj as <-.
    destruct (Nat.lt_trichotomy j i) as [Hlt | [-> | Hgt]]; [exact Hlt | |].
    + rewrite Hki in Hkj. injection Hkj as <-. lia.
    + pose proof (strongly_sorted_nth _ Hsorted i j 0 k Hgt Hki Hkj). lia.
Qed.

End ListingFacts.

(** C7, the sentence as the specification has it fails: of two documents
    stored in the same second, the one created later is not listed first
    when the collection yields it second. *)
Lemma same_second_older_listed_first :
  let a := {| Firestore.doc_id := "a";
              Firestore.doc_fields :=
                <["timestamp" := VTimestamp 1700000005000000]> ∅ |} in
  let c := {| Firestore.doc_id := "c";
              Firestore.doc_fields :=
                <["timestamp" := VTimestamp 1700000005999999]> ∅ |} in
  let db := {| Firestore.docs := [a; c]; Firestore.fault := None |} in
  Firestore.doc_fields a !! "timestamp" = Some (VTimestamp 1700000005000000) /\
  Firestore.doc_fields c !! "timestamp" = Some (VTimestamp 1700000005999999) /\
  1700000005000000 < 1700000005999999 /\
  Api.handle_api_files "GET" db
    = Api.JsonFiles
        [ <["id" := VStr "a"]>
            (<["timestamp" := VMap [("seconds", VInt 1700000005)]]> ∅);
          <["id" := VStr "c"]>
            (<["timestamp" := VMap [("seconds", VInt 1700000005)]]> ∅) ].
Proof.
  cbv zeta. split; [vm_compute; reflexivity|]. split; [vm_compute; reflexivity|].
  split; [lia|]. vm_compute. reflexivity.
Qed.

(** ** The theorems at concrete requests *)

Lemma upstream_failure_responses_witness :
  let get_file := fun _ : string => Ret (Some "documents/file_7.pdf") in
  let resp := {| Api.up_status := 404; Api.up_read := Ret "Not Found";
                 Api.up_content_type := Some "application/json" |} in
  let http_get := fun _ : string => Ret resp in
  "GET" <> "OPTIONS" /\ "BQACAgIAAxkBAAIB" <> "" /\
  get_file "BQACAgIAAxkBAAIB" = Ret (Some "documents/file_7.pdf") /\
  Api.up_status resp <> 200 /\
  Api.handle_api_download "TOKEN" get_file http_get "GET" (Some "BQACAgIAAxkBAAIB")
                          (Some "report.pdf")
    = (Api.JsonError 502 "Telegram download failed",
       [Api.file_url "TOKEN" (Some "documents/file_7.pdf")]).
Proof.
  cbv zeta.
  assert (H1 : "GET" <> "OPTIONS") by discriminate.
  assert (H2 : "BQACAgIAAxkBAAIB" <> "") by discriminate.
  split; [exact H1|]. split; [exact H2|]. split; [reflexivity|].
  split; [discriminate|].
  refine (proj1 (upstream_failure_responses "TOKEN" _ _ "GET" "BQACAgIAAxkBAAIB"
                   (Some "report.pdf") (Some "documents/file_7.pdf") H1 H2 eq_refl)
            _ eq_refl _).
  discriminate.
Defined.

Lemma too_large_and_missing_id_witness :
  let get_file := fun _ : string =>
                    @Raise (option string)
                           "Telegram server says - Bad Request: file is too big" in
  let http_get := fun _ : string => @Raise Api.upstream "not reached" in
  "GET" <> "OPTIONS" /\
  Api.handle_api_download "TOKEN" get_file http_get "GET" (Some "BQACAgIAAxkBAAIB")
                          (Some "movie.mkv")
    = (Api.JsonError 413 Api.too_large_text, []) /\
  Api.handle_api_download "TOKEN" get_file http_get "GET" None (Some "movie.mkv")
    = (Api.JsonError 400 "file_id required", []).
Proof.
  cbv zeta.
  assert (H1 : "GET" <> "OPTIONS") by discriminate.
  split; [exact H1|].
  pose proof (too_large_and_missing_id "TOKEN"
                (fun _ => Raise "Telegram server says - Bad Request: file is too big")
                (fun _ => Raise "not reached") "GET" (Some "movie.mkv") H1)
    as (Hbig & Hnone & _).
  split; [|exact Hnone].
  refine (proj1 (Hbig "BQACAgIAAxkBAAIB" _ _ eq_refl _)); [discriminate | reflexivity].
Defined.

Lemma download_default_name_witness :
  let get_file := fun _ : string => Ret (Some "photos/file_3.jpg") in
  let resp := {| Api.up_status := 200; Api.up_read := Ret "JFIF";
                 Api.up_content_type := None |} in
  let http_get := fun _ : string => Ret resp in
  "GET" <> "OPTIONS" /\ "AgACAgIAAxkBAAIC" <> "" /\
  Api.up_status resp = 200 /\
  Api.handle_api_download "TOKEN" get_file http_get "GET" (Some "AgACAgIAAxkBAAIC") None
    = (Api.FileBody "JFIF"
         ("attachment; filename=" ++ String "034"%char ("file" ++ String "034"%char ""))
         "application/octet-stream",
       ["https://api.telegram.org/file/botTOKEN/photos/file_3.jpg"]).
Proof.
  cbv zeta.
  assert (H1 : "GET" <> "OPTIONS") by discriminate.
  assert (H2 : "AgACAgIAAxkBAAIC" <> "") by discriminate.
  split; [exact H1|]. split; [exact H2|]. split; [reflexivity|].
  exact (download_default_name "TOKEN" _ _ "GET" "AgACAgIAAxkBAAIC" "JFIF"
           (Some "photos/file_3.jpg")
           {| Api.up_status := 200; Api.up_read := Ret "JFIF";
              Api.up_content_type := None |}
           H1 H2 eq_refl eq_refl eq_refl eq_refl).
Defined.

Lemma list_files_sorted_descending_witness :
  let db := {| Firestore.docs :=
                 [ {| Firestore.doc_id := "a";
                      Firestore.doc_fields :=
                        <["file_id" := VStr "F1"]>
                        (<["timestamp" := VTimestamp 1700000000250000]> ∅) |};
                   {| Firestore.doc_id := "b";
                      Firestore.doc_fields := <["file_id" := VStr "F2"]> ∅ |};
                   {| Firestore.doc_id := "c";
                      Firestore.doc_fields :=
                        <["file_id" := VStr "F3"]>
                        (<["timestamp" := VTimestamp 1700000500000000]> ∅) |} ];
               Firestore.fault := None |} in
  exists out,
    Api.handle_api_files "GET" db = Api.JsonFiles out /\
    List.map Firestore.doc_id (Api.listing_order (Firestore.docs db)) = ["c"; "a"; "b"] /\
    Api.traverse Api.normalize (Api.listing_order (Firestore.docs db)) = Ret out /\
    length out = 3%nat.
Proof.
  cbv zeta.
  match goal with
  | |- exists out, Api.handle_api_files _ ?d = _ /\ _ => set (db := d)
  end.
  assert (exists out, Api.handle_api_files "GET" db = Api.JsonFiles out) as (out & H).
  { vm_compute. eexists. reflexivity. }
  exists out. split; [exact H|]. split; [vm_compute; reflexivity|].
  pose proof (list_files_sorted_descending Py.lower "GET" db out H)
    as (Hout & _ & _ & _ & _ & Hlen & _).
  split; [exact Hout | exact Hlen].
Defined.

Lemma missing_timestamp_sorts_last_witness :
  let doc := {| Firestore.doc_id := "b";
                Firestore.doc_fields := <["file_id" := VStr "F2"]> ∅ |} in
  let db := {| Firestore.docs :=
                 [ doc;
                   {| Firestore.doc_id := "c";
                      Firestore.doc_fields :=
                        <["file_id" := VStr "F3"]>
                        (<["timestamp" := VTimestamp 1700000500000000]> ∅) |} ];
               Firestore.fault := None |} in
  exists out d x,
    Api.handle_api_files "GET" db = Api.JsonFiles out /\
    In doc (Firestore.docs db) /\
    Firestore.doc_fields doc !! "timestamp" = None /\
    Api.normalize doc = Ret d /\
    d !! "timestamp" = None /\
    Api.sort_key d = Ret 0 /\
    out = [x; d] /\
    x !! "timestamp" = Some (VMap [("seconds", VInt 1700000500)]).
Proof.
  cbv zeta.
  match goal with
  | |- exists out d x, Api.handle_api_files _ ?b = _ /\ In ?c _ /\ _ =>
      set (db := b); set (doc := c)
  end.
  assert (exists x y, Api.handle_api_files "GET" db = Api.JsonFiles [x; y] /\
                      x !! "timestamp" = Some (VMap [("seconds", VInt 1700000500)]))
    as (x & y & H & Hx).
  { vm_compute. eexists. eexists. split; reflexivity. }
  assert (Hin : In doc (Firestore.docs db)) by (left; reflexivity).
  assert (Hts : Firestore.doc_fields doc !! "timestamp" = None)
    by (vm_compute; reflexivity).
  destruct (missing_timestamp_sorts_last "GET" db [x; y] doc H Hin Hts)
    as (d & Hn & Hd & _ & Hk & Hout & Hlast).
  exists [x; y], d, x.
  split; [exact H|]. split; [exact Hin|]. split; [exact Hts|].
  split; [exact Hn|]. split; [exact Hd|]. split; [exact Hk|].
  split; [|exact Hx].
  destruct Hout as [<- | [<- | []]]; [|reflexivity].
  exfalso.
  assert (Hlt : (1 < 0)%nat); [|lia].
  apply (Hlast 0%nat 1%nat y 1700000500); [reflexivity | reflexivity | | lia].
  congruence.
Defined.

(** ** Further properties of the classifier *)

Section ClassifyMore.

Import Classify.

Variable str_lower : string -> string.

#[local] Abbreviation spec_extension := (Classify.spec_extension str_lower).
#[local] Abbreviation classify_file := (Classify.classify_file str_lower).
#[local] Abbreviation classify_spec := (Classify.classify_spec str_lower).

Lemma lower_ascii_dot c : Ascii.eqb (Py.lower_ascii c) dot = Ascii.eqb c dot.
Proof. destruct c as [[] [] [] [] [] [] [] []]; reflexivity. Qed.

Lemma lower_ascii_idem c : Py.lower_ascii (Py.lower_ascii c) = Py.lower_ascii c.
Proof. destruct c as [[] [] [] [] [] [] [] []]; reflexivity. Qed.

Lemma lower_idem s : Py.lower (Py.lower s) = Py.lower s.
Proof.
  induction s as [|c r IH]; simpl; [reflexivity|].
  now rewrite lower_ascii_idem, IH.
Qed.

Lemma lower_length s : String.length (Py.lower s) = String.length s.
Proof. induction s as [|c r IH]; simpl; [reflexivity | now rewrite IH]. Qed.

Lemma lower_last_index s : last_index dot (Py.lower s) = last_index dot s.
Proof.
  induction s as [|c r IH]; simpl; [reflexivity|].
  now rewrite IH, lower_ascii_dot.
Qed.

Lemma lower_substring s : forall a n,
  Py.lower (String.substring a n s) = String.substring a n (Py.lower s).
Proof.
  induction s as [|c r IH]; intros a n.
  - destruct a, n; reflexivity.
  - destruct a as [|a]; simpl.
    + destruct n as [|n]; simpl; [reflexivity | now rewrite IH].
    + apply IH.
Qed.

Lemma lower_ascii_is_ascii c :
  Py.is_ascii_char (Py.lower_ascii c) = Py.is_ascii_char c.
Proof. destruct c as [[] [] [] [] [] [] [] []]; reflexivity. Qed.

Lemma lower_is_ascii s : Py.is_ascii (Py.lower s) = Py.is_ascii s.
Proof.
  induction s as [|c r IH]; simpl; [reflexivity|].
  now rewrite lower_ascii_is_ascii, IH.
Qed.

Lemma substring_is_ascii s : forall a n,
  Py.is_ascii s = true -> Py.is_ascii (String.substring a n s) = true.
Proof.
  induction s as [|c r IH]; intros a n H.
  - destruct a, n; reflexivity.
  - simpl in H. apply andb_true_iff in H. destruct H as [Hc Hr].
    destruct a as [|a]; simpl.
    + destruct n as [|n]; simpl; [reflexivity|].
      rewrite Hc. now apply IH.
    + now apply IH.
Qed.

Lemma spec_extension_lower n :
  (forall s, Py.is_ascii s = true -> str_lower s = Py.lower s) ->
  Py.is_ascii n = true ->
  spec_extension (Some (str_lower n)) = spec_extension (Some n).
Proof.
  intros Hlow Hn. rewrite (Hlow n Hn). unfold Classify.spec_extension.
  rewrite lower_last_index, lower_length.
  destruct (last_index dot n) as [i|]; [|reflexivity].
  rewrite <- lower_substring.
  pose proof (substring_is_ascii n (S i) (String.length n - S i) Hn) as Hsub.
  rewrite (Hlow _ Hsub), Hlow by now rewrite lower_is_ascii.
  apply lower_idem.
Qed.

(** X1. On file names of ASCII characters, where [str.lower] sets the
    letters A to Z in lower case, the classifier does not see the letter
    case of the name: a name and its lower-case form are classified alike,
    whatever the mime type. *)
Theorem classify_file_name_case mime n :
  (forall s, Py.is_ascii s = true -> str_lower s = Py.lower s) ->
  Py.is_ascii n = true ->
  classify_file mime (Some (str_lower n)) = classify_file mime (Some n).
Proof.
  intros Hlow Hn.
  rewrite !classify_file_refines. unfold Classify.classify_spec.
  now rewrite spec_extension_lower.
Qed.

Lemma last_index_app_dotless base e :
  Py.contains_char dot e = false ->
  last_index dot (base ++ String dot e) = Some (String.length base).
Proof.
  intros He.
  assert (last_index dot e = None) as Hnone.
  { destruct (last_index dot e) eqn:E; [|reflexivity].
    assert (Py.contains_char dot e = true) as Habs
      by (apply contains_char_last_index; congruence).
    congruence. }
  induction base as [|c r IH].
  - simpl. rewrite Hnone. reflexivity.
  - rewrite append_cons. simpl. now rewrite IH.
Qed.

Lemma substring_after base e :
  String.substring (S (String.length base))
                   (String.length (base ++ String dot e) - S (String.length base))
                   (base ++ String dot e) = e.
Proof.
  induction base as [|c r IH].
  - simpl. rewrite Nat.sub_0_r.
    induction e as [|x e' IHe]; simpl; [reflexivity | now rewrite IHe].
  - rewrite append_cons. simpl String.length. simpl String.substring. exact IH.
Qed.

(** X2. Only what follows the last dot of the file name counts: for a name
    [base.e] whose last part [e] has no dot, and a mime type that does not
    decide, the category is read off the lower-case form of [e], whatever
    [base] is (further dots included). *)
Theorem classify_file_last_extension mime base e :
  Py.contains_char dot e = false ->
  classify_by_mime mime = None ->
  classify_file mime (Some (base ++ "." ++ e)) =
    if Py.in_tuple (str_lower e) image_exts then "image"
    else if Py.in_tuple (str_lower e) media_exts then "media"
    else "document".
Proof.
  intros He Hm. unfold Classify.classify_file. rewrite Hm, classify_by_name_spec.
  change (base ++ "." ++ e) with (base ++ String dot e).
  unfold Classify.spec_extension.
  rewrite (last_index_app_dotless base e He), substring_after.
  destruct (Py.in_tuple (str_lower e) image_exts); [reflexivity|].
  destruct (Py.in_tuple (str_lower e) media_exts); reflexivity.
Qed.

End ClassifyMore.

Lemma classify_file_name_case_witness :
  (forall s, Py.is_ascii s = true -> Py.lower s = Py.lower s) /\
  Py.is_ascii "Holiday.JPG" = true /\
  Classify.classify_file Py.lower None (Some (Py.lower "Holiday.JPG"))
    = Classify.classify_file Py.lower None (Some "Holiday.JPG").
Proof.
  split; [reflexivity|]. split; [reflexivity|].
  exact (classify_file_name_case Py.lower None "Holiday.JPG"
           (fun s _ => eq_refl) eq_refl).
Defined.

Lemma classify_file_last_extension_witness :
  Py.contains_char Classify.dot "JPG" = false /\
  Classify.classify_by_mime (Some "application/octet-stream") = None /\
  Classify.classify_file Py.lower (Some "application/octet-stream")
                         (Some ("report.final.v2" ++ "." ++ "JPG"))
    = "image".
Proof.
  split; [reflexivity|]. split; [reflexivity|].
  exact (classify_file_last_extension Py.lower (Some "application/octet-stream")
           "report.final.v2" "JPG" eq_refl eq_refl).
Defined.

(** ** Further properties of the size formatter *)

Section FormatMore.

Import Format Thresholds.

Lemma scaled_succ v k : scaled v (S k) = (scaled v k / inject_Z 1024)%Q.
Proof. reflexivity. Qed.

Lemma scaled_num_den v k :
  Qnum (scaled v k) = Qnum v /\
  Z.pos (Qden (scaled v k)) = Z.pos (Qden v) * 1024 ^ Z.of_nat k.
Proof.
  induction k as [|k [IHn IHd]].
  - simpl. split; [reflexivity | lia].
  - rewrite scaled_succ. destruct (scaled v k) as [a b]. simpl in *.
    split; [lia|].
    rewrite Pos2Z.inj_mul, IHd, Nat2Z.inj_succ, Z.pow_succ_r by lia. lia.
Qed.

Lemma scaled_below n k :
  Qltb (scaled (inject_Z n) k) (inject_Z 1024) = (n <? 1024 ^ Z.of_nat (S k)).
Proof.
  destruct (scaled_num_den (inject_Z n) k) as [Hn Hd]. simpl in Hn, Hd.
  rewrite Nat2Z.inj_succ, Z.pow_succ_r by lia.
  destruct (n <? 1024 * 1024 ^ Z.of_nat k) eqn:E.
  - apply Qltb_lt. unfold Qlt. simpl. rewrite Hn, Hd. lia.
  - apply Qltb_ge. unfold Qlt. simpl. rewrite Hn, Hd. lia.
Qed.

Lemma fmt_1f_scaled n k :
  0 <= n ->
  let t := round_half_even (n * 10) (1024 ^ Z.of_nat k) in
  fmt_1f (scaled (inject_Z n) k)
    = Py.decimal (t / 10) ++ String "."%char (String (Py.digit (t mod 10)) EmptyString).
Proof.
  intros Hn t. unfold fmt_1f.
  destruct (scaled_num_den (inject_Z n) k) as [Hnum Hden]. simpl in Hnum, Hden.
  rewrite Hnum, Hden, Z.abs_eq by lia.
  replace (1 * 1024 ^ Z.of_nat k) with (1024 ^ Z.of_nat k) by lia.
  assert ((n <? 0) = false) as -> by lia.
  reflexivity.
Qed.

(** X3. For a size of at most 53 bits the result is fixed by integer
    arithmetic alone: the unit is B below 1024, KB below 1024^2, MB below
    1024^3, GB below 1024^4 and TB from there on, and the number shown is
    the size times ten, divided by the unit and rounded to the nearest
    integer (ties to even), printed with its last digit after the point. *)
Theorem format_size_by_thresholds n :
  0 < n < 2 ^ 53 ->
  let k := unit_index n in
  let t := round_half_even (n * 10) (1024 ^ Z.of_nat k) in
  format_size (Some n)
    = Ret (Py.decimal (t / 10) ++ "." ++ String (Py.digit (t mod 10)) EmptyString
             ++ " " ++ unit_name k).
Proof.
  intros Hn k t. unfold format_size.
  assert ((n =? 0) = false) as -> by lia.
  rewrite float_of_int_exact by lia.
  destruct (format_loop_first_below units (inject_Z n))
    as (k' & Hk & Hfmt & Hbefore & Hstop).
  assert (forall j, (j < k')%nat -> 1024 ^ Z.of_nat (S j) <= n) as Hge.
  { intros j Hj. specialize (Hbefore j Hj).
    apply Qltb_ge in Hbefore. rewrite scaled_below in Hbefore.
    now apply Z.ltb_ge in Hbefore. }
  assert ((k' < 4)%nat -> n < 1024 ^ Z.of_nat (S k')) as Hlt.
  { intros Hj. specialize (Hstop Hj).
    apply Qltb_lt in Hstop. rewrite scaled_below in Hstop.
    now apply Z.ltb_lt in Hstop. }
  assert (k' = k) as ->.
  { subst k. unfold unit_index. simpl in Hk.
    pose proof (Hge 0%nat) as G0. pose proof (Hge 1%nat) as G1.
    pose proof (Hge 2%nat) as G2. pose proof (Hge 3%nat) as G3.
    change (1024 ^ Z.of_nat 1) with 1024 in *.
    change (1024 ^ Z.of_nat 2) with (1024 ^ 2) in *.
    change (1024 ^ Z.of_nat 3) with (1024 ^ 3) in *.
    change (1024 ^ Z.of_nat 4) with (1024 ^ 4) in *.
    destruct (Z.ltb_spec n 1024); [destruct k' as [|?]; [reflexivity | lia]|].
    destruct (Z.ltb_spec n (1024 ^ 2));
      [destruct k' as [|[|?]]; [lia | reflexivity | lia]|].
    destruct (Z.ltb_spec n (1024 ^ 3));
      [destruct k' as [|[|[|?]]]; [lia | lia | reflexivity | lia]|].
    destruct (Z.ltb_spec n (1024 ^ 4));
      [destruct k' as [|[|[|[|?]]]]; [lia | lia | lia | reflexivity | lia]|].
    destruct k' as [|[|[|[|[|?]]]]]; [lia | lia | lia | lia | reflexivity | lia]. }
  rewrite Hfmt, fmt_1f_scaled by lia.
  f_equal. rewrite string_app_assoc. reflexivity.
Qed.

Lemma format_size_by_thresholds_witness :
  0 < 5000000 < 2 ^ 53 /\ format_size (Some 5000000) = Ret "4.8 MB".
Proof.
  assert (H : 0 < 5000000 < 2 ^ 53) by (split; reflexivity).
  split; [exact H|].
  exact (format_size_by_thresholds 5000000 H).
Defined.

(** X4. A size below 1024 is shown as the byte count itself, followed by
    ".0 B". *)
Theorem format_size_bytes_exact n :
  0 < n < 1024 ->
  format_size (Some n) = Ret (Py.decimal n ++ ".0 B").
Proof.
  intros Hn.
  assert (0 < n < 2 ^ 53) as H53.
  { split; [lia|]. eapply Z.lt_trans; [apply Hn | reflexivity]. }
  pose proof (format_size_by_thresholds n H53) as H. cbv zeta in H. rewrite H.
  assert (unit_index n = 0%nat) as ->.
  { unfold unit_index. now assert ((n <? 1024) = true) as -> by lia. }
  assert (round_half_even (n * 10) (1024 ^ Z.of_nat 0) = n * 10) as ->.
  { unfold round_half_even. change (1024 ^ Z.of_nat 0) with 1.
    rewrite Z.div_1_r, Z.mod_1_r. reflexivity. }
  rewrite Z.div_mul, Z_mod_mult by lia.
  reflexivity.
Qed.

Lemma format_size_bytes_exact_witness :
  0 < 1023 < 1024 /\ format_size (Some 1023) = Ret "1023.0 B".
Proof.
  assert (H : 0 < 1023 < 1024) by (split; reflexivity).
  split; [exact H|]. exact (format_size_bytes_exact 1023 H).
Defined.

End FormatMore.
(** ** Further properties of the ingest handler *)

Section IngestMore.

Import Ingest.

Variable str_lower : string -> string.

#[local] Abbreviation handle_file := (Ingest.handle_file str_lower).

Lemma place_length p (doc : Firestore.snapshot) l :
  length (Firestore.place p doc l) = S (length l).
Proof.
  unfold Firestore.place. rewrite List.length_app. simpl.
  rewrite <- (List.firstn_skipn p l) at 3. rewrite List.length_app. lia.
Qed.

Lemma place_in p (doc : Firestore.snapshot) l : In doc (Firestore.place p doc l).
Proof. unfold Firestore.place. apply List.in_or_app. right. now left. Qed.

Lemma place_keeps p (doc : Firestore.snapshot) l d :
  In d l -> In d (Firestore.place p doc l).
Proof.
  intros H. unfold Firestore.place.
  rewrite <- (List.firstn_skipn p l) in H.
  apply List.in_app_or in H. apply List.in_or_app.
  destruct H as [H|H]; [now left | right; now right].
Qed.

#[local] Ltac stored_field :=
  rewrite lookup_fmap;
  repeat (rewrite lookup_insert_ne by discriminate);
  rewrite lookup_insert_eq.

Lemma handle_file_added_document a m db fid :
  f_file_id (extract m) = Some fid ->
  fid <> "" ->
  Firestore.fault db = None ->
  exists doc,
    Firestore.docs (fst (handle_file a m db))
      = Firestore.place (Firestore.position a) doc (Firestore.docs db) /\
    length (Firestore.docs (fst (handle_file a m db)))
      = S (length (Firestore.docs db)) /\
    Firestore.doc_id doc = Firestore.new_id a /\
    Firestore.doc_fields doc !! "file_id" = Some (VStr fid) /\
    Firestore.doc_fields doc !! "file_name"
      = Some (Val.of_opt_str (f_file_name (extract m))) /\
    Firestore.doc_fields doc !! "file_size"
      = Some (Val.of_opt_int (f_file_size (extract m))) /\
    Firestore.doc_fields doc !! "mime_type"
      = Some (Val.of_opt_str (f_mime_type (extract m))) /\
    Firestore.doc_fields doc !! "category"
      = Some (VStr (Classify.classify_file str_lower (f_mime_type (extract m))
                                           (f_file_name (extract m)))) /\
    Firestore.doc_fields doc !! "chat_id" = Some (VStr (Py.str_int (chat m))) /\
    Firestore.doc_fields doc !! "timestamp" = Some (VTimestamp (Firestore.now a)).
Proof.
  intros Hfid Hne Hfault.
  set (data := doc_data (extract m)
                 (Classify.classify_file str_lower (f_mime_type (extract m))
                                         (f_file_name (extract m)))
                 (Py.str_int (chat m))).
  exists {| Firestore.doc_id := Firestore.new_id a;
            Firestore.doc_fields := Firestore.resolve (Firestore.now a) <$> data |}.
  assert (Firestore.docs (fst (handle_file a m db))
          = Firestore.place (Firestore.position a)
              {| Firestore.doc_id := Firestore.new_id a;
                 Firestore.doc_fields := Firestore.resolve (Firestore.now a) <$> data |}
              (Firestore.docs db)) as Hdocs.
  { unfold Ingest.handle_file. rewrite Hfid, (truthy_nonempty _ Hne). cbn [negb].
    unfold Firestore.add. rewrite Hfault. fold data.
    destruct (Format.format_size (f_file_size (extract m))); reflexivity. }
  split; [exact Hdocs|]. split; [rewrite Hdocs; apply place_length|].
  split; [reflexivity|]. cbn [Firestore.doc_fields].
  unfold data, doc_data. rewrite Hfid.
  split; [stored_field; reflexivity|].
  split; [stored_field; now destruct (f_file_name (extract m))|].
  split; [stored_field; now destruct (f_file_size (extract m))|].
  split; [stored_field; now destruct (f_mime_type (extract m))|].
  split; [stored_field; reflexivity|].
  split; stored_field; reflexivity.
Qed.

(** X5. When the payload has a non-empty file id and the store accepts the
    write, the handler adds exactly one document: it has the identifier
    the store assigned, the file id, name, size and mime type extracted
    from the message, the category computed by [classify_file] from that
    mime type and name, the chat id in decimal, and the server time as its
    timestamp; the documents already stored all remain. *)
Theorem handle_file_stores_record a m db fid :
  f_file_id (extract m) = Some fid ->
  fid <> "" ->
  Firestore.fault db = None ->
  exists doc,
    Firestore.docs (fst (handle_file a m db))
      = Firestore.place (Firestore.position a) doc (Firestore.docs db) /\
    length (Firestore.docs (fst (handle_file a m db)))
      = S (length (Firestore.docs db)) /\
    Firestore.doc_id doc = Firestore.new_id a /\
    Firestore.doc_fields doc !! "file_id" = Some (VStr fid) /\
    Firestore.doc_fields doc !! "file_name"
      = Some (Val.of_opt_str (f_file_name (extract m))) /\
    Firestore.doc_fields doc !! "file_size"
      = Some (Val.of_opt_int (f_file_size (extract m))) /\
    Firestore.doc_fields doc !! "mime_type"
      = Some (Val.of_opt_str (f_mime_type (extract m))) /\
    Firestore.doc_fields doc !! "category"
      = Some (VStr (Classify.classify_file str_lower (f_mime_type (extract m))
                                           (f_file_name (extract m)))) /\
    Firestore.doc_fields doc !! "chat_id" = Some (VStr (Py.str_int (chat m))) /\
    Firestore.doc_fields doc !! "timestamp" = Some (VTimestamp (Firestore.now a)).
Proof. exact (handle_file_added_document a m db fid). Qed.

(** X6. The handler never removes or changes a stored document, and adds
    at most one; while the store raises an error the collection stays as
    it is, and for a payload with a file id the chat shows "Failed to
    save" followed by the text of the error. *)
Theorem handle_file_keeps_documents a m db :
  (forall d, In d (Firestore.docs db) ->
             In d (Firestore.docs (fst (handle_file a m db)))) /\
  (length (Firestore.docs db) <= length (Firestore.docs (fst (handle_file a m db)))
     <= S (length (Firestore.docs db)))%nat /\
  (forall e, Firestore.fault db = Some e ->
     fst (handle_file a m db) = db /\
     (Py.truthy (f_file_id (extract m)) = true ->
      snd (handle_file a m db) = [Answer saving_text; EditText (failed_text e)])).
Proof.
  unfold Ingest.handle_file.
  destruct (Py.truthy (f_file_id (extract m))); cbn [negb].
  2:{ split; [tauto|]. split; [simpl; lia|]. intros e _. split; [reflexivity | discriminate]. }
  unfold Firestore.add. destruct (Firestore.fault db) as [e|].
  - split; [tauto|]. split; [simpl; lia|].
    intros e' He'. injection He' as <-. split; reflexivity.
  - destruct (Format.format_size (f_file_size (extract m))); cbn [fst Firestore.docs];
      (split; [intros d; apply place_keeps|]);
      (split; [rewrite place_length; lia | discriminate]).
Qed.

(** X7. A message that carries a document is recorded from the document,
    whatever else it carries.  So an animation without name and mime type
    is stored as "animation.gif", image/gif, category image when it comes
    alone, and as "document", no mime type, category document when it comes
    together with its document. *)
Theorem document_takes_precedence m d :
  document m = Some d ->
  extract m = mk (file_id d) (Py.or_default (file_name d) "document")
                 (file_size d) (mime_type d) /\
  (file_name d = None -> mime_type d = None ->
   Classify.classify_file str_lower (f_mime_type (extract m)) (f_file_name (extract m))
     = "document") /\
  (forall an mid c,
     file_name an = None -> mime_type an = None ->
     let alone := extract (message_of ANIMATION [] an mid c) in
     f_file_name alone = Some "animation.gif" /\
     f_mime_type alone = Some "image/gif" /\
     Classify.classify_file str_lower (f_mime_type alone) (f_file_name alone) = "image").
Proof.
  intros H.
  assert (extract m = mk (file_id d) (Py.or_default (file_name d) "document")
                         (file_size d) (mime_type d)) as Hex.
  { unfold extract. now rewrite H. }
  split; [exact Hex|]. split.
  - intros Hn Hm. rewrite Hex, Hn, Hm. reflexivity.
  - intros an mid c Hn Hm. cbv zeta. unfold extract. cbn [message_of document photo
      last_photo video audio voice video_note animation].
    rewrite Hn, Hm. repeat split; reflexivity.
Qed.

End IngestMore.

Section IngestExamples.

Import Ingest.

Lemma document_takes_precedence_witness :
  let d := {| file_id := "CgACAgQAAxkB"; file_unique_id := "AgADdoc";
              file_name := None; mime_type := None; file_size := Some 90210 |} in
  let an := {| file_id := "CgACAgQAAxkB"; file_unique_id := "AgADanim";
               file_name := None; mime_type := None; file_size := Some 90210 |} in
  let m := {| message_id := 8; chat := 77; document := Some d; photo := None;
              video := None; audio := None; voice := None; video_note := None;
              animation := Some an |} in
  document m = Some d /\ file_name d = None /\ mime_type d = None /\
  Classify.classify_file Py.lower (f_mime_type (extract m)) (f_file_name (extract m))
    = "document".
Proof.
  cbv zeta.
  match goal with
  | |- document ?m = Some ?d /\ _ =>
      pose proof (document_takes_precedence Py.lower m d eq_refl) as (_ & H & _)
  end.
  split; [reflexivity|]. split; [reflexivity|]. split; [reflexivity|].
  exact (H eq_refl eq_refl).
Defined.

Lemma handle_file_stores_record_witness :
  let d := {| file_id := "BQACAgIAAxkBAAIB"; file_unique_id := "AgADBQAD";
              file_name := Some "notes.PDF"; mime_type := None;
              file_size := Some 2048 |} in
  let m := message_of DOCUMENT [] d 17 4242 in
  let a := {| Firestore.new_id := "x1"; Firestore.now := 1700000000000000;
              Firestore.position := 0 |} in
  f_file_id (extract m) = Some "BQACAgIAAxkBAAIB" /\
  "BQACAgIAAxkBAAIB" <> "" /\
  Firestore.fault empty_db = None /\
  length (Firestore.docs (fst (Ingest.handle_file Py.lower a m empty_db))) = 1%nat.
Proof.
  cbv zeta.
  assert (H2 : "BQACAgIAAxkBAAIB" <> "") by discriminate.
  split; [reflexivity|]. split; [exact H2|]. split; [reflexivity|].
  destruct (handle_file_stores_record Py.lower
              {| Firestore.new_id := "x1"; Firestore.now := 1700000000000000;
                 Firestore.position := 0 |}
              (message_of DOCUMENT []
                 {| file_id := "BQACAgIAAxkBAAIB"; file_unique_id := "AgADBQAD";
                    file_name := Some "notes.PDF"; mime_type := None;
                    file_size := Some 2048 |} 17 4242)
              empty_db "BQACAgIAAxkBAAIB" eq_refl H2 eq_refl)
    as (doc & _ & Hlen & _).
  exact Hlen.
Defined.

Lemma handle_file_keeps_documents_witness :
  let db := {| Firestore.docs := []; Firestore.fault := Some "503 unavailable" |} in
  let d := {| file_id := "BQACAgIAAxkBAAIB"; file_unique_id := "AgADBQAD";
              file_name := None; mime_type := None; file_size := None |} in
  let a := {| Firestore.new_id := "x1"; Firestore.now := 1; Firestore.position := 0 |} in
  Firestore.fault db = Some "503 unavailable" /\
  fst (Ingest.handle_file Py.lower a (message_of DOCUMENT [] d 1 2) db) = db.
Proof.
  cbv zeta. split; [reflexivity|].
  match goal with
  | |- fst (Ingest.handle_file _ ?a ?m ?db) = _ =>
      exact (proj1 (proj2 (proj2 (handle_file_keeps_documents Py.lower a m db))
                      "503 unavailable" eq_refl))
  end.
Defined.

End IngestExamples.
(** ** Further properties of the relay path *)

Section SendMore.

Import Api.

Variable int_of_str : string -> pyres Z.
Variable dispatch : method_kind -> Z -> value -> pyres unit.

#[local] Abbreviation try_methods := (Api.try_methods int_of_str dispatch).
#[local] Abbreviation handle_api_send := (Api.handle_api_send int_of_str dispatch).
#[local] Abbreviation accepts := (Api.accepts dispatch).

(** X8. A chat id that [int()] rejects reaches no dispatch method: each of
    the four attempts fails at the conversion, nothing is sent, and the
    answer is the error "Could not send file" with status 500. *)
Theorem relay_unconvertible_chat_id
        (method : string) (data file_id chat_id : value) (e : string) :
  method <> "OPTIONS" ->
  Val.get data "file_id" VNone = Ret file_id ->
  Val.get data "chat_id" VNone = Ret chat_id ->
  Val.truthy file_id = true ->
  Val.truthy chat_id = true ->
  py_int int_of_str chat_id = Raise e ->
  handle_api_send method (Ret data) = (JsonError 500 "Could not send file", []).
Proof.
  intros Hm Hf Hc Htf Htc He. unfold Api.handle_api_send.
  rewrite (not_options _ Hm), Hf, Hc, Htf, Htc. cbn [negb orb].
  now rewrite (try_methods_no_int int_of_str dispatch file_id chat_id e He).
Qed.

(** X9. Nothing is dispatched unless the request is not a pre-flight, its
    body parses to an object, and both [file_id] and [chat_id] are present
    and truthy: a missing field, a null, an empty string or the number 0
    gets status 400, a body that does not parse or is not an object gets
    status 500 with the error text, and in none of these cases a method is
    invoked. *)
Theorem relay_request_validation (method : string) (body : pyres value) :
  (method = "OPTIONS" -> handle_api_send method body = (CorsOnly, [])) /\
  (forall e, method <> "OPTIONS" -> body = Raise e ->
     handle_api_send method body = (JsonError 500 e, [])) /\
  (forall v, method <> "OPTIONS" -> body = Ret v -> (forall m, v <> VMap m) ->
     handle_api_send method body
       = (JsonError 500 ("'" ++ Val.type_name v ++ "' object has no attribute 'get'"), [])) /\
  (forall entries, method <> "OPTIONS" -> body = Ret (VMap entries) ->
     let field := fun k => match Val.assoc k entries with Some x => x | None => VNone end in
     (Val.truthy (field "file_id") && Val.truthy (field "chat_id"))%bool = false ->
     handle_api_send method body = (JsonError 400 "file_id and chat_id required", [])) /\
  (snd (handle_api_send method body) <> [] ->
     exists entries file_id chat_id,
       body = Ret (VMap entries) /\
       Val.assoc "file_id" entries = Some file_id /\ Val.truthy file_id = true /\
       Val.assoc "chat_id" entries = Some chat_id /\ Val.truthy chat_id = true).
Proof.
  split; [intros ->; reflexivity|].
  split; [intros e Hm ->; unfold Api.handle_api_send; now rewrite (not_options _ Hm)|].
  split.
  { intros v Hm -> Hv. unfold Api.handle_api_send. rewrite (not_options _ Hm).
    destruct v; try reflexivity. now contradiction (Hv entries). }
  split.
  { intros entries Hm -> field Hfalsy. unfold Api.handle_api_send.
    rewrite (not_options _ Hm). cbn [Val.get]. fold (field "file_id") (field "chat_id").
    apply andb_false_iff in Hfalsy.
    destruct Hfalsy as [-> | ->]; cbn [negb orb]; [reflexivity|].
    now rewrite orb_true_r. }
  unfold Api.handle_api_send.
  destruct (method =? "OPTIONS")%string; [intros H; now contradiction H|].
  destruct body as [v|e]; [|intros H; now contradiction H].
  destruct v; try (intros H; now contradiction H). cbn [Val.get].
  destruct (Val.assoc "file_id" entries) as [f|] eqn:Ef;
    [|intros H; now contradiction H].
  destruct (Val.truthy f) eqn:Tf; [|intros H; now contradiction H].
  destruct (Val.assoc "chat_id" entries) as [c|] eqn:Ec;
    [|intros H; now contradiction H].
  destruct (Val.truthy c) eqn:Tc; [|intros H; now contradiction H].
  intros _. now exists entries, f, c.
Qed.

Lemma try_methods_bound file_id chat_id ms :
  exists tried rest,
    ms = (tried ++ rest)%list /\
    List.map c_method (snd (try_methods ms file_id chat_id)) = tried /\
    Forall (fun cl => c_file cl = file_id /\
                      py_int int_of_str chat_id = Ret (c_chat_id cl))
           (snd (try_methods ms file_id chat_id)).
Proof.
  destruct (py_int int_of_str chat_id) as [c|e] eqn:Hc.
  - destruct (try_methods_prefix int_of_str dispatch file_id chat_id c Hc ms)
      as (tried & rest & Hms & Hcalls & _).
    exists tried, rest. split; [exact Hms|]. rewrite Hcalls. split.
    + rewrite List.map_map. apply List.map_id.
    + apply List.Forall_forall. intros cl Hin.
      apply List.in_map_iff in Hin. destruct Hin as (m & <- & _). now split.
  - exists [], ms. rewrite (try_methods_no_int int_of_str dispatch file_id chat_id e Hc).
    split; [reflexivity|]. split; [reflexivity | constructor].
Qed.

(** X10. Whatever the request, the handler invokes at most four methods, a
    prefix of the list document, photo, video, audio; every invocation
    carries the [file_id] of the body unchanged and the integer value of
    its [chat_id]; and the status of the answer is 200, 400 or 500. *)
Theorem relay_invocations_bounded (method : string) (body : pyres value) :
  let calls := snd (handle_api_send method body) in
  let resp := fst (handle_api_send method body) in
  (length calls <= 4)%nat /\
  (exists rest, methods = (List.map c_method calls ++ rest)%list) /\
  (forall cl, In cl calls ->
     exists data chat_id,
       body = Ret data /\
       Val.get data "file_id" VNone = Ret (c_file cl) /\
       Val.get data "chat_id" VNone = Ret chat_id /\
       py_int int_of_str chat_id = Ret (c_chat_id cl)) /\
  In (status_of resp) [200; 400; 500].
Proof.
  cbv zeta. unfold Api.handle_api_send.
  assert (forall r, In (status_of r) [200; 400; 500] ->
            (0 <= 4)%nat /\ (exists rest, methods = (List.map c_method [] ++ rest)%list) /\
            (forall cl, In cl (@nil call) -> exists data chat_id,
                body = Ret data /\
                Val.get data "file_id" VNone = Ret (c_file cl) /\
                Val.get data "chat_id" VNone = Ret chat_id /\
                py_int int_of_str chat_id = Ret (c_chat_id cl)) /\
            In (status_of r) [200; 400; 500]) as Hnone.
  { intros r Hr. split; [lia|]. split; [now exists methods|].
    split; [intros cl []| exact Hr]. }
  destruct (method =? "OPTIONS")%string; [apply Hnone; simpl; tauto|].
  destruct body as [data|e]; [|apply Hnone; simpl; tauto].
  destruct (Val.get data "file_id" VNone) as [file_id|e] eqn:Hf;
    [|apply Hnone; simpl; tauto].
  destruct (Val.get data "chat_id" VNone) as [chat_id|e] eqn:Hc;
    [|apply Hnone; simpl; tauto].
  destruct (negb (Val.truthy file_id) || negb (Val.truthy chat_id))%bool;
    [apply Hnone; simpl; tauto|].
  destruct (try_methods_bound file_id chat_id methods)
    as (tried & rest & Hms & Hmap & Hall).
  destruct (try_methods methods file_id chat_id) as [sent calls].
  cbn [snd] in Hmap, Hall.
  assert (length calls <= 4)%nat as Hlen.
  { rewrite <- (List.length_map c_method), Hmap.
    assert (length methods = 4%nat) as H4 by reflexivity.
    rewrite Hms, List.length_app in H4. lia. }
  assert (forall cl, In cl calls -> exists data0 chat_id0,
             Ret data = Ret data0 /\
             Val.get data0 "file_id" VNone = Ret (c_file cl) /\
             Val.get data0 "chat_id" VNone = Ret chat_id0 /\
             py_int int_of_str chat_id0 = Ret (c_chat_id cl)) as Hcl.
  { intros cl Hin. rewrite List.Forall_forall in Hall.
    destruct (Hall cl Hin) as [Hfile Hint].
    exists data, chat_id. rewrite Hfile. now repeat split. }
  destruct sent; cbn [fst snd];
    (split; [exact Hlen|]); (split; [exists rest; now rewrite Hmap|]);
    (split; [exact Hcl|]); simpl; tauto.
Qed.

End SendMore.

Lemma relay_unconvertible_chat_id_witness :
  let int_of_str := fun _ : string => @Raise Z "invalid literal for int() with base 10" in
  let dispatch := fun (_ : Api.method_kind) (_ : Z) (_ : value) => Ret tt in
  let data := VMap [("file_id", VStr "AgACAgIAAxkBAAIC"); ("chat_id", VStr "@channel")] in
  "POST" <> "OPTIONS" /\
  Api.py_int int_of_str (VStr "@channel") = Raise "invalid literal for int() with base 10" /\
  Api.handle_api_send int_of_str dispatch "POST" (Ret data)
    = (Api.JsonError 500 "Could not send file", []).
Proof.
  cbv zeta.
  assert (H1 : "POST" <> "OPTIONS") by discriminate.
  split; [exact H1|]. split; [reflexivity|].
  exact (relay_unconvertible_chat_id _ _ "POST"
           (VMap [("file_id", VStr "AgACAgIAAxkBAAIC"); ("chat_id", VStr "@channel")])
           (VStr "AgACAgIAAxkBAAIC") (VStr "@channel")
           "invalid literal for int() with base 10"
           H1 eq_refl eq_refl eq_refl eq_refl eq_refl).
Defined.

Lemma relay_request_validation_witness :
  let int_of_str := fun _ : string => @Raise Z "invalid literal" in
  let dispatch := fun (_ : Api.method_kind) (_ : Z) (_ : value) => Ret tt in
  let body := Ret (VMap [("file_id", VStr "AgACAgIAAxkBAAIC"); ("chat_id", VInt 0)]) in
  "POST" <> "OPTIONS" /\
  Api.handle_api_send int_of_str dispatch "POST" body
    = (Api.JsonError 400 "file_id and chat_id required", []).
Proof.
  cbv zeta.
  assert (H1 : "POST" <> "OPTIONS") by discriminate.
  split; [exact H1|].
  match goal with
  | |- Api.handle_api_send ?i ?d _ ?b = _ =>
      exact (proj1 (proj2 (proj2 (proj2 (relay_request_validation i d "POST" b))))
               _ H1 eq_refl eq_refl)
  end.
Defined.
(** ** Web-app data *)

Section StripFacts.

Import PyStr.















(** The white space that [strip] removes is that of Unicode: a no-break
    space (bytes 194, 160) and an ideographic space (bytes 227, 128, 128)
    around the marker go as a blank does. *)
Lemma strip_unicode_space :
  let nbsp := String (ascii_of_nat 194) (String (ascii_of_nat 160) "") in
  let wide := String (ascii_of_nat 227)
                (String (ascii_of_nat 128) (String (ascii_of_nat 128) "")) in
  strip (nbsp ++ "__UPLOAD__" ++ wide ++ " ") = "__UPLOAD__" /\
  strip (wide ++ nbsp) = "".
Proof. split; vm_compute; reflexivity. Qed.

End StripFacts.

Section WebappFacts.

Import Api.

Variable dispatch : method_kind -> Z -> value -> pyres unit.

#[local] Abbreviation handle_webapp_data := (Webapp.handle_webapp_data dispatch).


(** The loop of the web-app path is the loop of the HTTP path at an integer
    chat id. *)
Lemma webapp_try_methods_agree int_of_str ms (file_id : string) (chat : Z) :
  Webapp.try_methods dispatch ms file_id chat
    = Api.try_methods int_of_str dispatch ms (VStr file_id) (VInt chat).
Proof.
  induction ms as [|m ms IH]; simpl; [reflexivity|].
  destruct (dispatch m chat (VStr file_id)); [reflexivity|].
  now rewrite IH.
Qed.

(** X12. Any other data is taken as a file id, with the white space around
    it removed, and relayed to the chat the data came from: the bot invokes
    a prefix of document, photo, video, audio, every invoked method but the
    last having failed; it says nothing when a method accepts, and "Could
    not send the file. It may have expired." exactly when all four fail. *)
Theorem webapp_relay_first_success (raw : string) (chat : Z) :
  let data := PyStr.strip raw in
  data <> "" -> data <> "__UPLOAD__" ->
  let answers := fst (handle_webapp_data raw chat) in
  let calls := snd (handle_webapp_data raw chat) in
  (exists tried rest,
      methods = (tried ++ rest)%list /\
      calls = List.map (invocation (VStr data) chat) tried /\
      Forall (fun m => Api.accepts dispatch (VStr data) chat m = false)
             (removelast tried) /\
      (answers = [] ->
       Api.accepts dispatch (VStr data) chat (List.last tried send_document) = true) /\
      (answers <> [] -> rest = [])) /\
  (answers = [] <->
   Exists (fun m => Api.accepts dispatch (VStr data) chat m = true) methods) /\
  (answers = [Ingest.Answer Webapp.expired_text] <->
   Forall (fun m => Api.accepts dispatch (VStr data) chat m = false) methods).
Proof.
  intros data Hne Hup answers calls. subst answers calls.
  unfold Webapp.handle_webapp_data. fold data.
  rewrite (truthy_nonempty _ Hne). cbn [negb].
  destruct (String.eqb_spec data "__UPLOAD__") as [|_]; [contradiction|].
  set (int_of_str := fun _ : string => @Raise Z "unused").
  rewrite (webapp_try_methods_agree int_of_str).
  destruct (try_methods_prefix int_of_str dispatch (VStr data) (VInt chat) chat
              eq_refl methods) as (tried & rest & Hms & Hcalls & Hsent).
  set (tm := Api.try_methods int_of_str dispatch methods (VStr data) (VInt chat)) in *.
  destruct tm as [sent cs]. cbn [fst snd] in Hcalls, Hsent.
  destruct sent; cbn [negb fst snd].
  - destruct Hsent as (failed & m & -> & Hfailed & Hm).
    assert (Hex : Exists (fun x => Api.accepts dispatch (VStr data) chat x = true) methods).
    { rewrite Hms. apply Exists_app. left. apply Exists_app. right. now constructor. }
    split; [|split].
    + exists (failed ++ [m])%list, rest. split; [exact Hms|]. split; [exact Hcalls|].
      rewrite List.removelast_last, List.last_last.
      split; [exact Hfailed|]. split; [intros _; exact Hm | intros H; now contradiction H].
    + split; [intros _; exact Hex | reflexivity].
    + split; [discriminate|]. intros Hall.
      apply Exists_exists in Hex. destruct Hex as (x & Hin & Hx).
      rewrite Forall_forall in Hall. specialize (Hall x Hin). congruence.
  - destruct Hsent as [-> Hall]. rewrite List.app_nil_r in Hms.
    split; [|split].
    + exists tried, []. split; [now rewrite List.app_nil_r|]. split; [exact Hcalls|].
      split; [|split; [discriminate | reflexivity]].
      rewrite List.Forall_forall in *. intros x Hx.
      apply Hall. now apply in_removelast_in.
    + split; [discriminate|]. intros Hex.
      apply Exists_exists in Hex. destruct Hex as (x & Hin & Hx).
      rewrite Hms in Hin. rewrite Forall_forall in Hall.
      specialize (Hall x Hin). congruence.
    + split; [intros _; now rewrite Hms | reflexivity].
Qed.

(** X13. The two relay paths agree: for a file id and a chat id other than
    0, the web-app path invokes the same methods with the same arguments as
    the HTTP path does for the body [{file_id, chat_id}], and it stays
    silent exactly when the HTTP path answers [{"ok": true}]. *)
Theorem webapp_relay_agrees_with_api int_of_str (method file_id : string) (chat : Z) :
  method <> "OPTIONS" ->
  PyStr.strip file_id = file_id -> file_id <> "" -> file_id <> "__UPLOAD__" ->
  chat <> 0 ->
  let body := Ret (VMap [("file_id", VStr file_id); ("chat_id", VInt chat)]) in
  snd (handle_webapp_data file_id chat)
    = snd (Api.handle_api_send int_of_str dispatch method body) /\
  (fst (handle_webapp_data file_id chat) = [] <->
   fst (Api.handle_api_send int_of_str dispatch method body) = JsonOk) /\
  (fst (handle_webapp_data file_id chat) = [Ingest.Answer Webapp.expired_text] <->
   fst (Api.handle_api_send int_of_str dispatch method body)
     = JsonError 500 "Could not send file").
Proof.
  intros Hm Hstrip Hne Hup Hchat body. subst body.
  unfold Webapp.handle_webapp_data, Api.handle_api_send.
  rewrite Hstrip, (truthy_nonempty _ Hne), (not_options _ Hm). cbn [negb].
  destruct (String.eqb_spec file_id "__UPLOAD__") as [|_]; [contradiction|].
  cbn [Val.get Val.assoc String.eqb Ascii.eqb Bool.eqb Val.truthy].
  destruct (String.eqb_spec file_id "") as [|_]; [contradiction|].
  assert ((chat =? 0) = false) as -> by lia. cbn [negb orb].
  rewrite (webapp_try_methods_agree int_of_str).
  destruct (Api.try_methods int_of_str dispatch methods (VStr file_id) (VInt chat))
    as [[|] cs]; cbn [negb fst snd];
    (split; [reflexivity|]); split; split; intros H; try reflexivity; discriminate.
Qed.

End WebappFacts.


Lemma webapp_relay_first_success_witness :
  let dispatch := fun (m : Api.method_kind) (_ : Z) (_ : value) =>
                    match m with
                    | Api.send_video => Ret tt
                    | _ => Raise "Bad Request: wrong file type"
                    end in
  let raw := String (ascii_of_nat 194) (String (ascii_of_nat 160) "BAACAgIAAxkB ") in
  PyStr.strip raw = "BAACAgIAAxkB" /\
  PyStr.strip raw <> "" /\
  PyStr.strip raw <> "__UPLOAD__" /\
  (fst (Webapp.handle_webapp_data dispatch raw 99) = [] <->
   Exists (fun m => Api.accepts dispatch (VStr (PyStr.strip raw)) 99 m = true)
          Api.methods).
Proof.
  cbv zeta.
  match goal with |- PyStr.strip ?r = _ /\ _ => set (raw := r) end.
  assert (H0 : PyStr.strip raw = "BAACAgIAAxkB") by (vm_compute; reflexivity).
  assert (H1 : PyStr.strip raw <> "") by (rewrite H0; discriminate).
  assert (H2 : PyStr.strip raw <> "__UPLOAD__") by (rewrite H0; discriminate).
  split; [exact H0|]. split; [exact H1|]. split; [exact H2|].
  exact (proj1 (proj2 (webapp_relay_first_success _ raw 99 H1 H2))).
Defined.

Lemma webapp_relay_agrees_with_api_witness :
  let dispatch := fun (m : Api.method_kind) (_ : Z) (_ : value) =>
                    match m with
                    | Api.send_audio => Ret tt
                    | _ => Raise "Bad Request: wrong file type"
                    end in
  let int_of_str := fun _ : string => @Raise Z "invalid literal" in
  "POST" <> "OPTIONS" /\ PyStr.strip "CQACAgIAAxkB" = "CQACAgIAAxkB" /\
  "CQACAgIAAxkB" <> "" /\ "CQACAgIAAxkB" <> "__UPLOAD__" /\ 99 <> 0 /\
  snd (Webapp.handle_webapp_data dispatch "CQACAgIAAxkB" 99)
    = snd (Api.handle_api_send int_of_str dispatch "POST"
             (Ret (VMap [("file_id", VStr "CQACAgIAAxkB"); ("chat_id", VInt 99)]))).
Proof.
  cbv zeta.
  assert (H1 : "POST" <> "OPTIONS") by discriminate.
  assert (H3 : "CQACAgIAAxkB" <> "") by discriminate.
  assert (H4 : "CQACAgIAAxkB" <> "__UPLOAD__") by discriminate.
  assert (H5 : 99 <> 0) by discriminate.
  split; [exact H1|]. split; [reflexivity|]. split; [exact H3|].
  split; [exact H4|]. split; [exact H5|].
  exact (proj1 (webapp_relay_agrees_with_api _ _ "POST" "CQACAgIAAxkB" 99
                  H1 eq_refl H3 H4 H5)).
Defined.
(** ** Further properties of the download path *)

Section TextFacts.

Lemma lower_app a b : Py.lower (a ++ b) = Py.lower a ++ Py.lower b.
Proof.
  induction a as [|c r IH]; [reflexivity|].
  rewrite append_cons. simpl. now rewrite IH.
Qed.

Lemma prefix_app sub b : String.prefix sub (sub ++ b) = true.
Proof.
  induction sub as [|c r IH]; [now destruct b|].
  rewrite append_cons. simpl.
  destruct (ascii_dec c c); [exact IH | contradiction].
Qed.

Lemma contains_prefix sub s : String.prefix sub s = true -> Py.contains sub s = true.
Proof. intros H. destruct s; simpl in *; now rewrite H. Qed.

Lemma contains_here sub b : Py.contains sub (sub ++ b) = true.
Proof. apply contains_prefix, prefix_app. Qed.

Lemma contains_app sub a b : Py.contains sub (a ++ sub ++ b) = true.
Proof.
  induction a as [|c r IH]; [exact (contains_here sub b)|].
  rewrite append_cons. simpl. rewrite IH. apply orb_true_r.
Qed.

End TextFacts.

Section DownloadMore.

Import Api.

Variable BOT_TOKEN : string.
Variable get_file : string -> pyres (option string).
Variable http_get : string -> pyres upstream.

#[local] Abbreviation handle_api_download :=
  (Api.handle_api_download BOT_TOKEN get_file http_get).
#[local] Abbreviation file_url := (Api.file_url BOT_TOKEN).

Lemma on_download_error_status e :
  In (status_of (on_download_error e)) [413; 500].
Proof. unfold on_download_error. destruct (Py.contains _ _); simpl; tauto. Qed.

Lemma on_download_error_not_file e content cd ct :
  on_download_error e <> FileBody content cd ct.
Proof. unfold on_download_error. destruct (Py.contains _ _); discriminate. Qed.

(** X14. The download answers with the file exactly when the request is
    not a pre-flight, has a non-empty [file_id], the origin resolves it,
    the upstream answers 200 and its body can be read.  The answer then
    carries that body unchanged, the header made of the [name] parameter as
    given ("file" when there is none), the content type of the upstream or
    application/octet-stream when it has none, and one URL was fetched. *)
Theorem download_success_iff
        (method : string) (q_file_id q_name : option string)
        (content cd ct : string) (urls : list string) :
  handle_api_download method q_file_id q_name = (FileBody content cd ct, urls) <->
  method <> "OPTIONS" /\
  exists file_id path resp,
    q_file_id = Some file_id /\ file_id <> "" /\
    get_file file_id = Ret path /\
    http_get (file_url path) = Ret resp /\
    up_status resp = 200 /\
    up_read resp = Ret content /\
    cd = content_disposition (match q_name with Some n => n | None => "file" end) /\
    ct = Py.or_default (up_content_type resp) "application/octet-stream" /\
    urls = [file_url path].
Proof.
  split.
  - unfold Api.handle_api_download.
    destruct (String.eqb_spec method "OPTIONS") as [|Hm]; [discriminate|].
    destruct q_file_id as [file_id|]; [|discriminate].
    unfold Py.truthy. destruct (String.eqb_spec file_id "") as [|Hne];
      cbn [negb]; [discriminate|].
    destruct (get_file file_id) as [path|e] eqn:Hg.
    2:{ intros H. injection H as H _. now apply on_download_error_not_file in H. }
    destruct (http_get (file_url path)) as [resp|e] eqn:Hget.
    2:{ intros H. injection H as H _. now apply on_download_error_not_file in H. }
    destruct (Z.eqb_spec (up_status resp) 200) as [Hst|Hst]; cbn [negb]; [|discriminate].
    destruct (up_read resp) as [body|e] eqn:Hread.
    2:{ intros H. injection H as H _. now apply on_download_error_not_file in H. }
    intros H. injection H as <- <- <- <-.
    split; [exact Hm|]. exists file_id, path, resp. now repeat split.
  - intros (Hm & file_id & path & resp & -> & Hne & Hg & Hget & Hst & Hread & -> & -> & ->).
    unfold Api.handle_api_download.
    rewrite (not_options _ Hm), (truthy_nonempty _ Hne), Hg, Hget, Hst, Hread.
    reflexivity.
Qed.

(** X15. Whatever the request and whatever the origin and the upstream do,
    the handler fetches at most one URL, and only the Telegram file URL of
    the path that the origin gave for the requested [file_id]; it fetches
    nothing for a pre-flight or a missing [file_id]; and the status of its
    answer is 200, 400, 413, 500 or 502. *)
Theorem download_fetches_only_resolved_url
        (method : string) (q_file_id q_name : option string) :
  let resp := fst (handle_api_download method q_file_id q_name) in
  let urls := snd (handle_api_download method q_file_id q_name) in
  (length urls <= 1)%nat /\
  (forall u, In u urls ->
     method <> "OPTIONS" /\
     exists file_id path,
       q_file_id = Some file_id /\ file_id <> "" /\
       get_file file_id = Ret path /\
       u = "https://api.telegram.org/file/bot" ++ BOT_TOKEN ++ "/" ++ Py.str_opt path) /\
  In (status_of resp) [200; 400; 413; 500; 502].
Proof.
  cbv zeta. unfold Api.handle_api_download.
  destruct (String.eqb_spec method "OPTIONS") as [|Hm].
  { cbn. split; [lia|]. split; [intros u []|tauto]. }
  destruct q_file_id as [file_id|].
  2:{ cbn. split; [lia|]. split; [intros u []|tauto]. }
  unfold Py.truthy. destruct (String.eqb_spec file_id "") as [|Hne]; cbn [negb].
  { cbn. split; [lia|]. split; [intros u []|tauto]. }
  destruct (get_file file_id) as [path|e] eqn:Hg.
  2:{ cbn [fst snd length]. split; [lia|]. split; [intros u []|].
      pose proof (on_download_error_status e) as H. simpl in *. tauto. }
  assert (forall u, In u [file_url path] ->
            method <> "OPTIONS" /\
            exists file_id0 path0,
              Some file_id = Some file_id0 /\ file_id0 <> "" /\
              get_file file_id0 = Ret path0 /\
              u = "https://api.telegram.org/file/bot" ++ BOT_TOKEN ++ "/"
                    ++ Py.str_opt path0) as Hurl.
  { intros u [<-|[]]. split; [exact Hm|]. now exists file_id, path. }
  destruct (http_get (file_url path)) as [resp|e].
  2:{ cbn [fst snd length]. split; [lia|]. split; [exact Hurl|].
      pose proof (on_download_error_status e) as H. simpl in *. tauto. }
  destruct (negb (up_status resp =? 200)).
  { cbn [fst snd length]. split; [lia|]. split; [exact Hurl|]. simpl. tauto. }
  destruct (up_read resp) as [body|e].
  - cbn [fst snd length]. split; [lia|]. split; [exact Hurl|]. simpl. tauto.
  - cbn [fst snd length]. split; [lia|]. split; [exact Hurl|].
    pose proof (on_download_error_status e) as H. simpl in *. tauto.
Qed.

(** X16. The size ceiling is recognised by the text of the error alone: an
    error whose text holds "file is too big" in any letter case, anywhere,
    is answered with status 413 and the remediation text, whether it comes
    from resolving the file, from the fetch (the URL has then been
    fetched) or from reading the body. *)
Theorem too_big_is_matched_in_any_case
        (method file_id : string) (q_name : option string) (a s b : string) :
  method <> "OPTIONS" ->
  file_id <> "" ->
  Py.lower s = "file is too big" ->
  let e := a ++ s ++ b in
  (get_file file_id = Raise e ->
   handle_api_download method (Some file_id) q_name
     = (JsonError 413 too_large_text, [])) /\
  (forall path, get_file file_id = Ret path ->
     http_get (file_url path) = Raise e ->
     handle_api_download method (Some file_id) q_name
       = (JsonError 413 too_large_text, [file_url path])) /\
  (forall path resp, get_file file_id = Ret path ->
     http_get (file_url path) = Ret resp ->
     up_status resp = 200 -> up_read resp = Raise e ->
     handle_api_download method (Some file_id) q_name
       = (JsonError 413 too_large_text, [file_url path])).
Proof.
  intros Hm Hne Hs e.
  assert (on_download_error e = JsonError 413 too_large_text) as Herr.
  { unfold on_download_error, e. rewrite !lower_app, Hs.
    now rewrite contains_app. }
  unfold Api.handle_api_download.
  rewrite (not_options _ Hm), (truthy_nonempty _ Hne). cbn [negb].
  split; [|split].
  - intros ->. now rewrite Herr.
  - intros path -> ->. now rewrite Herr.
  - intros path resp -> -> -> ->. now rewrite Herr.
Qed.

End DownloadMore.

Lemma download_fetches_only_resolved_url_witness :
  let get_file := fun _ : string => Ret (Some "photos/file_3.jpg") in
  let http_get := fun _ : string => @Raise Api.upstream "Server disconnected" in
  snd (Api.handle_api_download "TOKEN" get_file http_get "GET" (Some "AgACAgIAAxkBAAIC") None)
    = ["https://api.telegram.org/file/botTOKEN/photos/file_3.jpg"] /\
  (length (snd (Api.handle_api_download "TOKEN" get_file http_get "GET"
                  (Some "AgACAgIAAxkBAAIC") None)) <= 1)%nat.
Proof.
  cbv zeta. split; [reflexivity|].
  match goal with
  | |- (length (snd (Api.handle_api_download ?t ?g ?h ?m ?f ?n)) <= 1)%nat =>
      exact (proj1 (download_fetches_only_resolved_url t g h m f n))
  end.
Defined.

Lemma too_big_is_matched_in_any_case_witness :
  let e := "Telegram server says - Bad Request: " ++ "File Is Too Big" ++ "" in
  let get_file := fun _ : string => @Raise (option string) e in
  let http_get := fun _ : string => @Raise Api.upstream "not reached" in
  "GET" <> "OPTIONS" /\ "BQACAgIAAxkBAAIB" <> "" /\
  Py.lower "File Is Too Big" = "file is too big" /\
  Api.handle_api_download "TOKEN" get_file http_get "GET" (Some "BQACAgIAAxkBAAIB") None
    = (Api.JsonError 413 Api.too_large_text, []).
Proof.
  cbv zeta.
  assert (H1 : "GET" <> "OPTIONS") by discriminate.
  assert (H2 : "BQACAgIAAxkBAAIB" <> "") by discriminate.
  split; [exact H1|]. split; [exact H2|]. split; [reflexivity|].
  match goal with
  | |- Api.handle_api_download ?t ?g ?h _ _ _ = _ =>
      exact (proj1 (too_big_is_matched_in_any_case t g h "GET" "BQACAgIAAxkBAAIB" None
                      "Telegram server says - Bad Request: " "File Is Too Big" ""
                      H1 H2 eq_refl) eq_refl)
  end.
Defined.
(** ** Further properties of the listing *)

Section EpochFacts.

Import Api.

Lemma round_half_even_bounds a d :
  0 < d -> a / d <= Format.round_half_even a d <= a / d + 1.
Proof.
  intros Hd. unfold Format.round_half_even.
  destruct ((2 * (a mod d) >? d) || ((2 * (a mod d) =? d) && Z.odd (a / d)))%bool; lia.
Qed.

Lemma round_half_even_up a d :
  0 < d -> Format.round_half_even a d = a / d + 1 -> d <= 2 * (a mod d).
Proof.
  intros Hd. unfold Format.round_half_even.
  destruct (2 * (a mod d) >? d) eqn:E1; cbn [orb].
  - lia.
  - destruct (2 * (a mod d) =? d) eqn:E2; cbn [andb]; [lia|].
    destruct (Z.odd (a / d)); lia.
Qed.

(** A quotient by [10**6] that is scaled by [2^k], [k] from 19 on, and
    rounded to the nearest integer does not reach the next multiple of
    [2^k]. *)
Lemma scaled_quotient_trunc t k :
  0 <= t -> 19 <= k ->
  Format.round_half_even (t * 2 ^ k) 1000000 / 2 ^ k = t / 1000000.
Proof.
  intros Ht Hk.
  set (P := 2 ^ k).
  assert (HP : 2 ^ 19 <= P) by (apply Z.pow_le_mono_r; lia).
  change (2 ^ 19) with 524288 in HP.
  pose proof (Z.div_mod t 1000000 ltac:(lia)) as Hdm.
  pose proof (Z.mod_pos_bound t 1000000 ltac:(lia)) as Hr.
  set (q := t / 1000000) in *. set (r := t mod 1000000) in *.
  pose proof (Z.div_mod (t * P) 1000000 ltac:(lia)) as Hdm'.
  pose proof (Z.mod_pos_bound (t * P) 1000000 ltac:(lia)) as Hr'.
  pose proof (round_half_even_bounds (t * P) 1000000 ltac:(lia)) as Hb.
  pose proof (round_half_even_up (t * P) 1000000 ltac:(lia)) as Hup.
  set (m := Format.round_half_even (t * P) 1000000) in *.
  set (q' := (t * P) / 1000000) in *. set (r' := (t * P) mod 1000000) in *.
  symmetry. apply (Z.div_unique_pos m P q (m - q * P)); [|lia].
  assert (q * P <= q') by nia.
  split; [lia|].
  destruct (Z.eq_dec m (q' + 1)) as [E|E].
  - specialize (Hup E). nia.
  - assert (m = q') by lia. nia.
Qed.

(** For a stored time from the epoch on and below 2^53 microseconds (the
    year 2255), [int(ts.timestamp())] is the number of whole seconds. *)
Lemma epoch_seconds_floor t :
  0 <= t < 2 ^ 53 -> epoch_seconds t = t / 1000000.
Proof.
  intros [H0 H53]. unfold epoch_seconds.
  destruct (Z.eqb_spec t 0) as [->|Hne]; [reflexivity|].
  assert (Hpos : 0 < t) by lia.
  rewrite (Z.sgn_pos t Hpos), (Z.abs_eq t H0), Z.mul_1_l.
  assert (Hlog : Z.log2 t <= 52).
  { apply Z.lt_succ_r. apply Z.log2_lt_pow2; [exact Hpos | exact H53]. }
  pose proof (Z.log2_nonneg t) as Hlog0.
  unfold true_divide. change (Z.log2 1000000) with 19.
  set (e0 := Z.log2 t - 19 - 52).
  match goal with
  | |- float_trunc (Format.round_half_even _ _, ?x) = _ => set (e := x)
  end.
  assert (He : e <= -19).
  { unfold e. destruct (_ <=? _); lia. }
  unfold float_trunc.
  destruct (Z.leb_spec 0 e) as [Habs|_]; [lia|].
  rewrite (Z.max_r 0 (- e)) by lia. rewrite (Z.max_l 0 e) by lia.
  change (2 ^ 0) with 1. rewrite Z.mul_1_r.
  apply scaled_quotient_trunc; lia.
Qed.

(** Far from the epoch the division rounds, and the seconds listed are
    those of the next second; before the epoch [int] cuts towards zero. *)
Lemma epoch_seconds_examples :
  epoch_seconds 1700000500999999 = 1700000500 /\
  epoch_seconds 253402300799999999 = 253402300800 /\
  epoch_seconds (-1500000) = -1 /\
  epoch_seconds 0 = 0.
Proof. repeat split; vm_compute; reflexivity. Qed.

End EpochFacts.

Section ListingMore.

Import Api.

Lemma traverse_in {A B} (f : A -> pyres B) l bs a :
  traverse f l = Ret bs -> In a l -> exists b, f a = Ret b /\ In b bs.
Proof.
  intros H Hin. apply In_nth_error in Hin. destruct Hin as [i Hi].
  destruct (traverse_nth f l bs i a H Hi) as (b & Hb & Hfa).
  exists b. split; [exact Hfa | eapply nth_error_In; exact Hb].
Qed.

Lemma traverse_in_inv {A B} (f : A -> pyres B) l : forall bs b,
  traverse f l = Ret bs -> In b bs -> exists a, In a l /\ f a = Ret b.
Proof.
  induction l as [|x l IH]; intros bs b H Hin.
  - injection H as <-. destruct Hin.
  - apply traverse_cons in H. destruct H as (y & bs' & -> & Hy & H).
    destruct Hin as [<-|Hin].
    + exists x. split; [now left | exact Hy].
    + destruct (IH bs' b H Hin) as (a & Ha & Hfa).
      exists a. split; [now right | exact Hfa].
Qed.

Lemma traverse_raises {A B} (f : A -> pyres B) l a e :
  In a l -> f a = Raise e -> exists e', traverse f l = Raise e'.
Proof.
  intros Hin Hfa. destruct (traverse f l) as [bs|e'] eqn:H; [|now exists e'].
  destruct (traverse_in f l bs a H Hin) as (b & Hb & _). congruence.
Qed.

(** What the loop body makes of a document when it does not raise. *)
Lemma normalize_shape doc d :
  normalize doc = Ret d ->
  d !! "id" = Some (VStr (Firestore.doc_id doc)) /\
  (forall k, k <> "id" -> k <> "timestamp" -> d !! k = Firestore.doc_fields doc !! k) /\
  d !! "timestamp" =
    match Firestore.doc_fields doc !! "timestamp" with
    | Some (VTimestamp t) => Some (VMap [("seconds", VInt (epoch_seconds t))])
    | other => other
    end.
Proof.
  unfold normalize.
  set (d0 := <["id" := VStr (Firestore.doc_id doc)]> (Firestore.doc_fields doc)).
  assert (d0 !! "timestamp" = Firestore.doc_fields doc !! "timestamp") as Hts.
  { unfold d0. now rewrite lookup_insert_ne by discriminate. }
  assert (d0 !! "id" = Some (VStr (Firestore.doc_id doc))) as Hid
    by apply lookup_insert_eq.
  assert (forall k, k <> "id" -> d0 !! k = Firestore.doc_fields doc !! k) as Hother.
  { intros k Hk. unfold d0. now rewrite lookup_insert_ne by congruence. }
  rewrite Hts.
  destruct (Firestore.doc_fields doc !! "timestamp") as [v|] eqn:Hv.
  2:{ intros H. injection H as <-. split; [exact Hid|].
      split; [intros k Hk _; now apply Hother | exact Hts]. }
  destruct (Val.truthy v) eqn:Tv.
  - destruct v; try discriminate. intros H. injection H as <-.
    split; [rewrite lookup_insert_ne by discriminate; exact Hid|].
    split; [|now rewrite lookup_insert_eq].
    intros k Hk1 Hk2. rewrite lookup_insert_ne by congruence. now apply Hother.
  - intros H. injection H as <-. split; [exact Hid|].
    split; [intros k Hk _; now apply Hother|].
    rewrite Hts. now destruct v.
Qed.

Lemma handle_api_files_cases method db :
  method <> "OPTIONS" ->
  (exists out, handle_api_files method db = JsonFiles out /\
               forallb json_ok out = true) \/
  (exists e, handle_api_files method db = JsonError 500 e).
Proof.
  intros Hm. unfold handle_api_files. rewrite (not_options _ Hm).
  destruct (Firestore.stream db) as [docs|e]; [|right; now exists e].
  destruct (traverse normalize docs) as [files|e]; [|right; now exists e].
  destruct (traverse sort_key files) as [keys|e]; [|right; now exists e].
  destruct (forallb json_ok _) eqn:Hj; [left | right]; eexists; eauto.
Qed.

(** X17. Every record of a listing is a stored document: it carries the
    identifier of the document under [id] (in place of a stored field of
    that name), every other stored field unchanged, and the timestamp as
    [{seconds}], the whole seconds that [int(ts.timestamp())] makes of the
    stored time; for a time from the epoch on and below 2^53 microseconds
    these are the seconds of the stored time, its fraction cut off. *)
Theorem listed_record_shape method db out d :
  handle_api_files method db = JsonFiles out ->
  In d out ->
  exists doc,
    In doc (Firestore.docs db) /\
    d !! "id" = Some (VStr (Firestore.doc_id doc)) /\
    (forall k, k <> "id" -> k <> "timestamp" ->
               d !! k = Firestore.doc_fields doc !! k) /\
    d !! "timestamp" =
      match Firestore.doc_fields doc !! "timestamp" with
      | Some (VTimestamp t) => Some (VMap [("seconds", VInt (epoch_seconds t))])
      | other => other
      end /\
    (forall t, Firestore.doc_fields doc !! "timestamp" = Some (VTimestamp t) ->
               0 <= t < 2 ^ 53 ->
               d !! "timestamp" = Some (VMap [("seconds", VInt (t / 1000000))])).
Proof.
  intros H Hin.
  destruct (handle_api_files_inv _ _ _ H) as (files & keys & Hm & Hf & Hn & Hk & ->).
  destruct (sorted_pairs files keys Hk) as (_ & Hperm & _).
  apply (Permutation_in _ Hperm) in Hin.
  destruct (traverse_in_inv normalize _ _ _ Hn Hin) as (doc & Hdoc & Hnd).
  exists doc. split; [exact Hdoc|].
  destruct (normalize_shape doc d Hnd) as (Hid & Hother & Hts).
  split; [exact Hid|]. split; [exact Hother|]. split; [exact Hts|].
  intros t Ht Hrange. rewrite Hts, Ht. now rewrite (epoch_seconds_floor t Hrange).
Qed.

Lemma sort_key_raises (d : gmap string value) v :
  d !! "timestamp" = Some v -> (forall m, v <> VMap m) ->
  exists e, sort_key d = Raise e.
Proof.
  intros Hd Hv. unfold sort_key. rewrite Hd.
  destruct v; try (eexists; reflexivity). now contradiction (Hv entries).
Qed.

(** X18. One malformed document fails the whole listing: when a stored
    document has a [timestamp] field that is neither a stored time nor an
    empty map (a null, a number, a string, a list, a non-empty map), the
    answer is an error with status 500 and no record is listed. *)
Theorem listing_fails_on_malformed_timestamp method db doc v :
  method <> "OPTIONS" ->
  In doc (Firestore.docs db) ->
  Firestore.doc_fields doc !! "timestamp" = Some v ->
  (forall t, v <> VTimestamp t) -> v <> VMap [] ->
  exists e, handle_api_files method db = JsonError 500 e.
Proof.
  intros Hm Hin Hv Hnot_ts Hnot_empty.
  destruct (handle_api_files_cases method db Hm) as [(out & H & _)|He]; [|exact He].
  exfalso.
  destruct (handle_api_files_inv _ _ _ H) as (files & keys & _ & Hf & Hn & Hk & _).
  destruct (traverse_in normalize _ _ _ Hn Hin) as (d & Hnd & Hd).
  destruct (normalize_shape doc d Hnd) as (_ & _ & Hts). rewrite Hv in Hts.
  assert (Val.truthy v = false) as Hfalsy.
  { revert Hnd. unfold normalize.
    rewrite lookup_insert_ne by discriminate. rewrite Hv.
    destruct (Val.truthy v); [|reflexivity].
    destruct v; try discriminate. now contradiction (Hnot_ts micros). }
  assert (forall m, v <> VMap m) as Hnot_map.
  { intros m ->. destruct m; [now apply Hnot_empty | discriminate]. }
  assert (d !! "timestamp" = Some v) as Hdv.
  { rewrite Hts. destruct v; try reflexivity. now contradiction (Hnot_ts micros). }
  destruct (sort_key_raises d v Hdv Hnot_map) as (e & He).
  destruct (traverse_raises sort_key files d e Hd He) as (e' & He').
  congruence.
Qed.

(** X19. A stored time in any field other than [timestamp] fails the whole
    listing as well: such a value has no JSON form, and the answer is an
    error with status 500. *)
Theorem listing_fails_on_unserializable_field method db doc k v :
  method <> "OPTIONS" ->
  In doc (Firestore.docs db) ->
  k <> "id" -> k <> "timestamp" ->
  Firestore.doc_fields doc !! k = Some v ->
  Val.json_serializable v = false ->
  exists e, handle_api_files method db = JsonError 500 e.
Proof.
  intros Hm Hin Hk1 Hk2 Hv Hser.
  destruct (handle_api_files_cases method db Hm) as [(out & H & Hjson)|He]; [|exact He].
  exfalso.
  destruct (handle_api_files_inv _ _ _ H) as (files & keys & _ & Hf & Hn & Hk & ->).
  destruct (sorted_pairs files keys Hk) as (_ & Hperm & _).
  destruct (traverse_in normalize _ _ _ Hn Hin) as (d & Hnd & Hd).
  destruct (normalize_shape doc d Hnd) as (_ & Hother & _).
  assert (d !! k = Some v) as Hdk by (rewrite Hother; assumption).
  apply (Permutation_in _ (Permutation_sym Hperm)) in Hd.
  rewrite forallb_forall in Hjson. specialize (Hjson d Hd).
  unfold json_ok in Hjson. rewrite forallb_forall in Hjson.
  assert (In (k, v) (map_to_list d)) as Hkv.
  { apply list_elem_of_In, elem_of_map_to_list. exact Hdk. }
  specialize (Hjson (k, v) Hkv). simpl in Hjson. congruence.
Qed.

(** X20. The listing answers with status 200 or 500 and nothing else, and
    an error of the store is answered with status 500 and the text of the
    error. *)
Theorem listing_all_or_nothing method db :
  In (status_of (handle_api_files method db)) [200; 500] /\
  (forall e, method <> "OPTIONS" -> Firestore.fault db = Some e ->
     handle_api_files method db = JsonError 500 e) .
Proof.
  split.
  - destruct (String.eqb_spec method "OPTIONS") as [->|Hm]; [simpl; tauto|].
    destruct (handle_api_files_cases method db Hm) as [(out & -> & _)|(e & ->)];
      simpl; tauto.
  - intros e Hm He. unfold handle_api_files, Firestore.stream.
    now rewrite (not_options _ Hm), He.
Qed.

End ListingMore.

Section IngestedListed.

Import Api.

Variable str_lower : string -> string.

(** X21. What is ingested can be listed: after the handler has stored a
    payload, in a collection that it filled itself, the listing succeeds and
    holds a record with the identifier the store assigned, the file id,
    name, size, mime type, category and chat id that were stored, and the
    whole seconds that [int(ts.timestamp())] makes of the server time. *)
Theorem ingested_file_is_listed method a m fid events :
  method <> "OPTIONS" ->
  Ingest.f_file_id (Ingest.extract m) = Some fid ->
  fid <> "" ->
  let f := Ingest.extract m in
  let db := fst (Ingest.handle_file str_lower a m
                   (Ingest.run str_lower events Ingest.empty_db)) in
  exists out d,
    handle_api_files method db = JsonFiles out /\
    In d out /\
    d !! "id" = Some (VStr (Firestore.new_id a)) /\
    d !! "file_id" = Some (VStr fid) /\
    d !! "file_name" = Some (Val.of_opt_str (Ingest.f_file_name f)) /\
    d !! "file_size" = Some (Val.of_opt_int (Ingest.f_file_size f)) /\
    d !! "mime_type" = Some (Val.of_opt_str (Ingest.f_mime_type f)) /\
    d !! "category"
      = Some (VStr (Classify.classify_file str_lower (Ingest.f_mime_type f)
                                           (Ingest.f_file_name f))) /\
    d !! "chat_id" = Some (VStr (Py.str_int (Ingest.chat m))) /\
    d !! "timestamp"
      = Some (VMap [("seconds", VInt (epoch_seconds (Firestore.now a)))]).
Proof.
  intros Hm Hfid Hne f db.
  destruct (run_keeps_ingested str_lower events Ingest.empty_db) as [Hfault Hdocs].
  { split; [reflexivity | constructor]. }
  destruct (handle_file_keeps_ingested str_lower a m _ (conj Hfault Hdocs))
    as [Hfault' Hdocs'].
  destruct (listing_of_ingested method db Hm Hfault' Hdocs') as (out & Hout).
  destruct (handle_file_added_document str_lower a m _ fid Hfid Hne Hfault)
    as (doc & Hplace & _ & Hid & H1 & H2 & H3 & H4 & H5 & H6 & H7).
  assert (In doc (Firestore.docs db)) as Hin.
  { unfold db. rewrite Hplace. apply place_in. }
  destruct (handle_api_files_inv _ _ _ Hout) as (files & keys & _ & _ & Hn & Hk & Heq).
  destruct (sorted_pairs files keys Hk) as (_ & Hperm & _).
  destruct (traverse_in normalize _ _ _ Hn Hin) as (d & Hnd & Hd).
  destruct (normalize_shape doc d Hnd) as (Hdid & Hother & Hts).
  exists out, d. split; [exact Hout|].
  split; [rewrite Heq; now apply (Permutation_in _ (Permutation_sym Hperm))|].
  split; [now rewrite Hdid, Hid|].
  rewrite H7 in Hts.
  repeat (split; [rewrite Hother by discriminate; assumption|]).
  exact Hts.
Qed.

End IngestedListed.

Section RoundTrip.

Import Api.

Lemma digits_fuel_nonempty fuel : forall n acc,
  acc <> "" -> Py.digits_fuel fuel n acc <> "".
Proof.
  induction fuel as [|f IH]; intros n acc Hacc; simpl; [exact Hacc|].
  destruct (n <? 10); [discriminate|]. apply IH. discriminate.
Qed.

Lemma str_int_nonempty c : Py.str_int c <> "".
Proof.
  unfold Py.str_int, Py.decimal.
  destruct (c <? 0).
  - discriminate.
  - simpl. destruct (c <? 10); [discriminate|].
    apply digits_fuel_nonempty. discriminate.
Qed.

Lemma decimal_chat_id_reaches_chat
      (int_of_str : string -> pyres Z)
      (dispatch : method_kind -> Z -> value -> pyres unit)
      (method file_id : string) (c : Z) :
  method <> "OPTIONS" ->
  file_id <> "" ->
  int_of_str (Py.str_int c) = Ret c ->
  let body := Ret (VMap [("file_id", VStr file_id); ("chat_id", VStr (Py.str_int c))]) in
  Forall (fun cl => c_chat_id cl = c /\ c_file cl = VStr file_id)
         (snd (handle_api_send int_of_str dispatch method body)) /\
  In (status_of (fst (handle_api_send int_of_str dispatch method body))) [200; 500] /\
  (status_of (fst (handle_api_send int_of_str dispatch method body)) = 200 <->
   Exists (fun m => accepts dispatch (VStr file_id) c m = true) methods).
Proof.
  intros Hm Hne Hint body. subst body.
  assert (handle_api_send int_of_str dispatch method
            (Ret (VMap [("file_id", VStr file_id); ("chat_id", VStr (Py.str_int c))]))
          = (if fst (try_methods int_of_str dispatch methods (VStr file_id)
                       (VStr (Py.str_int c)))
             then JsonOk else JsonError 500 "Could not send file",
             snd (try_methods int_of_str dispatch methods (VStr file_id)
                    (VStr (Py.str_int c))))) as ->.
  { unfold handle_api_send. rewrite (not_options _ Hm).
    cbn [Val.get Val.assoc String.eqb Ascii.eqb Bool.eqb Val.truthy].
    destruct (String.eqb_spec file_id "") as [|_]; [contradiction|].
    destruct (String.eqb_spec (Py.str_int c) "") as [E|_];
      [now apply str_int_nonempty in E|].
    cbn [negb orb].
    destruct (try_methods _ _ _ _ _) as [[|] cs]; reflexivity. }
  destruct (try_methods_prefix int_of_str dispatch (VStr file_id)
              (VStr (Py.str_int c)) c Hint methods)
    as (tried & rest & Hms & Hcalls & Hsent).
  set (tm := try_methods _ _ _ _ _) in *. clearbody tm. cbn [fst snd].
  split.
  { rewrite Hcalls. apply List.Forall_forall. intros cl Hin.
    apply List.in_map_iff in Hin. destruct Hin as (m & <- & _). now split. }
  destruct (fst tm).
  - destruct Hsent as (failed & m & -> & _ & Hacc).
    split; [simpl; tauto|]. split; [intros _|reflexivity].
    rewrite Hms. apply Exists_app. left. apply Exists_app. right. now constructor.
  - destruct Hsent as [-> Hall]. rewrite List.app_nil_r in Hms.
    split; [simpl; tauto|]. split; [discriminate|]. intros Hex.
    apply Exists_exists in Hex. destruct Hex as (x & Hin & Hx).
    rewrite Hms in Hin. rewrite Forall_forall in Hall.
    specialize (Hall x Hin). congruence.
Qed.


(** X22. The record that the ingest handler stores leads back to the chat
    the file came from: when [handle_file] has stored a payload, the new
    document holds the file id of the payload and the decimal form of the
    chat's number, and a relay request whose body is made of these two
    stored values is never refused as incomplete; every method it invokes
    is addressed to that chat and given that file id, and it is answered
    with status 200 exactly when one of the four methods accepts. *)
Theorem stored_chat_id_reaches_chat
        (str_lower : string -> string)
        (int_of_str : string -> pyres Z)
        (dispatch : method_kind -> Z -> value -> pyres unit)
        (a : Firestore.assigned) (m : Ingest.Message) (db : Firestore.collection)
        (fid method : string) :
  method <> "OPTIONS" ->
  Ingest.f_file_id (Ingest.extract m) = Some fid ->
  fid <> "" ->
  Firestore.fault db = None ->
  int_of_str (Py.str_int (Ingest.chat m)) = Ret (Ingest.chat m) ->
  exists doc file_id chat_id,
    In doc (Firestore.docs (fst (Ingest.handle_file str_lower a m db))) /\
    Firestore.doc_id doc = Firestore.new_id a /\
    Firestore.doc_fields doc !! "file_id" = Some file_id /\
    Firestore.doc_fields doc !! "chat_id" = Some chat_id /\
    file_id = VStr fid /\
    chat_id = VStr (Py.str_int (Ingest.chat m)) /\
    let body := Ret (VMap [("file_id", file_id); ("chat_id", chat_id)]) in
    Forall (fun cl => c_chat_id cl = Ingest.chat m /\ c_file cl = VStr fid)
           (snd (handle_api_send int_of_str dispatch method body)) /\
    In (status_of (fst (handle_api_send int_of_str dispatch method body))) [200; 500] /\
    (status_of (fst (handle_api_send int_of_str dispatch method body)) = 200 <->
     Exists (fun k => accepts dispatch (VStr fid) (Ingest.chat m) k = true) methods).
Proof.
  intros Hm Hfid Hne Hfault Hint.
  destruct (handle_file_added_document str_lower a m db fid Hfid Hne Hfault)
    as (doc & Hplace & _ & Hid & Hfile & _ & _ & _ & _ & Hchat & _).
  exists doc, (VStr fid), (VStr (Py.str_int (Ingest.chat m))).
  split; [rewrite Hplace; apply place_in|].
  split; [exact Hid|]. split; [exact Hfile|]. split; [exact Hchat|].
  split; [reflexivity|]. split; [reflexivity|].
  exact (decimal_chat_id_reaches_chat int_of_str dispatch method fid (Ingest.chat m)
           Hm Hne Hint).
Qed.

End RoundTrip.


(** ** The further theorems at concrete requests *)

Lemma relay_invocations_bounded_witness :
  let int_of_str := fun s : string =>
                      if (s =? "4242")%string then Ret 4242
                      else @Raise Z "invalid literal" in
  let dispatch := fun (m : Api.method_kind) (_ : Z) (_ : value) =>
                    match m with
                    | Api.send_video => Ret tt
                    | _ => Raise "Bad Request: wrong file type"
                    end in
  let body := Ret (VMap [("file_id", VStr "BAACAgIAAxkB"); ("chat_id", VStr "4242")]) in
  List.map Api.c_method (snd (Api.handle_api_send int_of_str dispatch "POST" body))
    = [Api.send_document; Api.send_photo; Api.send_video] /\
  (length (snd (Api.handle_api_send int_of_str dispatch "POST" body)) <= 4)%nat.
Proof.
  cbv zeta. split; [reflexivity|].
  match goal with
  | |- (length (snd (Api.handle_api_send ?i ?d ?m ?b)) <= 4)%nat =>
      exact (proj1 (relay_invocations_bounded i d m b))
  end.
Defined.

Lemma listed_record_shape_witness :
  let doc := {| Firestore.doc_id := "c";
                Firestore.doc_fields :=
                  <["file_id" := VStr "F3"]>
                  (<["id" := VStr "stale"]>
                  (<["timestamp" := VTimestamp 1700000500999999]> ∅)) |} in
  let db := {| Firestore.docs := [doc]; Firestore.fault := None |} in
  exists out d,
    Api.handle_api_files "GET" db = Api.JsonFiles out /\
    In d out /\
    d !! "id" = Some (VStr "c") /\
    d !! "file_id" = Some (VStr "F3") /\
    d !! "timestamp" = Some (VMap [("seconds", VInt 1700000500)]).
Proof.
  cbv zeta.
  match goal with
  | |- exists out d, Api.handle_api_files _ ?b = _ /\ _ => set (db := b)
  end.
  assert (exists out d, Api.handle_api_files "GET" db = Api.JsonFiles out /\ out = [d])
    as (out & d & H & Hout).
  { vm_compute. eexists _, _. split; reflexivity. }
  assert (Hin : In d out) by (rewrite Hout; now left).
  destruct (listed_record_shape "GET" db out d H Hin)
    as (doc & Hdoc & Hid & Hother & Hts & _).
  destruct Hdoc as [<-|[]].
  exists out, d. split; [exact H|]. split; [exact Hin|].
  split; [exact Hid|].
  split; [rewrite Hother by discriminate; vm_compute; reflexivity|].
  rewrite Hts. vm_compute. reflexivity.
Defined.

Lemma listing_fails_on_malformed_timestamp_witness :
  let doc := {| Firestore.doc_id := "n";
                Firestore.doc_fields :=
                  <["file_id" := VStr "F9"]> (<["timestamp" := VNone]> ∅) |} in
  let good := {| Firestore.doc_id := "g";
                 Firestore.doc_fields :=
                   <["file_id" := VStr "F1"]>
                   (<["timestamp" := VTimestamp 1700000000000000]> ∅) |} in
  let db := {| Firestore.docs := [good; doc]; Firestore.fault := None |} in
  "GET" <> "OPTIONS" /\ In doc (Firestore.docs db) /\
  Firestore.doc_fields doc !! "timestamp" = Some VNone /\
  exists e, Api.handle_api_files "GET" db = Api.JsonError 500 e.
Proof.
  cbv zeta.
  assert (H1 : "GET" <> "OPTIONS") by discriminate.
  split; [exact H1|].
  match goal with
  | |- In ?d (Firestore.docs ?b) /\ _ => set (doc := d); set (db := b)
  end.
  assert (Hin : In doc (Firestore.docs db)) by (right; left; reflexivity).
  assert (Hts : Firestore.doc_fields doc !! "timestamp" = Some VNone)
    by (vm_compute; reflexivity).
  split; [exact Hin|]. split; [exact Hts|].
  apply (listing_fails_on_malformed_timestamp "GET" db doc VNone H1 Hin Hts);
    discriminate.
Defined.

Lemma listing_fails_on_unserializable_field_witness :
  let doc := {| Firestore.doc_id := "n";
                Firestore.doc_fields :=
                  <["file_id" := VStr "F9"]>
                  (<["uploaded_at" := VTimestamp 1700000000000000]> ∅) |} in
  let db := {| Firestore.docs := [doc]; Firestore.fault := None |} in
  "GET" <> "OPTIONS" /\ In doc (Firestore.docs db) /\
  Firestore.doc_fields doc !! "uploaded_at" = Some (VTimestamp 1700000000000000) /\
  exists e, Api.handle_api_files "GET" db = Api.JsonError 500 e.
Proof.
  cbv zeta.
  assert (H1 : "GET" <> "OPTIONS") by discriminate.
  split; [exact H1|].
  match goal with
  | |- In ?d (Firestore.docs ?b) /\ _ => set (doc := d); set (db := b)
  end.
  assert (Hin : In doc (Firestore.docs db)) by (left; reflexivity).
  assert (Hv : Firestore.doc_fields doc !! "uploaded_at"
               = Some (VTimestamp 1700000000000000)) by (vm_compute; reflexivity).
  split; [exact Hin|]. split; [exact Hv|].
  apply (listing_fails_on_unserializable_field "GET" db doc "uploaded_at"
           (VTimestamp 1700000000000000) H1 Hin); [discriminate | discriminate | exact Hv |].
  reflexivity.
Defined.

Lemma listing_all_or_nothing_witness :
  let db := {| Firestore.docs := []; Firestore.fault := Some "503 Service Unavailable" |} in
  "GET" <> "OPTIONS" /\
  Api.handle_api_files "GET" db = Api.JsonError 500 "503 Service Unavailable".
Proof.
  cbv zeta.
  assert (H1 : "GET" <> "OPTIONS") by discriminate.
  split; [exact H1|].
  match goal with
  | |- Api.handle_api_files _ ?b = _ =>
      exact (proj2 (listing_all_or_nothing "GET" b) _ H1 eq_refl)
  end.
Defined.

Lemma ingested_file_is_listed_witness :
  let d := {| Ingest.file_id := "BQACAgIAAxkBAAIB"; Ingest.file_unique_id := "AgADBQAD";
              Ingest.file_name := Some "notes.PDF"; Ingest.mime_type := None;
              Ingest.file_size := Some 2048 |} in
  let m := Ingest.message_of Ingest.DOCUMENT [] d 17 4242 in
  let a := {| Firestore.new_id := "x1"; Firestore.now := 1700000000123456;
              Firestore.position := 0 |} in
  "GET" <> "OPTIONS" /\
  Ingest.f_file_id (Ingest.extract m) = Some "BQACAgIAAxkBAAIB" /\
  "BQACAgIAAxkBAAIB" <> "" /\
  exists out r,
    Api.handle_api_files "GET"
      (fst (Ingest.handle_file Py.lower a m (Ingest.run Py.lower [] Ingest.empty_db)))
      = Api.JsonFiles out /\
    In r out /\
    r !! "id" = Some (VStr "x1") /\
    r !! "timestamp" = Some (VMap [("seconds", VInt 1700000000)]).
Proof.
  cbv zeta.
  assert (H1 : "GET" <> "OPTIONS") by discriminate.
  assert (H3 : "BQACAgIAAxkBAAIB" <> "") by discriminate.
  split; [exact H1|]. split; [reflexivity|]. split; [exact H3|].
  match goal with
  | |- exists out r, Api.handle_api_files _ (fst (Ingest.handle_file _ ?a ?m _)) = _ /\ _ =>
      destruct (ingested_file_is_listed Py.lower "GET" a m "BQACAgIAAxkBAAIB" []
                  H1 eq_refl H3)
        as (out & r & Hout & Hin & Hid & _ & _ & _ & _ & _ & _ & Hts)
  end.
  exists out, r. split; [exact Hout|]. split; [exact Hin|].
  split; [exact Hid | exact Hts].
Defined.

Lemma stored_chat_id_reaches_chat_witness :
  let int_of_str := fun s : string =>
                      if (s =? "-1001234")%string then Ret (-1001234)
                      else @Raise Z "invalid literal" in
  let dispatch := fun (m : Api.method_kind) (_ : Z) (_ : value) =>
                    match m with
                    | Api.send_document => Ret tt
                    | _ => Raise "Bad Request: wrong file type"
                    end in
  let d := {| Ingest.file_id := "BQACAgIAAxkBAAIB"; Ingest.file_unique_id := "AgADBQAD";
              Ingest.file_name := Some "notes.PDF"; Ingest.mime_type := None;
              Ingest.file_size := Some 2048 |} in
  let m := Ingest.message_of Ingest.DOCUMENT [] d 17 (-1001234) in
  let a := {| Firestore.new_id := "x1"; Firestore.now := 1700000000123456;
              Firestore.position := 0 |} in
  "POST" <> "OPTIONS" /\
  Ingest.f_file_id (Ingest.extract m) = Some "BQACAgIAAxkBAAIB" /\
  "BQACAgIAAxkBAAIB" <> "" /\
  Firestore.fault Ingest.empty_db = None /\
  int_of_str (Py.str_int (Ingest.chat m)) = Ret (Ingest.chat m) /\
  exists doc,
    Firestore.docs (fst (Ingest.handle_file Py.lower a m Ingest.empty_db)) = [doc] /\
    Firestore.doc_fields doc !! "chat_id" = Some (VStr "-1001234") /\
    Api.handle_api_send int_of_str dispatch "POST"
      (Ret (VMap [("file_id", VStr "BQACAgIAAxkBAAIB"); ("chat_id", VStr "-1001234")]))
    = (Api.JsonOk,
       [{| Api.c_method := Api.send_document; Api.c_chat_id := -1001234;
           Api.c_file := VStr "BQACAgIAAxkBAAIB" |}]).
Proof.
  cbv zeta.
  assert (H1 : "POST" <> "OPTIONS") by discriminate.
  assert (H3 : "BQACAgIAAxkBAAIB" <> "") by discriminate.
  split; [exact H1|]. split; [reflexivity|]. split; [exact H3|].
  split; [reflexivity|]. split; [reflexivity|].
  match goal with
  | |- exists doc, Firestore.docs (fst (Ingest.handle_file _ ?a ?m _)) = _ /\ _ /\
                   Api.handle_api_send ?i ?d _ _ = _ =>
      destruct (stored_chat_id_reaches_chat Py.lower i d a m Ingest.empty_db
                  "BQACAgIAAxkBAAIB" "POST" H1 eq_refl H3 eq_refl eq_refl)
        as (doc & f & c & Hin & _ & _ & Hc & _ & -> & _)
  end.
  exists doc. split.
  - destruct Hin as [<- | []]. reflexivity.
  - split; [exact Hc | reflexivity].
Defined.
